(** * reddit-to-cartoon: the service layer and the ebook component

    A shallow embedding of [services/gemini.ts] (prompt-and-parse helpers,
    image requests behind the throttling retry wrapper) and of the stateful
    part of [components/EbookCreator.tsx] (sequential illustration, caption
    refinement, data-URI decoding), followed by the properties the
    specification states about them.

    Conventions of the embedding:
    - a JavaScript string is a [string]; a binary string (the result of
      [atob]) is a [string] too, one character per byte;
    - a value that comes out of [JSON.parse] is a [value]; numbers are
      restricted to integers ([Z]), which is all the code inspects;
    - a thrown exception is [Throw e], a normal completion [Ok a];
    - the remote service, the host clock and [JSON.parse] are parameters of
      the development (Section variables): nothing is assumed about them;
    - asynchronous code is sequential here: every [await] is a bind. *)

From Stdlib Require Import List String Ascii Bool ZArith Lia.
From Stdlib.Strings Require Import Byte.
From Stdlib Require Import DecimalString DecimalZ DecimalFacts.
Import ListNotations.

Set Warnings "-register-all".

Open Scope string_scope.
Open Scope Z_scope.

(* ================================================================== *)
(** ** JavaScript strings *)

(** [s.startsWith(p)] *)
Fixpoint starts_with (p s : string) {struct p} : bool :=
  match p with
  | EmptyString => true
  | String a p' =>
      match s with
      | EmptyString => false
      | String b s' => Ascii.eqb a b && starts_with p' s'
      end
  end.

(** [hay.includes(needle)] *)
Fixpoint includes (needle hay : string) {struct hay} : bool :=
  starts_with needle hay
  || match hay with
     | EmptyString => false
     | String _ hay' => includes needle hay'
     end.

(** [s.slice(n)] for [0 <= n] *)
Fixpoint drop (n : nat) (s : string) : string :=
  match n, s with
  | O, _ => s
  | S _, EmptyString => EmptyString
  | S k, String _ s' => drop k s'
  end.

(** The scan of [s.split(sep)] for a non-empty separator: [skip] characters
    of a separator just found are still to be passed over, [cur] is the piece
    collected so far. *)
Fixpoint split_scan (sep : string) (skip : nat) (cur s : string) : list string :=
  match s with
  | EmptyString => [cur]
  | String c s' =>
      match skip with
      | S k => split_scan sep k cur s'
      | O =>
          if starts_with sep s
          then cur :: split_scan sep (pred (String.length sep)) EmptyString s'
          else split_scan sep O (cur ++ String c EmptyString) s'
      end
  end.

Fixpoint chars (s : string) : list string :=
  match s with
  | EmptyString => []
  | String c s' => String c EmptyString :: chars s'
  end.

(** [s.split(sep)]; the empty separator cuts between all characters. *)
Definition split (sep s : string) : list string :=
  match sep with
  | EmptyString => chars s
  | _ => split_scan sep O EmptyString s
  end.

(** The longest prefix of [s] that ends with a closing bracket. *)
Fixpoint upto_last_bracket (s : string) : option string :=
  match s with
  | EmptyString => None
  | String c s' =>
      match upto_last_bracket s' with
      | Some t => Some (String c t)
      | None => if Ascii.eqb c "]" then Some (String c EmptyString) else None
      end
  end.

(** [text.match(/\[[\s\S]*\]/)]: the match, when there is one, runs from the
    first opening bracket to the last closing bracket after it (the star is
    greedy and [[\s\S]] accepts every character). *)
Fixpoint match_bracketed (text : string) : option string :=
  match text with
  | EmptyString => None
  | String c t =>
      if Ascii.eqb c "["
      then option_map (String c) (upto_last_bracket t)
      else match_bracketed t
  end.

(** [base64.replace(/^data:image\/(png|jpeg|jpg);base64,/, "")] *)
Definition strip_data_uri_prefix (s : string) : string :=
  if starts_with "data:image/png;base64," s then drop 22 s
  else if starts_with "data:image/jpeg;base64," s then drop 23 s
  else if starts_with "data:image/jpg;base64," s then drop 22 s
  else s.

(** [String(n)] for an integer [n]: decimal digits, a leading minus sign for
    a negative number (JavaScript switches to exponent notation from 10^21
    on; timestamps and indices stay far below). *)
Definition string_of_Z (n : Z) : string :=
  NilZero.string_of_int (Z.to_int n).

(** [a || d] on an optional string: [undefined] and [""] are falsy. *)
Definition or_default (a : option string) (d : string) : string :=
  match a with
  | Some EmptyString | None => d
  | Some s => s
  end.

(* ================================================================== *)
(** ** Exceptions and parsed values *)

(** A thrown error object, with the three fields the retry wrapper reads. *)
Record JsError : Type := mkError {
  err_name : string;
  err_status : option string;
  err_code : option Z;
  err_message : option string
}.

(** [new Error(msg)] *)
Definition Error (msg : string) : JsError := mkError "Error" None None (Some msg).
(** A [TypeError] raised by the runtime (property of [null], call of a
    non-function). *)
Definition TypeError (msg : string) : JsError :=
  mkError "TypeError" None None (Some msg).
(** The [RangeError] of [Array(n)] for an invalid length. *)
Definition RangeError (msg : string) : JsError :=
  mkError "RangeError" None None (Some msg).

Inductive Result (A : Type) : Type :=
| Ok (a : A)
| Throw (e : JsError).
Arguments Ok {A} a.
Arguments Throw {A} e.

Definition is_ok {A : Type} (r : Result A) : bool :=
  match r with Ok _ => true | Throw _ => false end.

(** What [JSON.parse] can return, plus [undefined] for absent properties. *)
Inductive value : Type :=
| VUndefined
| VNull
| VBool (b : bool)
| VNum (n : Z)
| VStr (s : string)
| VArr (items : list value)
| VObj (fields : list (string * value)).

Fixpoint lookup_field (k : string) (fields : list (string * value)) : value :=
  match fields with
  | [] => VUndefined
  | (k', v) :: rest => if String.eqb k k' then v else lookup_field k rest
  end.

(** [v.k]: a property read throws on [null] and [undefined] and yields
    [undefined] when the property is absent.  None of the property names the
    code reads ([title], [panels], [id], ...) exists on a primitive or on an
    array. *)
Definition get (v : value) (k : string) : Result value :=
  match v with
  | VUndefined | VNull => Throw (TypeError "Cannot read properties of null or undefined")
  | VObj fields => Ok (lookup_field k fields)
  | _ => Ok VUndefined
  end.

Definition truthy (v : value) : bool :=
  match v with
  | VUndefined | VNull => false
  | VBool b => b
  | VNum n => negb (n =? 0)
  | VStr s => negb (String.eqb s "")
  | VArr _ | VObj _ => true
  end.

(** [a || b] *)
Definition or_else (a b : value) : value := if truthy a then a else b.

Fixpoint join (sep : string) (l : list string) : string :=
  match l with
  | [] => ""
  | [x] => x
  | x :: rest => x ++ sep ++ join sep rest
  end.

(** [String(v)], as a template literal applies it. *)
Fixpoint to_string (v : value) : string :=
  match v with
  | VUndefined => "undefined"
  | VNull => "null"
  | VBool true => "true"
  | VBool false => "false"
  | VNum n => string_of_Z n
  | VStr s => s
  | VArr items =>
      join "," (map (fun x => match x with
                              | VUndefined | VNull => ""
                              | _ => to_string x
                              end) items)
  | VObj _ => "[object Object]"
  end.

(** [v === n] for a number [n] *)
Definition strict_eq_num (v : value) (n : Z) : bool :=
  match v with
  | VNum m => m =? n
  | _ => false
  end.

(* ================================================================== *)
(** ** The data model of [types.ts] *)

Inductive LayoutStyle : Type := STORYBOOK | COMIC_STRIP.

(** Fields that are filled from parsed service data hold a [value]: the
    declared TypeScript type is not checked at run time. *)
Record Story : Type := mkStory {
  story_id : string;
  title : value;
  summary : value;
  source : value;
  panelCount : option Z;
  visualStyle : option string;
  layoutStyle : option LayoutStyle;
  targetAudience : option string
}.

Record Panel : Type := mkPanel {
  panel_id : Z;
  description : string;
  caption : value;
  imageUrl : option string;
  isGenerating : bool
}.

Record AnalysisResult : Type := mkAnalysis {
  score : value;
  viralPotential : value;
  coherenceCheck : value;
  critique : value;
  textQuality : value;
  visualQuality : value;
  suggestions : value
}.

Record RefinedContent : Type := mkRefined {
  newTitle : value;
  newSummary : value;
  refinedPanels : value
}.

(** A [Blob]: its bytes and its [type]. *)
Record Blob : Type := mkBlob {
  blob_bytes : list byte;
  blob_type : string
}.

(* ================================================================== *)
(** ** The service interface *)

(** A request to [ai.models.generateContent]: which prompt is built, and the
    arguments interpolated into it. *)
Inductive Request : Type :=
| ReqFindStories (topic audience : string)
| ReqStoryFromPrompt (userPrompt : string) (count : Z) (audience : string)
| ReqScript (count : Z) (storyTitle storySummary style audience : string)
| ReqPanelImage (prompt : string)
| ReqCoverImage (storyTitle storySummary style : string)
| ReqEditImage (cleanBase64 prompt : string)
| ReqAnalysis (storyTitle storySummary audience style : string)
              (cover : option string) (captionsSample : string)
| ReqRefine (currentTitle currentSummary : string)
            (captions : list (Z * value)) (critiqueText audience : string).

Record InlineData : Type := mkInline {
  mimeType : string;
  data : string
}.

Record Part : Type := mkPart {
  inlineData : option InlineData;
  part_text : option string
}.

(** A response: [response.text], and
    [response.candidates?.[0]?.content?.parts || []]. *)
Record Response : Type := mkResponse {
  text : option string;
  parts : list Part
}.

(** The [data:] URI the three image operations build. *)
Definition data_uri (base64 : string) : string :=
  "data:image/png;base64," ++ base64.

(** [for (const part of parts) if (part.inlineData) return `data:...`] *)
Fixpoint first_inline_image (ps : list Part) : option string :=
  match ps with
  | [] => None
  | p :: rest =>
      match inlineData p with
      | Some d => Some (data_uri (data d))
      | None => first_inline_image rest
      end
  end.

(** What the program does that is visible from outside: an exported
    operation is entered ([EvCall]), a request is sent ([EvRequest]), an
    operation handed to the retry wrapper is invoked ([EvInvoke]), a timer
    is awaited ([EvSleep]). *)
Inductive Event : Type :=
| EvCall (r : Request)
| EvRequest (r : Request)
| EvInvoke
| EvSleep (ms : Z).

(* ================================================================== *)
(** ** Base64, as [atob] decodes it and as the service encodes it *)

(** Six bits, most significant first. *)
Definition Sextet : Type := (bool * bool * bool * bool * bool * bool)%type.

Definition bit (b : bool) : nat := if b then 1%nat else 0%nat.

Definition sextet_index (s : Sextet) : nat :=
  let '(b5, b4, b3, b2, b1, b0) := s in
  (32 * bit b5 + 16 * bit b4 + 8 * bit b3 + 4 * bit b2 + 2 * bit b1 + bit b0)%nat.

Definition sextet_of_index (n : nat) : Sextet :=
  (Nat.testbit n 5, Nat.testbit n 4, Nat.testbit n 3,
   Nat.testbit n 2, Nat.testbit n 1, Nat.testbit n 0).

Definition base64_alphabet : string :=
  "ABCDEFGHIJKLMNOPQRSTUVWXYZabcdefghijklmnopqrstuvwxyz0123456789+/".

Definition sextet_char (s : Sextet) : ascii :=
  match String.get (sextet_index s) base64_alphabet with
  | Some c => c
  | None => "A"%char
  end.

Definition char_sextet (c : ascii) : option Sextet :=
  let n := nat_of_ascii c in
  if ((65 <=? n) && (n <=? 90))%nat then Some (sextet_of_index (n - 65))
  else if ((97 <=? n) && (n <=? 122))%nat then Some (sextet_of_index (n - 71))
  else if ((48 <=? n) && (n <=? 57))%nat then Some (sextet_of_index (n + 4))
  else if (n =? 43)%nat then Some (sextet_of_index 62)
  else if (n =? 47)%nat then Some (sextet_of_index 63)
  else None.

(** Three bytes are four sextets. *)
Definition sextets_of_bytes (a b c : ascii) : Sextet * Sextet * Sextet * Sextet :=
  let '(Ascii a0 a1 a2 a3 a4 a5 a6 a7) := a in
  let '(Ascii b0 b1 b2 b3 b4 b5 b6 b7) := b in
  let '(Ascii c0 c1 c2 c3 c4 c5 c6 c7) := c in
  ((a7, a6, a5, a4, a3, a2), (a1, a0, b7, b6, b5, b4),
   (b3, b2, b1, b0, c7, c6), (c5, c4, c3, c2, c1, c0)).

Definition byte1 (s1 s2 : Sextet) : ascii :=
  let '(a7, a6, a5, a4, a3, a2) := s1 in
  let '(a1, a0, _, _, _, _) := s2 in
  Ascii a0 a1 a2 a3 a4 a5 a6 a7.

Definition byte2 (s2 s3 : Sextet) : ascii :=
  let '(_, _, b7, b6, b5, b4) := s2 in
  let '(b3, b2, b1, b0, _, _) := s3 in
  Ascii b0 b1 b2 b3 b4 b5 b6 b7.

Definition byte3 (s3 s4 : Sextet) : ascii :=
  let '(_, _, _, _, c7, c6) := s3 in
  let '(c5, c4, c3, c2, c1, c0) := s4 in
  Ascii c0 c1 c2 c3 c4 c5 c6 c7.

(** Standard base64 with padding: what the service puts in
    [inlineData.data] for the bytes of an image. *)
Fixpoint encode_chars (l : list ascii) : string :=
  match l with
  | [] => ""
  | [a] =>
      let '(s1, s2, _, _) := sextets_of_bytes a zero zero in
      String (sextet_char s1) (String (sextet_char s2) "==")
  | [a; b] =>
      let '(s1, s2, s3, _) := sextets_of_bytes a b zero in
      String (sextet_char s1) (String (sextet_char s2) (String (sextet_char s3) "="))
  | a :: b :: c :: rest =>
      let '(s1, s2, s3, s4) := sextets_of_bytes a b c in
      String (sextet_char s1) (String (sextet_char s2)
        (String (sextet_char s3) (String (sextet_char s4) (encode_chars rest))))
  end.

Definition base64_encode (bytes : list byte) : string :=
  encode_chars (map ascii_of_byte bytes).

(** ASCII whitespace: TAB, LF, FF, CR, SPACE. *)
Definition is_ascii_whitespace (c : ascii) : bool :=
  let n := nat_of_ascii c in
  ((n =? 9) || (n =? 10) || (n =? 12) || (n =? 13) || (n =? 32))%nat.

Fixpoint remove_whitespace (s : string) : string :=
  match s with
  | EmptyString => EmptyString
  | String c s' =>
      if is_ascii_whitespace c then remove_whitespace s'
      else String c (remove_whitespace s')
  end.

Definition is_padding_tail (s : string) : bool :=
  String.eqb s "=" || String.eqb s "==".

(** Removes one or two [=] signs at the end. *)
Fixpoint strip_padding (s : string) : string :=
  match s with
  | EmptyString => EmptyString
  | String c s' =>
      if is_padding_tail s then EmptyString else String c (strip_padding s')
  end.

(** Decoding proper: 24 bits give three bytes; at the end 12 bits give one
    byte and 18 bits two (the spare bits are dropped); a single left-over
    character or a character outside the alphabet is a failure. *)
Fixpoint decode_chars (s : string) : option string :=
  match s with
  | EmptyString => Some EmptyString
  | String _ EmptyString => None
  | String c1 (String c2 EmptyString) =>
      match char_sextet c1, char_sextet c2 with
      | Some s1, Some s2 => Some (String (byte1 s1 s2) EmptyString)
      | _, _ => None
      end
  | String c1 (String c2 (String c3 EmptyString)) =>
      match char_sextet c1, char_sextet c2, char_sextet c3 with
      | Some s1, Some s2, Some s3 =>
          Some (String (byte1 s1 s2) (String (byte2 s2 s3) EmptyString))
      | _, _, _ => None
      end
  | String c1 (String c2 (String c3 (String c4 rest))) =>
      match char_sextet c1, char_sextet c2, char_sextet c3, char_sextet c4,
            decode_chars rest with
      | Some s1, Some s2, Some s3, Some s4, Some out =>
          Some (String (byte1 s1 s2) (String (byte2 s2 s3) (String (byte3 s3 s4) out)))
      | _, _, _, _, _ => None
      end
  end.

(** [window.atob(data)], the forgiving base64 decoding of the HTML standard;
    the failure is the [InvalidCharacterError] DOM exception. *)
Definition atob (encoded : string) : Result string :=
  let d := remove_whitespace encoded in
  let d := if (Nat.modulo (String.length d) 4 =? 0)%nat then strip_padding d else d in
  match decode_chars d with
  | Some raw => Ok raw
  | None =>
      Throw (mkError "InvalidCharacterError" None None
               (Some "The string to be decoded is not correctly encoded."))
  end.

(** The [type] a [Blob] gets from [new Blob(parts, { type })] (File API,
    the constructor steps): the empty string when the given type holds a
    character outside U+0020..U+007E, and otherwise the given type in ASCII
    lower case. *)
Definition in_type_range (c : ascii) : bool :=
  ((32 <=? nat_of_ascii c) && (nat_of_ascii c <=? 126))%nat.

Definition is_ascii_upper (c : ascii) : bool :=
  ((65 <=? nat_of_ascii c) && (nat_of_ascii c <=? 90))%nat.

Definition ascii_lowercase (c : ascii) : ascii :=
  if is_ascii_upper c then ascii_of_nat (nat_of_ascii c + 32) else c.

Definition normalized_type (t : string) : string :=
  if forallb in_type_range (list_ascii_of_string t)
  then string_of_list_ascii (map ascii_lowercase (list_ascii_of_string t))
  else "".

Definition new_Blob (bytes : list byte) (t : string) : Blob :=
  mkBlob bytes (normalized_type t).

(** [base64ToBlob] of EbookCreator.tsx.  [parts[1]] is [undefined] when the
    separator is absent, and [atob(undefined)] decodes the text "undefined";
    every failure inside the [try] becomes [Error("Invalid image data")]. *)
Definition base64ToBlob (base64 : string) : Result Blob :=
  let pieces := split ";base64," base64 in
  let contentType :=
    or_default (match nth_error pieces 0 with
                | Some p0 => nth_error (split ":" p0) 1
                | None => None
                end) "image/png" in
  match atob (match nth_error pieces 1 with
              | Some p1 => p1
              | None => "undefined"
              end) with
  | Ok raw => Ok (new_Blob (map byte_of_ascii (list_ascii_of_string raw)) contentType)
  | Throw _ => Throw (Error "Invalid image data")
  end.

(* ================================================================== *)
(** ** Effects: a state-and-exception monad *)

(** A computation over a state [St] that returns or throws. *)
Definition M (St A : Type) : Type := St -> Result A * St.

Definition ret {St A : Type} (a : A) : M St A := fun s => (Ok a, s).

Definition throw {St A : Type} (e : JsError) : M St A := fun s => (Throw e, s).

Definition bind {St A B : Type} (m : M St A) (k : A -> M St B) : M St B :=
  fun s =>
    match m s with
    | (Ok a, s') => k a s'
    | (Throw e, s') => (Throw e, s')
    end.

(** [try { m } catch (e) { h(e) }] *)
Definition try_catch {St A : Type} (m : M St A) (h : JsError -> M St A) : M St A :=
  fun s =>
    match m s with
    | (Ok a, s') => (Ok a, s')
    | (Throw e, s') => h e s'
    end.

(** [try { m } finally { f }], for an [f] that does not throw. *)
Definition try_finally {St A : Type} (m : M St A) (f : St -> St) : M St A :=
  fun s => let (r, s') := m s in (r, f s').

(** A pure step that may throw. *)
Definition lift_result {St A : Type} (r : Result A) : M St A := fun s => (r, s).

Declare Scope js_scope.
Delimit Scope js_scope with js.
Notation "x <- m ;; k" := (bind m (fun x => k))
  (at level 61, m at next level, right associativity) : js_scope.
Notation "m ;; k" := (bind m (fun _ => k))
  (at level 61, right associativity) : js_scope.
Open Scope js_scope.

(** [arr.map((item, index) => f(item, index))] for an effectful [f]. *)
Fixpoint mapM_from {St A B : Type} (i : Z) (f : A -> Z -> M St B) (l : list A)
  : M St (list B) :=
  match l with
  | [] => ret []
  | x :: l' =>
      y <- f x i ;;
      ys <- mapM_from (i + 1) f l' ;;
      ret (y :: ys)
  end.

(** [Array(n)] has the indices [0 .. n-1]. *)
Definition indices (n : Z) : list Z := map Z.of_nat (seq 0 (Z.to_nat n)).

(** [n || d] on an optional number: [undefined] and [0] are falsy. *)
Definition or_count (n : option Z) (d : Z) : Z :=
  match n with
  | Some 0 | None => d
  | Some k => k
  end.

(** The test of [retryOperation] on a caught error:
    [error?.status === "RESOURCE_EXHAUSTED" || error?.code === 429
     || (error?.message && error.message.includes("429"))] *)
Definition isQuotaError (e : JsError) : bool :=
  match err_status e with
  | Some st => String.eqb st "RESOURCE_EXHAUSTED"
  | None => false
  end
  || match err_code e with
     | Some c => c =? 429
     | None => false
     end
  || match err_message e with
     | Some m => negb (String.eqb m "") && includes "429" m
     | None => false
     end.

(* ================================================================== *)
(** ** Pages, screens and forms: the rest of the data *)

(** A relative index of [Array.prototype.slice]: a negative index counts
    from the end, and the result is clamped to the array. *)
Definition relative_index (len k : Z) : Z :=
  if k <? 0 then Z.max (len + k) 0 else Z.min k len.

(** [arr.slice(start, stop)] *)
Definition slice {A : Type} (arr : list A) (start stop : Z) : list A :=
  let len := Z.of_nat (List.length arr) in
  let from := relative_index len start in
  let upto := relative_index len stop in
  firstn (Z.to_nat (upto - from)) (skipn (Z.to_nat from) arr).

(** The loop of [chunkArray],
    [for (let i = 0; i < arr.length; i += size) results.push(arr.slice(i, i + size))],
    from index [i] on; [None] when [fuel] turns of the loop do not end it. *)
Fixpoint chunk_loop {A : Type} (fuel : nat) (arr : list A) (size i : Z)
  : option (list (list A)) :=
  if i <? Z.of_nat (List.length arr)
  then match fuel with
       | O => None
       | S fuel' =>
           option_map (cons (slice arr i (i + size)))
                      (chunk_loop fuel' arr size (i + size))
       end
  else Some [].

(** [chunkArray(arr, size)]: a positive step ends the loop within
    [arr.length] turns. *)
Definition chunkArray {A : Type} (arr : list A) (size : Z) : option (list (list A)) :=
  chunk_loop (List.length arr) arr size 0.

(** White space as [String.prototype.trim] sees it, among the characters a
    [string] here can hold: TAB, LF, VT, FF, CR, SPACE, NBSP. *)
Definition is_js_whitespace (c : ascii) : bool :=
  let n := nat_of_ascii c in
  ((n =? 9) || (n =? 10) || (n =? 11) || (n =? 12) || (n =? 13)
   || (n =? 32) || (n =? 160))%nat.

Fixpoint trim_start (s : string) : string :=
  match s with
  | EmptyString => EmptyString
  | String c s' => if is_js_whitespace c then trim_start s' else s
  end.

Fixpoint trim_end (s : string) : string :=
  match s with
  | EmptyString => EmptyString
  | String c s' =>
      match trim_end s' with
      | EmptyString => if is_js_whitespace c then EmptyString else String c EmptyString
      | t => String c t
      end
  end.

(** [s.trim()] *)
Definition trim (s : string) : string := trim_end (trim_start s).

(** [!s.trim()] *)
Definition blank (s : string) : bool := String.eqb (trim s) "".

(** [arr.join(sep)] on parsed values: [null] and [undefined] give the empty
    text. *)
Definition join_values (sep : string) (l : list value) : string :=
  join sep (map (fun x => match x with
                          | VUndefined | VNull => ""
                          | _ => to_string x
                          end) l).

(** The state of [App] (App.tsx). *)
Inductive AppState : Type := DISCOVER | SCRIPTING | BUILDING | READING.

Record AppModel : Type := mkAppModel {
  appState : AppState;
  selectedStory : option Story;
  hasApiKey : bool;
  isCheckingKey : bool
}.

(** The [useState] initial values of [App]. *)
Definition initial_app : AppModel := mkAppModel DISCOVER None false true.

(** [checkApiKey]; [hasSelected] is [None] when [window.aistudio] is absent,
    and otherwise what [window.aistudio.hasSelectedApiKey()] returns or
    throws. *)
Definition checkApiKey (hasSelected : option (Result bool)) (m : AppModel) : AppModel :=
  mkAppModel (appState m) (selectedStory m)
    (match hasSelected with
     | Some (Ok true) => true
     | _ => hasApiKey m
     end)
    false.

(** [handleConnectApiKey]; [opened] is [None] when [window.aistudio] is
    absent (an alert is shown), and otherwise the outcome of
    [window.aistudio.openSelectKey()]. *)
Definition handleConnectApiKey (opened : option (Result unit)) (m : AppModel) : AppModel :=
  match opened with
  | Some (Ok _) => mkAppModel (appState m) (selectedStory m) true (isCheckingKey m)
  | _ => m
  end.

Definition handleSelectStory (story : Story) (m : AppModel) : AppModel :=
  mkAppModel BUILDING (Some story) (hasApiKey m) (isCheckingKey m).

Definition handleBackToDiscover (m : AppModel) : AppModel :=
  mkAppModel DISCOVER None (hasApiKey m) (isCheckingKey m).

(** What can happen to [App]: the effect on mount, and the three callbacks
    handed to the screens. *)
Inductive AppEvent : Type :=
| KeyChecked (hasSelected : option (Result bool))
| ConnectClicked (opened : option (Result unit))
| StorySelected (story : Story)
| BackClicked.

Definition app_step (m : AppModel) (ev : AppEvent) : AppModel :=
  match ev with
  | KeyChecked hasSelected => checkApiKey hasSelected m
  | ConnectClicked opened => handleConnectApiKey opened m
  | StorySelected story => handleSelectStory story m
  | BackClicked => handleBackToDiscover m
  end.

Definition app_run (events : list AppEvent) : AppModel :=
  fold_left app_step events initial_app.

(** What [App] renders. *)
Inductive Screen : Type :=
| ShowSpinner
| ShowLanding
| ShowStoryFinder
| ShowEbookCreator (story : Story)
| ShowNothing.

(** The [return] statements of [App], in order; the last two conditions
    are [appState === DISCOVER] and [appState === BUILDING && selectedStory]. *)
Definition render (m : AppModel) : Screen :=
  if isCheckingKey m then ShowSpinner
  else if negb (hasApiKey m) then ShowLanding
  else match appState m, selectedStory m with
       | DISCOVER, _ => ShowStoryFinder
       | BUILDING, Some story => ShowEbookCreator story
       | _, _ => ShowNothing
       end.

(** The state of [StoryFinder] (fields carry the prefix [sf_]: several
    share their name with a field of [Story]); [sf_handed] lists the
    stories passed to [onSelectStory]. *)
Inductive Mode : Type := SearchMode | CreateMode.

Record Finder : Type := mkFinder {
  sf_mode : Mode;
  sf_topic : string;
  sf_customPrompt : string;
  sf_panelCount : Z;
  sf_visualStyle : string;
  sf_customStyle : string;
  sf_layoutStyle : LayoutStyle;
  sf_targetAudience : string;
  sf_stories : list Story;
  sf_loading : bool;
  sf_error : option string;
  sf_handed : list Story
}.

(** [customStyle.trim() ? customStyle : visualStyle] *)
Definition getFinalStyle (f : Finder) : string :=
  if blank (sf_customStyle f) then sf_visualStyle f else sf_customStyle f.

(** [{ ...s, panelCount, visualStyle: getFinalStyle(), layoutStyle,
    targetAudience }] *)
Definition with_config (f : Finder) (s : Story) : Story :=
  mkStory (story_id s) (title s) (summary s) (source s)
    (Some (sf_panelCount f)) (Some (getFinalStyle f))
    (Some (sf_layoutStyle f)) (Some (sf_targetAudience f)).

Definition finder_loading (b : bool) (f : Finder) : Finder :=
  mkFinder (sf_mode f) (sf_topic f) (sf_customPrompt f) (sf_panelCount f)
    (sf_visualStyle f) (sf_customStyle f) (sf_layoutStyle f) (sf_targetAudience f)
    (sf_stories f) b (sf_error f) (sf_handed f).

Definition finder_error (e : option string) (f : Finder) : Finder :=
  mkFinder (sf_mode f) (sf_topic f) (sf_customPrompt f) (sf_panelCount f)
    (sf_visualStyle f) (sf_customStyle f) (sf_layoutStyle f) (sf_targetAudience f)
    (sf_stories f) (sf_loading f) e (sf_handed f).

Definition finder_stories (l : list Story) (f : Finder) : Finder :=
  mkFinder (sf_mode f) (sf_topic f) (sf_customPrompt f) (sf_panelCount f)
    (sf_visualStyle f) (sf_customStyle f) (sf_layoutStyle f) (sf_targetAudience f)
    l (sf_loading f) (sf_error f) (sf_handed f).

Definition finder_hand_over (s : Story) (f : Finder) : Finder :=
  mkFinder (sf_mode f) (sf_topic f) (sf_customPrompt f) (sf_panelCount f)
    (sf_visualStyle f) (sf_customStyle f) (sf_layoutStyle f) (sf_targetAudience f)
    (sf_stories f) (sf_loading f) (sf_error f) (sf_handed f ++ [s]).

(** The state of [ImageEditor] (prefix [ed_]). *)
Record Editor : Type := mkEditor {
  ed_prompt : string;
  ed_currentImage : string;
  ed_originalImage : string;
  ed_loading : bool;
  ed_error : option string
}.

(* ================================================================== *)
(** ** A concrete outside world, for running the model

    The service answers from a script (a queue of outcomes) and fails with a
    network error once the script is used up; the clock stands still;
    [JSON.parse] is tabulated on the few texts the examples use. *)

Module Sample.

Definition Ext : Type := list (Result Response).

Definition network_error : JsError :=
  mkError "TypeError" None None (Some "Failed to fetch").

Definition quota_error : JsError :=
  mkError "ApiError" (Some "RESOURCE_EXHAUSTED") (Some 429)
    (Some "Resource has been exhausted (e.g. check quota).").

Definition syntax_error : JsError :=
  mkError "SyntaxError" None None (Some "Unexpected token in JSON").

Definition service (_ : Request) (x : Ext) : Result Response * Ext :=
  match x with
  | [] => (Throw network_error, [])
  | answer :: rest => (answer, rest)
  end.

Definition Date_now (x : Ext) : Z * Ext := (1730000000000, x).

Definition q : string := String "034"%char EmptyString.

(** The text [[{"title":"Cat","source":"Reddit r/aww"},{"title":"Dog"}]]. *)
Definition two_stories_text : string :=
  "[{" ++ q ++ "title" ++ q ++ ":" ++ q ++ "Cat" ++ q ++ ","
  ++ q ++ "source" ++ q ++ ":" ++ q ++ "Reddit r/aww" ++ q ++ "},{"
  ++ q ++ "title" ++ q ++ ":" ++ q ++ "Dog" ++ q ++ "}]".

Definition two_stories : value :=
  VArr [VObj [("title", VStr "Cat"); ("source", VStr "Reddit r/aww")];
        VObj [("title", VStr "Dog")]].

Definition JSON_parse (s : string) : Result value :=
  if String.eqb s two_stories_text then Ok two_stories
  else if String.eqb s "[null]" then Ok (VArr [VNull])
  else if String.eqb s "[]" then Ok (VArr [])
  else if String.eqb s "{}" then Ok (VObj [])
  else if String.eqb s "null" then Ok VNull
  else Throw syntax_error.

Definition answer (t : string) : Result Response := Ok (mkResponse (Some t) []).

Definition image_answer (base64 : string) : Result Response :=
  Ok (mkResponse None [mkPart None (Some "Here is the picture.");
                       mkPart (Some (mkInline "image/png" base64)) None]).

(** An operation that is throttled on its first two invocations; its hidden
    state counts the invocations. *)
Definition flaky (n : nat) : Result string * nat :=
  if (n <? 2)%nat then (Throw quota_error, Datatypes.S n)
  else (Ok "done", Datatypes.S n).

Definition always_throttled (n : nat) : Result string * nat :=
  (Throw quota_error, Datatypes.S n).

Definition always_offline (n : nat) : Result string * nat :=
  (Throw network_error, Datatypes.S n).

(** A request rejected for its size, with status 400: not a throttling
    error, though the byte count in its message holds the digits 429. *)
Definition payload_error : JsError :=
  mkError "ApiError" (Some "INVALID_ARGUMENT") (Some 400)
    (Some "Request payload size exceeds the limit: 4194290 bytes.").

Definition always_too_large (n : nat) : Result string * nat :=
  (Throw payload_error, Datatypes.S n).

Definition story : Story :=
  mkStory "story-1" (VStr "Cat") (VStr "A cat.") (VStr "Reddit r/aww")
    (Some 4) (Some "Watercolor") (Some STORYBOOK) (Some "Kids").

Definition panel (id : Z) (image : option string) (generating : bool) : Panel :=
  mkPanel id ("scene " ++ string_of_Z id) (VStr ("caption " ++ string_of_Z id))
    image generating.

(** The text [{"panels":[{"caption":"Once"},{"caption":"Then"}]}], a
    script reply, and [JSON.parse] tabulated on it as well. *)
Definition script_text : string :=
  "{" ++ q ++ "panels" ++ q ++ ":[{" ++ q ++ "caption" ++ q ++ ":" ++ q ++ "Once" ++ q
  ++ "},{" ++ q ++ "caption" ++ q ++ ":" ++ q ++ "Then" ++ q ++ "}]}".

Definition script_value : value :=
  VObj [("panels", VArr [VObj [("caption", VStr "Once")];
                         VObj [("caption", VStr "Then")]])].

Definition JSON_parse_more (s : string) : Result value :=
  if String.eqb s script_text then Ok script_value else JSON_parse s.

(** The search form as it opens, with a topic and a prompt typed in. *)
Definition finder (topic prompt : string) : Finder :=
  mkFinder SearchMode topic prompt 8 "Vibrant Digital Cartoon" "" STORYBOOK "Kids"
    [] false None [].

End Sample.

(* ================================================================== *)
(** ** services/gemini.ts *)

Section Program.

(** The world outside the program: the state of the remote service and of
    the host, how a request is answered ([getAiClient] and
    [ai.models.generateContent] together: a failure to build the client is a
    failure of the request), the clock, and [JSON.parse]. *)
Variable Ext : Type.
Variable service : Request -> Ext -> Result Response * Ext.
Variable Date_now : Ext -> Z * Ext.
Variable JSON_parse : string -> Result value.

Record World : Type := mkWorld {
  ext : Ext;
  trace : list Event
}.

Definition log (e : Event) : M World unit :=
  fun w => (Ok tt, mkWorld (ext w) (trace w ++ [e])).

(** [await new Promise(resolve => setTimeout(resolve, ms))] *)
Definition sleep (ms : Z) : M World unit := log (EvSleep ms).

Definition generateContent (r : Request) : M World Response :=
  fun w =>
    let (res, x) := service r (ext w) in
    (res, mkWorld x (trace w ++ [EvRequest r])).

Definition now : M World Z :=
  fun w => let (t, x) := Date_now (ext w) in (Ok t, mkWorld x (trace w)).

(** An operation with hidden state, whose invocations are recorded. *)
Definition invoke {T : Type} (f : Ext -> Result T * Ext) : M World T :=
  fun w =>
    let (res, x) := f (ext w) in
    (res, mkWorld x (trace w ++ [EvInvoke])).

(** The recursion of [retryOperation], on the number of retries left:
    [retries > 0] is [S r], and [retries - 1] is [r].  The delay is the
    integer passed to [setTimeout]: [delay * 2] on integers is the
    JavaScript product as long as the numbers stay within 2^53 in absolute
    value, where a JavaScript number holds every integer exactly. *)
Fixpoint retry_loop {T : Type} (operation : M World T) (retries : nat) (delay : Z)
  : M World T :=
  try_catch operation
    (fun error =>
       match retries with
       | S r =>
           if isQuotaError error
           then sleep delay ;; retry_loop operation r (delay * 2)
           else throw error
       | O => throw error
       end).

Definition retryOperation {T : Type} (operation : M World T) (retries delay : Z)
  : M World T :=
  retry_loop operation (Z.to_nat retries) delay.

(** The default arguments [retries = 3, delay = 2000]. *)
Definition retryOperation_default {T : Type} (operation : M World T) : M World T :=
  retryOperation operation 3 2000.

(** The placeholder of [findViralStories]. *)
Definition fallback_story (targetAudience : string) : Story :=
  mkStory "fallback-1"
    (VStr "Viral Story Search Result")
    (VStr "We found stories but couldn't structure them perfectly. Try refining your search topic.")
    (VStr "Search System")
    (Some 6) None None (Some targetAudience).

Definition found_story (targetAudience : string) (item : value) (index : Z)
  : M World Story :=
  t <- now ;;
  item_title <- lift_result (get item "title") ;;
  item_summary <- lift_result (get item "summary") ;;
  item_source <- lift_result (get item "source") ;;
  ret (mkStory ("story-" ++ string_of_Z t ++ "-" ++ string_of_Z index)
         item_title item_summary
         (or_else item_source (VStr "Viral Source"))
         (Some 6) None None (Some targetAudience)).

(** [parsed] of [findViralStories]: the empty array unless the bracketed
    text is found and parses. *)
Definition parse_story_array (responseText : string) : value :=
  match match_bracketed responseText with
  | Some jsonMatch =>
      match JSON_parse jsonMatch with
      | Ok v => v
      | Throw _ => VArr []
      end
  | None => VArr []
  end.

(** [JSON.parse] of a text that starts with a bracket returns an array when
    it returns; the other shapes are there for totality and follow
    [parsed.length > 0] and [parsed.map] (an object is taken to have no
    [length] property). *)
Definition findViralStories (topic targetAudience : string) : M World (list Story) :=
  log (EvCall (ReqFindStories topic targetAudience)) ;;
  try_catch
    (response <- generateContent (ReqFindStories topic targetAudience) ;;
     match parse_story_array (or_default (text response) "") with
     | VArr [] => ret [fallback_story targetAudience]
     | VArr parsed => mapM_from 0 (found_story targetAudience) parsed
     | VNull | VUndefined =>
         throw (TypeError "Cannot read properties of null or undefined")
     | VStr (String _ _) => throw (TypeError "parsed.map is not a function")
     | _ => ret [fallback_story targetAudience]
     end)
    (fun _ => throw (Error "Failed to fetch viral stories.")).

(** The placeholder of [createStoryFromPrompt], stamped with the time [t]. *)
Definition fallback_custom_story (t : Z) (userPrompt : string) (count : Z)
    (targetAudience : string) : Story :=
  mkStory ("custom-" ++ string_of_Z t)
    (VStr "My Custom Story") (VStr userPrompt) (VStr "User Imagination")
    (Some count) None None (Some targetAudience).

Definition createStoryFromPrompt (userPrompt : string) (count : Z)
    (targetAudience : string) : M World Story :=
  log (EvCall (ReqStoryFromPrompt userPrompt count targetAudience)) ;;
  try_catch
    (response <- generateContent (ReqStoryFromPrompt userPrompt count targetAudience) ;;
     parsed <- lift_result (JSON_parse (or_default (text response) "{}")) ;;
     t <- now ;;
     data_title <- lift_result (get parsed "title") ;;
     data_summary <- lift_result (get parsed "summary") ;;
     ret (mkStory ("custom-" ++ string_of_Z t)
            (or_else data_title (VStr "Untitled Story"))
            (or_else data_summary (VStr userPrompt))
            (VStr "User Imagination")
            (Some count) None None (Some targetAudience)))
    (fun _ =>
       t <- now ;;
       ret (fallback_custom_story t userPrompt count targetAudience)).

Definition script_panel (style chars : value) (item : value) (index : Z)
  : M World Panel :=
  action <- lift_result (get item "actionDescription") ;;
  item_caption <- lift_result (get item "caption") ;;
  ret (mkPanel index
         ("Style: " ++ to_string style ++ ". Characters: " ++ to_string chars
          ++ ". Scene: " ++ to_string action)
         item_caption None false).

(** The placeholder panels of [generateScript]. *)
Definition fallback_panel (userStylePreference : string) (story : Story) (i : Z)
  : Panel :=
  mkPanel i
    ("Style: " ++ userStylePreference ++ ". A scene from the story "
     ++ to_string (title story))
    (VStr "Story processing...") None false.

(** [Array(count).fill(null).map((_, i) => ...)]: [Array(count)] throws a
    [RangeError] unless [count] is an array length. *)
Definition fallback_script (count : Z) (userStylePreference : string) (story : Story)
  : Result (list Panel) :=
  if (0 <=? count) && (count <=? 4294967295)
  then Ok (map (fallback_panel userStylePreference story) (indices count))
  else Throw (RangeError "Invalid array length").

Definition generateScript (story : Story) : M World (list Panel) :=
  let count := or_count (panelCount story) 6 in
  let userStylePreference := or_default (visualStyle story) "Vibrant Digital Cartoon" in
  let audience := or_default (targetAudience story) "General Audience" in
  let request :=
    ReqScript count (to_string (title story)) (to_string (summary story))
      userStylePreference audience in
  log (EvCall request) ;;
  try_catch
    (response <- generateContent request ;;
     parsed <- lift_result (JSON_parse (or_default (text response) "{}")) ;;
     data_style <- lift_result (get parsed "visualStyle") ;;
     data_chars <- lift_result (get parsed "characterDesign") ;;
     data_panels <- lift_result (get parsed "panels") ;;
     match or_else data_panels (VArr []) with
     | VArr rawPanels =>
         mapM_from 0
           (script_panel (or_else data_style (VStr userStylePreference))
                         (or_else data_chars (VStr "")))
           rawPanels
     | _ => throw (TypeError "rawPanels.map is not a function")
     end)
    (fun _ => lift_result (fallback_script count userStylePreference story)).

(** The body the three image operations hand to [retryOperation]. *)
Definition image_request (r : Request) (missing : string) : M World string :=
  try_catch
    (response <- generateContent r ;;
     match first_inline_image (parts response) with
     | Some uri => ret uri
     | None => throw (Error missing)
     end)
    (fun error => throw error).

Definition generatePanelImage (prompt : string) : M World string :=
  log (EvCall (ReqPanelImage prompt)) ;;
  retryOperation_default (image_request (ReqPanelImage prompt) "No image data returned.").

(** [style] is [undefined] when the caller passes none: the default
    parameter applies then, and only then. *)
Definition generateCoverImage (storyTitle storySummary : value) (style : option string)
  : M World string :=
  let request :=
    ReqCoverImage (to_string storyTitle) (to_string storySummary)
      (match style with Some s => s | None => "Professional digital art" end) in
  log (EvCall request) ;;
  retryOperation_default (image_request request "No image data returned.").

Definition editPanelImage (base64Image prompt : string) : M World string :=
  let request := ReqEditImage (strip_data_uri_prefix base64Image) prompt in
  log (EvCall request) ;;
  retryOperation_default (image_request request "No edited image returned.").

(** The placeholder of [analyzeStoryPotential]. *)
Definition fallback_analysis : AnalysisResult :=
  mkAnalysis (VNum 0) (VStr "Low") (VStr "Error")
    (VStr "Failed to contact the publisher agent.")
    (VStr "Unknown") (VStr "Unknown")
    (VArr [VStr "Check internet connection"; VStr "Try again"]).

Definition analyzeStoryPotential (storyTitle storySummary : value)
    (audience style : string) (coverImageBase64 captionsSample : option string)
  : M World AnalysisResult :=
  let request :=
    ReqAnalysis (to_string storyTitle) (to_string storySummary) audience style
      (match coverImageBase64 with
       | Some EmptyString | None => None
       | Some c => Some (strip_data_uri_prefix c)
       end)
      (or_default captionsSample "Not provided") in
  log (EvCall request) ;;
  try_catch
    (response <- generateContent request ;;
     parsed <- lift_result (JSON_parse (or_default (text response) "{}")) ;;
     d_score <- lift_result (get parsed "score") ;;
     d_viral <- lift_result (get parsed "viralPotential") ;;
     d_coherence <- lift_result (get parsed "coherenceCheck") ;;
     d_critique <- lift_result (get parsed "critique") ;;
     d_text <- lift_result (get parsed "textQuality") ;;
     d_visual <- lift_result (get parsed "visualQuality") ;;
     d_suggestions <- lift_result (get parsed "suggestions") ;;
     ret (mkAnalysis
            (or_else d_score (VNum 5))
            (or_else d_viral (VStr "Low"))
            (or_else d_coherence (VStr "Not analyzed"))
            (or_else d_critique (VStr "No feedback provided"))
            (or_else d_text (VStr "Standard"))
            (or_else d_visual (VStr "Standard"))
            (or_else d_suggestions (VArr [VStr "Try again"]))))
    (fun _ => ret fallback_analysis).

Definition refineStoryContent (currentTitle currentSummary : value)
    (currentPanels : list Panel) (critiqueText audience : string)
  : M World RefinedContent :=
  let request :=
    ReqRefine (to_string currentTitle) (to_string currentSummary)
      (map (fun p => (panel_id p, caption p)) currentPanels) critiqueText audience in
  log (EvCall request) ;;
  try_catch
    (response <- generateContent request ;;
     parsed <- lift_result (JSON_parse (or_default (text response) "{}")) ;;
     d_title <- lift_result (get parsed "newTitle") ;;
     d_summary <- lift_result (get parsed "newSummary") ;;
     d_panels <- lift_result (get parsed "refinedPanels") ;;
     ret (mkRefined (or_else d_title currentTitle)
                    (or_else d_summary currentSummary)
                    (or_else d_panels (VArr []))))
    (fun error => throw error).

(* ================================================================== *)
(** ** components/EbookCreator.tsx *)

(** The React state of the component that the modelled handlers touch.  A
    state setter takes effect at the call; the one updater that can throw,
    in [handleFixText], is run after its handler. *)
Record Ui : Type := mkUi {
  panels : list Panel;
  coverImage : option string;
  isCoverGenerating : bool;
  loadingScript : bool;
  currentTitle : value;
  analysis : option AnalysisResult;
  fixingText : bool
}.

Record App : Type := mkApp {
  ui : Ui;
  world : World
}.

(** A call into the service layer. *)
Definition call {A : Type} (m : M World A) : M App A :=
  fun a => let (r, w) := m (world a) in (r, mkApp (ui a) w).

Definition set_ui (f : Ui -> Ui) : M App unit :=
  fun a => (Ok tt, mkApp (f (ui a)) (world a)).

Definition with_panels (f : list Panel -> list Panel) (u : Ui) : Ui :=
  mkUi (f (panels u)) (coverImage u) (isCoverGenerating u) (loadingScript u)
       (currentTitle u) (analysis u) (fixingText u).

Definition with_coverImage (c : option string) (u : Ui) : Ui :=
  mkUi (panels u) c (isCoverGenerating u) (loadingScript u)
       (currentTitle u) (analysis u) (fixingText u).

Definition with_isCoverGenerating (b : bool) (u : Ui) : Ui :=
  mkUi (panels u) (coverImage u) b (loadingScript u)
       (currentTitle u) (analysis u) (fixingText u).

Definition with_loadingScript (b : bool) (u : Ui) : Ui :=
  mkUi (panels u) (coverImage u) (isCoverGenerating u) b
       (currentTitle u) (analysis u) (fixingText u).

Definition with_title (t : value) (u : Ui) : Ui :=
  mkUi (panels u) (coverImage u) (isCoverGenerating u) (loadingScript u)
       t (analysis u) (fixingText u).

Definition with_analysis (f : option AnalysisResult -> option AnalysisResult) (u : Ui)
  : Ui :=
  mkUi (panels u) (coverImage u) (isCoverGenerating u) (loadingScript u)
       (currentTitle u) (f (analysis u)) (fixingText u).

Definition with_fixingText (b : bool) (u : Ui) : Ui :=
  mkUi (panels u) (coverImage u) (isCoverGenerating u) (loadingScript u)
       (currentTitle u) (analysis u) b.

Definition setPanels (f : list Panel -> list Panel) : M App unit :=
  set_ui (with_panels f).

(** [{ ...p, isGenerating: b }] *)
Definition set_generating (b : bool) (p : Panel) : Panel :=
  mkPanel (panel_id p) (description p) (caption p) (imageUrl p) b.

(** [{ ...p, imageUrl, isGenerating: false }] *)
Definition set_image (url : string) (p : Panel) : Panel :=
  mkPanel (panel_id p) (description p) (caption p) (Some url) false.

(** [{ ...p, caption: c }] *)
Definition set_caption (c : value) (p : Panel) : Panel :=
  mkPanel (panel_id p) (description p) c (imageUrl p) (isGenerating p).

(** [prev.map(p => p.id === id ? f(p) : p)] *)
Definition update_panel (id : Z) (f : Panel -> Panel) (prev : list Panel) : list Panel :=
  map (fun p => if panel_id p =? id then f p else p) prev.

Definition generateImageForPanel (id : Z) (prompt : string) : M App unit :=
  setPanels (update_panel id (set_generating true)) ;;
  try_catch
    (url <- call (generatePanelImage prompt) ;;
     setPanels (update_panel id (set_image url)))
    (fun _ => setPanels (update_panel id (set_generating false))).

(** [p.imageUrl] as a condition: [undefined] and [""] are falsy. *)
Definition has_image (p : Panel) : bool :=
  match imageUrl p with
  | Some EmptyString | None => false
  | Some _ => true
  end.

(** The test of the loop: [!p.imageUrl && !p.isGenerating]. *)
Definition needs_image (p : Panel) : bool :=
  negb (has_image p) && negb (isGenerating p).

Fixpoint generateImagesSequentially (scriptPanels : list Panel) : M App unit :=
  match scriptPanels with
  | [] => ret tt
  | p :: rest =>
      (if needs_image p
       then generateImageForPanel (panel_id p) (description p) ;;
            call (sleep 4000)
       else ret tt) ;;
      generateImagesSequentially rest
  end.

Definition generateCover (story : Story) : M App unit :=
  set_ui (with_isCoverGenerating true) ;;
  try_finally
    (try_catch
       (url <- call (generateCoverImage (title story) (summary story)
                       (visualStyle story)) ;;
        set_ui (with_coverImage (Some url)))
       (fun _ => ret tt))
    (fun a => mkApp (with_isCoverGenerating false (ui a)) (world a)).

Definition initStory (story : Story) : M App unit :=
  set_ui (with_loadingScript true) ;;
  try_catch
    (script <- call (generateScript story) ;;
     setPanels (fun _ => script) ;;
     set_ui (with_loadingScript false) ;;
     generateCover story ;;
     generateImagesSequentially script)
    (fun _ => set_ui (with_loadingScript false)).

(** [refinedPanels.find(rp => rp.id === id)] *)
Fixpoint find_by_id (items : list value) (id : Z) : Result (option value) :=
  match items with
  | [] => Ok None
  | rp :: rest =>
      match get rp "id" with
      | Throw e => Throw e
      | Ok v => if strict_eq_num v id then Ok (Some rp) else find_by_id rest id
      end
  end.

(** The body of the updater of [handleFixText] for one panel:
    [const update = refined.refinedPanels.find(rp => rp.id === p.id);
     return update ? { ...p, caption: update.caption } : p;] *)
Definition refine_panel (refined : value) (p : Panel) : Result Panel :=
  match refined with
  | VArr items =>
      match find_by_id items (panel_id p) with
      | Throw e => Throw e
      | Ok None => Ok p
      | Ok (Some update) =>
          if truthy update
          then match get update "caption" with
               | Ok c => Ok (set_caption c p)
               | Throw e => Throw e
               end
          else Ok p
      end
  | VUndefined | VNull => Throw (TypeError "Cannot read properties of null or undefined")
  | _ => Throw (TypeError "refinedPanels.find is not a function")
  end.

Fixpoint map_result {A B : Type} (f : A -> Result B) (l : list A) : Result (list B) :=
  match l with
  | [] => Ok []
  | x :: l' =>
      match f x with
      | Throw e => Throw e
      | Ok y =>
          match map_result f l' with
          | Throw e => Throw e
          | Ok ys => Ok (y :: ys)
          end
      end
  end.

(** [prev.map(p => ...)] of [handleFixText]. *)
Definition applyRefinement (refined : value) (prev : list Panel) : Result (list Panel) :=
  map_result (refine_panel refined) prev.

(** [{ ...prev, textQuality: "Optimized by Agent!", critique: "Text updated
    based on feedback." }] *)
Definition mark_optimized (a : AnalysisResult) : AnalysisResult :=
  mkAnalysis (score a) (viralPotential a) (coherenceCheck a)
    (VStr "Text updated based on feedback.") (VStr "Optimized by Agent!")
    (visualQuality a) (suggestions a).

(** [handleFixText] of [EbookCreator].  React runs the updater handed to
    [setPanels] when it next renders the component, after the handler has
    finished: the state it gives is set here as its last step, and what it
    throws is not caught by the [catch] of the handler.  It ends the
    rendering, and that is the [Throw] of the last step. *)
Definition handleFixText (story : Story) : M App unit :=
  fun a =>
    match analysis (ui a) with
    | None => (Ok tt, a)
    | Some current =>
        (set_ui (with_fixingText true) ;;
         queued <-
           try_finally
             (try_catch
                (refined <-
                   call (refineStoryContent (currentTitle (ui a)) (summary story)
                           (panels (ui a))
                           (to_string (critique current) ++ " "
                            ++ to_string (textQuality current))
                           (or_default (targetAudience story) "General")) ;;
                 set_ui (with_title (newTitle refined)) ;;
                 set_ui (with_analysis (option_map mark_optimized)) ;;
                 ret (Some (refinedPanels refined)))
                (fun _ => ret None))
             (fun a' => mkApp (with_fixingText false (ui a')) (world a')) ;;
         match queued with
         | Some items =>
             fun a' =>
               match applyRefinement items (panels (ui a')) with
               | Ok updated => setPanels (fun _ => updated) a'
               | Throw e => (Throw e, a')
               end
         | None => ret tt
         end) a
    end.

(** The image-generation calls and timer waits of a trace. *)
Definition panel_calls (tr : list Event) : list string :=
  flat_map (fun e => match e with
                     | EvCall (ReqPanelImage prompt) => [prompt]
                     | _ => []
                     end) tr.

Definition sleeps (tr : list Event) : list Z :=
  flat_map (fun e => match e with EvSleep ms => [ms] | _ => [] end) tr.

(** An event that is not the entry of an exported operation: a request
    sent or a timer awaited inside one. *)
Definition is_call (e : Event) : bool :=
  match e with
  | EvCall _ => true
  | _ => false
  end.

(** What one turn of the illustration loop leaves in the trace for panel
    [p]: the image call for its description, whatever that call does
    inside, and the pause. *)
Definition call_segment (p : Panel) (segment : list Event) : Prop :=
  exists inner,
    segment = EvCall (ReqPanelImage (description p)) :: inner ++ [EvSleep 4000]
    /\ Forall (fun e => is_call e = false) inner.

(** [v == null]: the values on which a property read throws. *)
Definition nullish (v : value) : bool :=
  match v with
  | VUndefined | VNull => true
  | _ => false
  end.

(** [rp.id === id], as a test on an entry of [refinedPanels]. *)
Definition mentions (id : Z) (rp : value) : bool :=
  match get rp "id" with
  | Ok v => strict_eq_num v id
  | Throw _ => false
  end.

Fixpoint string_forall (f : ascii -> bool) (s : string) : bool :=
  match s with
  | EmptyString => true
  | String c s' => f c && string_forall f s'
  end.

Definition not_dash (c : ascii) : bool := negb (Ascii.eqb c "-").

Definition not_semicolon (c : ascii) : bool := negb (Ascii.eqb c ";").

(** What follows the last minus sign of a text. *)
Fixpoint after_last_dash (s : string) : string :=
  match s with
  | EmptyString => EmptyString
  | String c s' =>
      if string_forall not_dash s'
      then (if Ascii.eqb c "-" then s' else s)
      else after_last_dash s'
  end.

(** The search reply yields no stories: the bracketed text is missing, or
    does not parse, or parses to the empty array. *)
Definition no_stories_parsed (responseText : string) : Prop :=
  match match_bracketed responseText with
  | None => True
  | Some jsonMatch =>
      match JSON_parse jsonMatch with
      | Throw _ => True
      | Ok (VArr []) => True
      | Ok _ => False
      end
  end.

(** A computation that issues no panel-image call. *)
Definition quiet {A : Type} (m : M World A) : Prop :=
  forall w, panel_calls (trace (snd (m w))) = panel_calls (trace w).

(* ------------------------------------------------------------------ *)
(** *** The other handlers *)

(** A component: its own state and the world outside. *)
Record Hosted (U : Type) : Type := mkHosted {
  inner_state : U;
  outer_world : World
}.
Arguments mkHosted {U} _ _.
Arguments inner_state {U} _.
Arguments outer_world {U} _.

Definition call_in {U A : Type} (m : M World A) : M (Hosted U) A :=
  fun h => let (r, w) := m (outer_world h) in (r, mkHosted (inner_state h) w).

Definition set_in {U : Type} (f : U -> U) : M (Hosted U) unit :=
  fun h => (Ok tt, mkHosted (f (inner_state h)) (outer_world h)).

(** [handleSearch] of [StoryFinder]; the handler reads the state of the
    render it was created in. *)
Definition handleSearch : M (Hosted Finder) unit :=
  fun h =>
    let f := inner_state h in
    if blank (sf_topic f) then (Ok tt, h)
    else
      (set_in (finder_loading true) ;;
       set_in (finder_error None) ;;
       try_finally
         (try_catch
            (results <- call_in (findViralStories (sf_topic f) (sf_targetAudience f)) ;;
             set_in (finder_stories (map (with_config f) results)))
            (fun _ =>
               set_in (finder_error
                         (Some "Failed to find stories. Please check your API key."))))
         (fun h' => mkHosted (finder_loading false (inner_state h')) (outer_world h'))) h.

(** [handleCreateCustom] of [StoryFinder]. *)
Definition handleCreateCustom : M (Hosted Finder) unit :=
  fun h =>
    let f := inner_state h in
    if blank (sf_customPrompt f) then (Ok tt, h)
    else
      (set_in (finder_loading true) ;;
       set_in (finder_error None) ;;
       try_finally
         (try_catch
            (story <- call_in (createStoryFromPrompt (sf_customPrompt f)
                                 (sf_panelCount f) (sf_targetAudience f)) ;;
             set_in (finder_hand_over
                       (mkStory (story_id story) (title story) (summary story)
                          (source story) (panelCount story)
                          (Some (getFinalStyle f)) (Some (sf_layoutStyle f))
                          (Some (sf_targetAudience f)))))
            (fun _ => set_in (finder_error (Some "Failed to create story."))))
         (fun h' => mkHosted (finder_loading false (inner_state h')) (outer_world h'))) h.

(** [handleEdit] of [ImageEditor]. *)
Definition handleEdit : M (Hosted Editor) unit :=
  fun h =>
    let e := inner_state h in
    if blank (ed_prompt e) then (Ok tt, h)
    else
      (set_in (fun e' => mkEditor (ed_prompt e') (ed_currentImage e')
                           (ed_originalImage e') true (ed_error e')) ;;
       set_in (fun e' => mkEditor (ed_prompt e') (ed_currentImage e')
                           (ed_originalImage e') (ed_loading e') None) ;;
       try_finally
         (try_catch
            (edited <- call_in (editPanelImage (ed_currentImage e) (ed_prompt e)) ;;
             set_in (fun e' => mkEditor (ed_prompt e') edited
                                 (ed_originalImage e') (ed_loading e') (ed_error e')) ;;
             set_in (fun e' => mkEditor "" (ed_currentImage e')
                                 (ed_originalImage e') (ed_loading e') (ed_error e')))
            (fun _ =>
               set_in (fun e' => mkEditor (ed_prompt e') (ed_currentImage e')
                                   (ed_originalImage e') (ed_loading e')
                                   (Some "Failed to edit image. Try a simpler prompt."))))
         (fun h' =>
            mkHosted (mkEditor (ed_prompt (inner_state h'))
                        (ed_currentImage (inner_state h'))
                        (ed_originalImage (inner_state h')) false
                        (ed_error (inner_state h')))
                     (outer_world h'))) h.

(** [updateCaption] of [EbookCreator]: the text of the caption box. *)
Definition updateCaption (id : Z) (newCaption : string) : M App unit :=
  setPanels (update_panel id (set_caption (VStr newCaption))).

(** The two flags of the agent panel of [EbookCreator], beside [App]. *)
Record Studio : Type := mkStudio {
  creator : App;
  showAgent : bool;
  analyzing : bool
}.

(** [runAgentAnalysis] of [EbookCreator]. *)
Definition runAgentAnalysis (story : Story) : M Studio unit :=
  fun s =>
    let a := creator s in
    let captionsSample :=
      join_values " | " (map caption (slice (panels (ui a)) 0 3)) in
    let cleared := mkApp (with_analysis (fun _ => None) (ui a)) (world a) in
    match
      try_catch
        (result <-
           call (analyzeStoryPotential (currentTitle (ui a)) (summary story)
                   (or_default (targetAudience story) "General")
                   (or_default (visualStyle story) "Cartoon")
                   (match coverImage (ui a) with
                    | Some EmptyString | None => None
                    | Some c => Some c
                    end)
                   (Some captionsSample)) ;;
         set_ui (with_analysis (fun _ => Some result)))
        (fun _ => ret tt) cleared
    with
    | (r, a') => (r, mkStudio a' true false)
    end.

(** [handleRetry] of [EbookCreator], the Restart Project button. *)
Definition handleRetry (story : Story) : M Studio unit :=
  fun s =>
    let (r, a') :=
      initStory story (mkApp (with_analysis (fun _ => None) (ui (creator s)))
                             (world (creator s))) in
    (r, mkStudio a' false (analyzing s)).

(** The alternation of one event per invocation and the waits between
    them: [k] retries after the first invocation, the first wait being
    [delay]. *)
Fixpoint retry_pattern (ev : Event) (k : nat) (delay : Z) : list Event :=
  match k with
  | O => [ev]
  | S k' => ev :: EvSleep delay :: retry_pattern ev k' (delay * 2)
  end.

(** What every story of a search result has, found or placeholder. *)
Definition found_story_shape (audience : string) (s : Story) : Prop :=
  panelCount s = Some 6
  /\ truthy (source s) = true
  /\ targetAudience s = Some audience
  /\ visualStyle s = None
  /\ layoutStyle s = None.

(** How a panel of the component state may differ after image generation:
    its identifier, prompt and caption stay, an image it holds is never
    taken away, and it is not newly marked mid-generation. *)
Definition panel_progress (p p' : Panel) : Prop :=
  panel_id p' = panel_id p
  /\ description p' = description p
  /\ caption p' = caption p
  /\ (has_image p = true -> has_image p' = true)
  /\ (isGenerating p' = true -> isGenerating p = true).

(* ================================================================== *)
(** ** The retry wrapper *)

Section Retry.

Context {T : Type}.
Variable operation : M World T.

Lemma retry_loop_returns (n : nat) (delay : Z) (w w' : World) (v : T) :
  operation w = (Ok v, w') ->
  retry_loop operation n delay w = (Ok v, w').
Proof.
  intros Hop. destruct n; simpl; unfold try_catch; rewrite Hop; reflexivity.
Qed.

Lemma retry_loop_rethrows (n : nat) (delay : Z) (w w' : World) (e : JsError) :
  operation w = (Throw e, w') ->
  isQuotaError e = false ->
  retry_loop operation n delay w = (Throw e, w').
Proof.
  intros Hop Hq.
  destruct n; simpl; unfold try_catch; rewrite Hop; try rewrite Hq; reflexivity.
Qed.

Lemma retry_loop_gives_up (delay : Z) (w w' : World) (e : JsError) :
  operation w = (Throw e, w') ->
  retry_loop operation 0 delay w = (Throw e, w').
Proof.
  intros Hop. simpl. unfold try_catch. rewrite Hop. reflexivity.
Qed.

Lemma retry_loop_retries (n : nat) (delay : Z) (w w' : World) (e : JsError) :
  operation w = (Throw e, w') ->
  isQuotaError e = true ->
  retry_loop operation (S n) delay w
  = retry_loop operation n (delay * 2) (mkWorld (ext w') (trace w' ++ [EvSleep delay])).
Proof.
  intros Hop Hq. simpl. unfold try_catch at 1. rewrite Hop, Hq.
  reflexivity.
Qed.

End Retry.

Lemma invoke_run {T : Type} (f : Ext -> Result T * Ext) (x x' : Ext)
    (r : Result T) (tr : list Event) :
  f x = (r, x') ->
  invoke f (mkWorld x tr) = (r, mkWorld x' (tr ++ [EvInvoke])).
Proof.
  intros Hf. unfold invoke. simpl. rewrite Hf. reflexivity.
Qed.

(** C3.  An operation that is throttled on its first two invocations and
    succeeds on the third: the wrapper returns the success value after
    exactly three invocations (two retries), having waited 2000 ms before
    the first retry and 4000 ms before the second. *)
Theorem retryOperation_two_failures_then_success
    {T : Type} (f : Ext -> Result T * Ext)
    (x0 x1 x2 x3 : Ext) (e1 e2 : JsError) (v : T) (tr : list Event) :
  f x0 = (Throw e1, x1) -> isQuotaError e1 = true ->
  f x1 = (Throw e2, x2) -> isQuotaError e2 = true ->
  f x2 = (Ok v, x3) ->
  retryOperation_default (invoke f) (mkWorld x0 tr)
  = (Ok v,
     mkWorld x3
       (tr ++ [EvInvoke; EvSleep 2000; EvInvoke; EvSleep 4000; EvInvoke])).
Proof.
  intros H1 Q1 H2 Q2 H3.
  unfold retryOperation_default, retryOperation.
  change (Z.to_nat 3) with 3%nat.
  rewrite (retry_loop_retries _ _ _ _ _ e1 (invoke_run f _ _ _ _ H1) Q1).
  cbn [ext trace].
  rewrite (retry_loop_retries _ _ _ _ _ e2 (invoke_run f _ _ _ _ H2) Q2).
  cbn [ext trace].
  rewrite (retry_loop_returns _ _ _ _ _ v (invoke_run f _ _ _ _ H3)).
  repeat rewrite <- List.app_assoc. reflexivity.
Qed.

(** C4.  An operation that is always throttled: the wrapper retries three
    times, waiting 2000 ms, 4000 ms and 8000 ms, and then throws the
    throttling error of the last invocation. *)
Theorem retryOperation_always_throttled
    {T : Type} (f : Ext -> Result T * Ext) (x0 : Ext) (tr : list Event) :
  (forall x, exists e x', f x = (Throw e, x') /\ isQuotaError e = true) ->
  exists e x',
    retryOperation_default (invoke f) (mkWorld x0 tr)
    = (Throw e,
       mkWorld x'
         (tr ++ [EvInvoke; EvSleep 2000; EvInvoke; EvSleep 4000;
                 EvInvoke; EvSleep 8000; EvInvoke]))
    /\ isQuotaError e = true.
Proof.
  intros Hf.
  destruct (Hf x0) as (e1 & x1 & H1 & Q1).
  destruct (Hf x1) as (e2 & x2 & H2 & Q2).
  destruct (Hf x2) as (e3 & x3 & H3 & Q3).
  destruct (Hf x3) as (e4 & x4 & H4 & Q4).
  exists e4, x4. split; [| exact Q4].
  unfold retryOperation_default, retryOperation.
  change (Z.to_nat 3) with 3%nat.
  rewrite (retry_loop_retries _ _ _ _ _ e1 (invoke_run f _ _ _ _ H1) Q1).
  cbn [ext trace].
  rewrite (retry_loop_retries _ _ _ _ _ e2 (invoke_run f _ _ _ _ H2) Q2).
  cbn [ext trace].
  rewrite (retry_loop_retries _ _ _ _ _ e3 (invoke_run f _ _ _ _ H3) Q3).
  cbn [ext trace].
  rewrite (retry_loop_gives_up _ _ _ _ e4 (invoke_run f _ _ _ _ H4)).
  repeat rewrite <- List.app_assoc. reflexivity.
Qed.

(** The test of the wrapper fails exactly on the errors that carry none of
    its three markers. *)
Lemma isQuotaError_without_marker (e : JsError) :
  err_status e <> Some "RESOURCE_EXHAUSTED" ->
  err_code e <> Some 429 ->
  (forall m, err_message e = Some m -> includes "429" m = false) ->
  isQuotaError e = false.
Proof.
  intros Hstatus Hcode Hmessage. unfold isQuotaError.
  destruct (err_status e) as [st |].
  - destruct (String.eqb st "RESOURCE_EXHAUSTED") eqn:Est.
    + apply String.eqb_eq in Est. subst st. contradiction.
    + destruct (err_code e) as [c |].
      * destruct (c =? 429) eqn:Ec.
        -- apply Z.eqb_eq in Ec. subst c. contradiction.
        -- destruct (err_message e) as [m |]; [| reflexivity].
           rewrite (Hmessage m eq_refl), andb_false_r. reflexivity.
      * destruct (err_message e) as [m |]; [| reflexivity].
        rewrite (Hmessage m eq_refl), andb_false_r. reflexivity.
  - destruct (err_code e) as [c |].
    + destruct (c =? 429) eqn:Ec.
      * apply Z.eqb_eq in Ec. subst c. contradiction.
      * destruct (err_message e) as [m |]; [| reflexivity].
        rewrite (Hmessage m eq_refl), andb_false_r. reflexivity.
    + destruct (err_message e) as [m |]; [| reflexivity].
      rewrite (Hmessage m eq_refl), andb_false_r. reflexivity.
Qed.

(** C5 (as the code has it).  An operation that throws an error carrying
    none of the markers the wrapper looks for (the status
    RESOURCE_EXHAUSTED, the code 429, the text 429 in the message): the
    wrapper, whatever its retry budget and delay, throws that error after
    the single invocation, without waiting. *)
Theorem retryOperation_other_error_propagates
    {T : Type} (f : Ext -> Result T * Ext) (retries delay : Z)
    (x x' : Ext) (e : JsError) (tr : list Event) :
  f x = (Throw e, x') ->
  err_status e <> Some "RESOURCE_EXHAUSTED" ->
  err_code e <> Some 429 ->
  (forall m, err_message e = Some m -> includes "429" m = false) ->
  retryOperation (invoke f) retries delay (mkWorld x tr)
  = (Throw e, mkWorld x' (tr ++ [EvInvoke])).
Proof.
  intros Hf Hstatus Hcode Hmessage. unfold retryOperation.
  apply retry_loop_rethrows; [apply invoke_run; exact Hf |].
  exact (isQuotaError_without_marker e Hstatus Hcode Hmessage).
Qed.

(* ================================================================== *)
(** ** Sequential illustration *)

Lemma image_request_trace (r : Request) (missing : string) (w : World) :
  exists res x,
    image_request r missing w = (res, mkWorld x (trace w ++ [EvRequest r])).
Proof.
  unfold image_request, try_catch, bind, generateContent, throw, ret.
  destruct (service r (ext w)) as [[response | e] x]; simpl.
  - destruct (first_inline_image (parts response)); eauto.
  - eauto.
Qed.

Lemma retry_loop_image_trace (r : Request) (missing : string) (n : nat) :
  forall (delay : Z) (w : World),
  exists res w' inner,
    retry_loop (image_request r missing) n delay w = (res, w')
    /\ trace w' = (trace w ++ inner)%list
    /\ Forall (fun e => is_call e = false) inner.
Proof.
  induction n as [| n IH]; intros delay w;
    destruct (image_request_trace r missing w) as (res & x & Hrun).
  - destruct res as [v | e].
    + rewrite (retry_loop_returns _ _ _ _ _ _ Hrun). repeat eexists; eauto.
    + rewrite (retry_loop_gives_up _ _ _ _ _ Hrun). repeat eexists; eauto.
  - destruct res as [v | e].
    + rewrite (retry_loop_returns _ _ _ _ _ _ Hrun). repeat eexists; eauto.
    + destruct (isQuotaError e) eqn:Hq.
      * rewrite (retry_loop_retries _ _ _ _ _ _ Hrun Hq). cbn [ext trace].
        destruct (IH (delay * 2)
                     (mkWorld x ((trace w ++ [EvRequest r]) ++ [EvSleep delay])))
          as (res' & w' & inner & Hloop & Htr & Hin).
        rewrite Hloop. exists res', w', (EvRequest r :: EvSleep delay :: inner).
        split; [reflexivity |]. split.
        -- rewrite Htr. cbn [trace]. repeat rewrite <- List.app_assoc. reflexivity.
        -- repeat constructor. exact Hin.
      * rewrite (retry_loop_rethrows _ _ _ _ _ _ Hrun Hq). repeat eexists; eauto.
Qed.

Lemma generatePanelImage_trace (prompt : string) (w : World) :
  exists res w' inner,
    generatePanelImage prompt w = (res, w')
    /\ trace w' = (trace w ++ EvCall (ReqPanelImage prompt) :: inner)%list
    /\ Forall (fun e => is_call e = false) inner.
Proof.
  unfold generatePanelImage, retryOperation_default, retryOperation, bind, log.
  destruct (retry_loop_image_trace (ReqPanelImage prompt) "No image data returned."
              (Z.to_nat 3) 2000
              (mkWorld (ext w) (trace w ++ [EvCall (ReqPanelImage prompt)])))
    as (res & w' & inner & Hloop & Htr & Hin).
  rewrite Hloop. exists res, w', inner. split; [reflexivity |]. split; [| exact Hin].
  rewrite Htr. cbn [trace]. rewrite <- List.app_assoc. reflexivity.
Qed.

(** An image call for a panel never throws to the loop: a failure is
    recorded in the panel list only. *)
Lemma generateImageForPanel_trace (id : Z) (prompt : string) (a : App) :
  exists a' inner,
    generateImageForPanel id prompt a = (Ok tt, a')
    /\ trace (world a') = (trace (world a) ++ EvCall (ReqPanelImage prompt) :: inner)%list
    /\ Forall (fun e => is_call e = false) inner.
Proof.
  unfold generateImageForPanel, setPanels, set_ui, try_catch, bind, call.
  cbn [world ui].
  destruct (generatePanelImage_trace prompt (world a))
    as (res & w' & inner & Hrun & Htr & Hin).
  rewrite Hrun. destruct res as [url | e]; cbn [world ui];
    eexists; exists inner; (split; [reflexivity |]); split; assumption.
Qed.

Lemma generateImagesSequentially_segments (scriptPanels : list Panel) :
  forall a : App,
  exists a' segments,
    generateImagesSequentially scriptPanels a = (Ok tt, a')
    /\ trace (world a') = (trace (world a) ++ List.concat segments)%list
    /\ Forall2 call_segment (filter needs_image scriptPanels) segments.
Proof.
  induction scriptPanels as [| p rest IH]; intros a.
  - exists a, []. simpl. rewrite List.app_nil_r. repeat split. constructor.
  - cbn [generateImagesSequentially filter].
    destruct (needs_image p) eqn:Hneed.
    + destruct (generateImageForPanel_trace (panel_id p) (description p) a)
        as (a1 & inner & Hgen & Htr & Hin).
      destruct (IH (mkApp (ui a1) (mkWorld (ext (world a1))
                                      (trace (world a1) ++ [EvSleep 4000]))))
        as (a' & segments & Hrest & Htr' & Hsegs).
      exists a', ((EvCall (ReqPanelImage (description p)) :: inner ++ [EvSleep 4000])
                  :: segments).
      split; [| split].
      * unfold bind at 1. unfold bind at 1. rewrite Hgen.
        unfold call, sleep, log. cbn [world ui]. exact Hrest.
      * rewrite Htr'. cbn [world trace List.concat]. rewrite Htr.
        repeat rewrite <- List.app_assoc. cbn [app].
        repeat rewrite <- List.app_assoc. reflexivity.
      * constructor; [| exact Hsegs]. exists inner. split; [reflexivity | exact Hin].
    + destruct (IH a) as (a' & segments & Hrest & Htr' & Hsegs).
      exists a', segments. split; [exact Hrest | split; assumption].
Qed.

Lemma panel_calls_app (tr1 tr2 : list Event) :
  panel_calls (tr1 ++ tr2) = (panel_calls tr1 ++ panel_calls tr2)%list.
Proof. unfold panel_calls. apply flat_map_app. Qed.

Lemma panel_calls_inner (inner : list Event) :
  Forall (fun e => is_call e = false) inner -> panel_calls inner = [].
Proof.
  induction 1 as [| e inner He _ IH]; [reflexivity |].
  destruct e; try discriminate; exact IH.
Qed.

Lemma panel_calls_segments (ps : list Panel) (segments : list (list Event)) :
  Forall2 call_segment ps segments ->
  panel_calls (List.concat segments) = map description ps.
Proof.
  induction 1 as [| p segment ps segments (inner & -> & Hin) _ IH]; [reflexivity |].
  cbn [List.concat map]. rewrite panel_calls_app, IH.
  change (EvCall (ReqPanelImage (description p)) :: inner ++ [EvSleep 4000])%list
    with ([EvCall (ReqPanelImage (description p))] ++ inner ++ [EvSleep 4000])%list.
  rewrite !panel_calls_app, (panel_calls_inner inner Hin). reflexivity.
Qed.

(** The batch on the list it is handed.  For every such list of panels,
    the batch returns normally and what it adds to the trace is, for each
    panel that holds no image and is not marked mid-generation, in list
    order, one image call for that panel's description followed by a
    4000 ms pause; a panel that holds an image or is marked mid-generation
    gets no call.  The image calls of the batch are therefore exactly those
    of the panels that pass the test: all N of them when no panel holds an
    image or is marked mid-generation. *)
Theorem generateImagesSequentially_calls (scriptPanels : list Panel) (a : App) :
  exists a' segments,
    generateImagesSequentially scriptPanels a = (Ok tt, a')
    /\ trace (world a') = (trace (world a) ++ List.concat segments)%list
    /\ Forall2 call_segment (filter needs_image scriptPanels) segments
    /\ List.length segments = List.length (filter needs_image scriptPanels)
    /\ panel_calls (trace (world a'))
       = (panel_calls (trace (world a))
          ++ map description (filter needs_image scriptPanels))%list.
Proof.
  destruct (generateImagesSequentially_segments scriptPanels a)
    as (a' & segments & Hrun & Htr & Hsegs).
  exists a', segments. repeat split; try assumption.
  - symmetry. exact (Forall2_length Hsegs).
  - rewrite Htr, panel_calls_app, (panel_calls_segments _ _ Hsegs). reflexivity.
Qed.

Lemma filter_all {A : Type} (f : A -> bool) (l : list A) :
  forallb f l = true -> filter f l = l.
Proof.
  induction l as [| y l IH]; simpl; [reflexivity |].
  intros H. apply andb_true_iff in H. destruct H as [Hy Hl].
  rewrite Hy, (IH Hl). reflexivity.
Qed.

(** The case of a fresh script: N panels, none with an image, none marked
    mid-generation, give N calls, panel after panel. *)
Lemma generateImagesSequentially_fresh (scriptPanels : list Panel) (a : App) :
  forallb needs_image scriptPanels = true ->
  exists a',
    generateImagesSequentially scriptPanels a = (Ok tt, a')
    /\ panel_calls (trace (world a'))
       = (panel_calls (trace (world a)) ++ map description scriptPanels)%list.
Proof.
  intros Hfresh.
  destruct (generateImagesSequentially_segments scriptPanels a)
    as (a' & segments & Hrun & Htr & Hsegs).
  exists a'. split; [exact Hrun |].
  rewrite (filter_all _ _ Hfresh) in Hsegs.
  rewrite Htr, panel_calls_app, (panel_calls_segments _ _ Hsegs). reflexivity.
Qed.

(** Panels that hold an image or are marked mid-generation: the batch does
    nothing at all. *)
Lemma generateImagesSequentially_nothing_to_do (scriptPanels : list Panel) (a : App) :
  forallb (fun p => negb (needs_image p)) scriptPanels = true ->
  generateImagesSequentially scriptPanels a = (Ok tt, a).
Proof.
  revert a. induction scriptPanels as [| p rest IH]; intros a H; [reflexivity |].
  simpl in H. apply andb_true_iff in H. destruct H as [Hp Hrest].
  apply negb_true_iff in Hp. cbn [generateImagesSequentially]. rewrite Hp.
  exact (IH a Hrest).
Qed.

(** The panels of a script are numbered from 0 in list order, hold no image
    and are not marked mid-generation: list order is ascending panel
    order, and every panel of a fresh script is illustrated. *)
Lemma script_panels_numbered (style chars : value) (items : list value) :
  forall (i : Z) (w w' : World) (script : list Panel),
    mapM_from i (script_panel style chars) items w = (Ok script, w') ->
    map panel_id script = map (fun k => i + Z.of_nat k) (seq 0 (List.length script))
    /\ forallb needs_image script = true
    /\ trace w' = trace w.
Proof.
  induction items as [| item items IH]; intros i w w' script Hrun.
  - injection Hrun as <- <-. repeat split.
  - cbn [mapM_from] in Hrun. unfold bind at 1 in Hrun.
    unfold script_panel at 1 in Hrun. unfold bind, lift_result, ret in Hrun.
    destruct (get item "actionDescription") as [action |]; [| discriminate].
    destruct (get item "caption") as [cap |]; [| discriminate].
    destruct (mapM_from (i + 1) (script_panel style chars) items w)
      as [[rest |] w1] eqn:Hrest; [| discriminate].
    injection Hrun as <- <-.
    destruct (IH _ _ _ _ Hrest) as (Hids & Hfresh & Htr).
    split; [| split; [exact Hfresh | exact Htr]].
    cbn [map List.length seq panel_id]. rewrite Hids. f_equal.
    + lia.
    + rewrite <- seq_shift, map_map. apply map_ext. intros k. lia.
Qed.

Lemma fallback_panels_numbered (style : string) (story : Story) (n : Z) :
  map panel_id (map (fallback_panel style story) (indices n)) = indices n
  /\ forallb needs_image (map (fallback_panel style story) (indices n)) = true.
Proof.
  split.
  - rewrite map_map. simpl. apply map_id.
  - apply forallb_forall. intros p Hp. apply in_map_iff in Hp.
    destruct Hp as (k & <- & _). reflexivity.
Qed.

Lemma indices_length (n : nat) : indices (Z.of_nat n) = map Z.of_nat (seq 0 n).
Proof. unfold indices. rewrite Nat2Z.id. reflexivity. Qed.

(** *** Inversion of the monad *)

Lemma bind_ok {St A B : Type} (m : M St A) (k : A -> M St B)
    (s s' : St) (b : B) :
  bind m k s = (Ok b, s') ->
  exists a s1, m s = (Ok a, s1) /\ k a s1 = (Ok b, s').
Proof.
  unfold bind. destruct (m s) as [[a | e] s1]; [eauto | discriminate].
Qed.

Lemma try_catch_ok {St A : Type} (m : M St A) (h : JsError -> M St A)
    (s s' : St) (a : A) :
  try_catch m h s = (Ok a, s') ->
  m s = (Ok a, s') \/ exists e s1, m s = (Throw e, s1) /\ h e s1 = (Ok a, s').
Proof.
  unfold try_catch. destruct (m s) as [[a' | e] s1]; eauto.
Qed.

(** *** Computations that issue no panel-image call *)

Lemma quiet_ret {A : Type} (a : A) : quiet (ret a).
Proof. intros w. reflexivity. Qed.

Lemma quiet_throw {A : Type} (e : JsError) : quiet (@throw World A e).
Proof. intros w. reflexivity. Qed.

Lemma quiet_lift_result {A : Type} (r : Result A) : quiet (lift_result r).
Proof. intros w. reflexivity. Qed.

Lemma quiet_bind {A B : Type} (m : M World A) (k : A -> M World B) :
  quiet m -> (forall a, quiet (k a)) -> quiet (bind m k).
Proof.
  intros Hm Hk w. unfold bind. specialize (Hm w).
  destruct (m w) as [[a | e] w1]; cbn [snd] in *.
  - rewrite (Hk a w1). exact Hm.
  - exact Hm.
Qed.

Lemma quiet_try_catch {A : Type} (m : M World A) (h : JsError -> M World A) :
  quiet m -> (forall e, quiet (h e)) -> quiet (try_catch m h).
Proof.
  intros Hm Hh w. unfold try_catch. specialize (Hm w).
  destruct (m w) as [[a | e] w1]; cbn [snd] in *.
  - exact Hm.
  - rewrite (Hh e w1). exact Hm.
Qed.

Lemma quiet_log (e : Event) : panel_calls [e] = [] -> quiet (log e).
Proof.
  intros He w. unfold log. cbn [snd trace].
  rewrite panel_calls_app, He. apply List.app_nil_r.
Qed.

Lemma quiet_generateContent (r : Request) : quiet (generateContent r).
Proof.
  intros w. unfold generateContent. destruct (service r (ext w)) as [res x].
  cbn [snd trace]. rewrite panel_calls_app. apply List.app_nil_r.
Qed.

Lemma quiet_now : quiet now.
Proof.
  intros w. unfold now. destruct (Date_now (ext w)). reflexivity.
Qed.

Lemma quiet_mapM_from {A B : Type} (f : A -> Z -> M World B) (l : list A) :
  (forall x i, quiet (f x i)) -> forall i, quiet (mapM_from i f l).
Proof.
  intros Hf. induction l as [| x l IH]; intros i; cbn [mapM_from].
  - apply quiet_ret.
  - apply quiet_bind; [apply Hf |]. intros y.
    apply quiet_bind; [apply IH |]. intros ys. apply quiet_ret.
Qed.

Lemma quiet_retry_loop {T : Type} (operation : M World T) (n : nat) :
  quiet operation -> forall delay, quiet (retry_loop operation n delay).
Proof.
  intros Hop. induction n as [| n IH]; intros delay; cbn [retry_loop];
    apply quiet_try_catch; try exact Hop; intros e.
  - apply quiet_throw.
  - destruct (isQuotaError e); [| apply quiet_throw].
    apply quiet_bind; [apply quiet_log; reflexivity |]. intros _. apply IH.
Qed.

Lemma quiet_image_request (r : Request) (missing : string) :
  quiet (image_request r missing).
Proof.
  unfold image_request. apply quiet_try_catch; [| intros e; apply quiet_throw].
  apply quiet_bind; [apply quiet_generateContent |]. intros response.
  destruct (first_inline_image (parts response));
    [apply quiet_ret | apply quiet_throw].
Qed.

Lemma quiet_generateCoverImage (storyTitle storySummary : value) (style : option string) :
  quiet (generateCoverImage storyTitle storySummary style).
Proof.
  unfold generateCoverImage. cbv zeta.
  apply quiet_bind; [apply quiet_log; reflexivity |]. intros _.
  apply quiet_retry_loop. apply quiet_image_request.
Qed.

Lemma quiet_script_panel (style chars item : value) (index : Z) :
  quiet (script_panel style chars item index).
Proof.
  unfold script_panel.
  repeat (apply quiet_bind; [apply quiet_lift_result |]; intros ?).
  apply quiet_ret.
Qed.

Lemma quiet_generateScript (story : Story) : quiet (generateScript story).
Proof.
  unfold generateScript. cbv zeta.
  apply quiet_bind; [apply quiet_log; reflexivity |]. intros _.
  apply quiet_try_catch; [| intros e; apply quiet_lift_result].
  apply quiet_bind; [apply quiet_generateContent |]. intros response.
  repeat (apply quiet_bind; [apply quiet_lift_result |]; intros ?).
  match goal with
  | |- quiet (match ?v with _ => _ end) => destruct v
  end; try apply quiet_throw.
  apply quiet_mapM_from. intros item index. apply quiet_script_panel.
Qed.

Lemma fallback_script_numbered (count : Z) (style : string) (story : Story)
    (script : list Panel) :
  fallback_script count style story = Ok script ->
  map panel_id script = indices (Z.of_nat (List.length script))
  /\ forallb needs_image script = true.
Proof.
  unfold fallback_script. destruct ((0 <=? count) && (count <=? 4294967295));
    [| discriminate].
  intros [= <-]. destruct (fallback_panels_numbered style story count) as [Hids Hfresh].
  split; [| exact Hfresh].
  rewrite Hids, length_map. unfold indices.
  rewrite length_map, length_seq, Nat2Z.id. reflexivity.
Qed.

(** Whichever way [generateScript] returns, its panels are numbered
    0, 1, 2, ... in list order and are fresh. *)
Lemma generateScript_numbered (story : Story) (w w' : World) (script : list Panel) :
  generateScript story w = (Ok script, w') ->
  map panel_id script = indices (Z.of_nat (List.length script))
  /\ forallb needs_image script = true.
Proof.
  unfold generateScript. cbv zeta. intros Hrun.
  apply bind_ok in Hrun. destruct Hrun as (_ & w1 & _ & Hrun).
  apply try_catch_ok in Hrun. destruct Hrun as [Hrun | (e & w2 & _ & Hrun)].
  - apply bind_ok in Hrun. destruct Hrun as (response & w2 & _ & Hrun).
    apply bind_ok in Hrun. destruct Hrun as (parsed & w3 & _ & Hrun).
    apply bind_ok in Hrun. destruct Hrun as (data_style & w4 & _ & Hrun).
    apply bind_ok in Hrun. destruct Hrun as (data_chars & w5 & _ & Hrun).
    apply bind_ok in Hrun. destruct Hrun as (data_panels & w6 & _ & Hrun).
    destruct (or_else data_panels (VArr [])); try discriminate.
    destruct (script_panels_numbered _ _ _ _ _ _ _ Hrun) as (Hids & Hfresh & _).
    split; [| exact Hfresh].
    rewrite Hids, indices_length. apply map_ext. intros k. lia.
  - unfold lift_result in Hrun. injection Hrun as Hrun _.
    exact (fallback_script_numbered _ _ _ _ Hrun).
Qed.

(** The cover is painted without any panel-image call, and its failure is
    not thrown to [initStory]. *)
Lemma generateCover_quiet (story : Story) (a : App) :
  exists a',
    generateCover story a = (Ok tt, a')
    /\ panel_calls (trace (world a')) = panel_calls (trace (world a)).
Proof.
  unfold generateCover, bind, set_ui, try_finally, try_catch, call, ret.
  cbn [world ui].
  pose proof (quiet_generateCoverImage (title story) (summary story)
                (visualStyle story) (world a)) as Hq.
  destruct (generateCoverImage (title story) (summary story) (visualStyle story)
              (world a)) as [[url | e] w1];
    cbn [snd] in Hq; eexists; (split; [reflexivity | exact Hq]).
Qed.

(** After the script is drafted, [initStory] paints the cover and then
    issues exactly one image call per panel of the script, in ascending
    panel order. *)
Lemma initStory_illustrates_script (story : Story) (a : App)
    (script : list Panel) (w1 : World) :
  generateScript story (world a) = (Ok script, w1) ->
  exists a',
    initStory story a = (Ok tt, a')
    /\ panel_calls (trace (world a'))
       = (panel_calls (trace (world a)) ++ map description script)%list
    /\ map panel_id script = indices (Z.of_nat (List.length script)).
Proof.
  intros Hscript.
  destruct (generateScript_numbered _ _ _ _ Hscript) as [Hids Hfresh].
  pose proof (quiet_generateScript story (world a)) as Hq.
  rewrite Hscript in Hq. cbn [snd] in Hq.
  unfold initStory. unfold bind at 1. unfold set_ui at 1. cbn [world ui].
  unfold try_catch. unfold bind at 1. unfold call at 1. cbn [world ui].
  rewrite Hscript.
  unfold bind at 1. unfold setPanels at 1. unfold set_ui at 1. cbn [world ui].
  unfold bind at 1. unfold set_ui at 1. cbn [world ui].
  unfold bind at 1.
  match goal with
  | |- context [generateCover story ?a0] =>
      destruct (generateCover_quiet story a0) as (a1 & Hcover & Hq1)
  end.
  rewrite Hcover. cbn [world] in Hq1.
  destruct (generateImagesSequentially_fresh script a1 Hfresh) as (a' & Hrun & Hcalls).
  rewrite Hrun. exists a'. split; [reflexivity |]. split; [| exact Hids].
  rewrite Hcalls, Hq1, Hq. reflexivity.
Qed.

(* ================================================================== *)
(** ** Story search *)

Lemma get_of_object (v : value) (k : string) :
  nullish v = false -> exists v', get v k = Ok v'.
Proof.
  destruct v; simpl; intros H; try discriminate; eauto.
Qed.

Lemma string_app_assoc (a b c : string) : (a ++ b) ++ c = a ++ (b ++ c).
Proof.
  induction a as [| x a IH]; simpl; [reflexivity | rewrite IH; reflexivity].
Qed.

Lemma after_last_dash_suffix (pre d : string) :
  string_forall not_dash d = true ->
  after_last_dash (pre ++ String "-" d) = d.
Proof.
  intros Hd. induction pre as [| c pre IH]; simpl.
  - rewrite Hd. reflexivity.
  - replace (string_forall not_dash (pre ++ String "-" d)) with false; [exact IH |].
    clear IH. induction pre as [| c' pre IH]; simpl.
    + reflexivity.
    + rewrite <- IH. symmetry. apply andb_false_r.
Qed.

Lemma uint_digits_no_dash (d : Decimal.uint) :
  string_forall not_dash (NilEmpty.string_of_uint d) = true.
Proof.
  induction d; simpl; try assumption; reflexivity.
Qed.

Lemma string_of_Z_no_dash (n : Z) :
  0 <= n -> string_forall not_dash (string_of_Z n) = true.
Proof.
  intros Hn. unfold string_of_Z. destruct n as [| p | p]; try lia.
  - reflexivity.
  - simpl. destruct (Pos.to_uint p); try reflexivity; apply uint_digits_no_dash.
Qed.

Lemma string_of_Z_inj (n m : Z) : string_of_Z n = string_of_Z m -> n = m.
Proof.
  unfold string_of_Z. intros H.
  assert (Hnn : forall z, Z.to_int z <> Decimal.Pos Decimal.Nil
                          /\ Z.to_int z <> Decimal.Neg Decimal.Nil).
  { intros [| p | p]; simpl; split; try discriminate;
      intros [= Hp]; exact (DecimalPos.Unsigned.to_uint_nonnil p Hp). }
  apply DecimalZ.to_int_inj.
  assert (Some (Z.to_int n) = Some (Z.to_int m)) as [= E]; [| exact E].
  rewrite <- (NilZero.isi (Z.to_int n)) by apply Hnn.
  rewrite <- (NilZero.isi (Z.to_int m)) by apply Hnn.
  rewrite H. reflexivity.
Qed.

(** Two identifiers built for different indices differ, whatever the clock
    said when each was built. *)
Lemma story_id_inj (t t' i j : Z) :
  0 <= i -> 0 <= j ->
  "story-" ++ string_of_Z t ++ "-" ++ string_of_Z i
  = "story-" ++ string_of_Z t' ++ "-" ++ string_of_Z j ->
  i = j.
Proof.
  intros Hi Hj H.
  apply string_of_Z_inj.
  rewrite <- (after_last_dash_suffix ("story-" ++ string_of_Z t) (string_of_Z i))
    by (apply string_of_Z_no_dash; exact Hi).
  rewrite <- (after_last_dash_suffix ("story-" ++ string_of_Z t') (string_of_Z j))
    by (apply string_of_Z_no_dash; exact Hj).
  repeat rewrite string_app_assoc. cbn [append] in H |- *.
  f_equal. exact H.
Qed.

Lemma found_stories_run (audience : string) (items : list value) :
  Forall (fun item => nullish item = false) items ->
  forall (i : Z) (w : World),
  exists stories w',
    mapM_from i (found_story audience) items w = (Ok stories, w')
    /\ trace w' = trace w
    /\ List.length stories = List.length items
    /\ forall k s, nth_error stories k = Some s ->
         targetAudience s = Some audience
         /\ exists t, story_id s
                      = "story-" ++ string_of_Z t ++ "-" ++ string_of_Z (i + Z.of_nat k).
Proof.
  induction 1 as [| item items Hitem _ IH]; intros i w.
  - exists [], w. simpl. split; [reflexivity |]. split; [reflexivity |].
    split; [reflexivity |]. intros k s Hk. destruct k; discriminate.
  - cbn [mapM_from]. unfold bind at 1. unfold found_story at 1.
    unfold bind, now, lift_result, ret.
    destruct (Date_now (ext w)) as [t x] eqn:Hnow.
    destruct (get_of_object item "title" Hitem) as [vt ->].
    destruct (get_of_object item "summary" Hitem) as [vs ->].
    destruct (get_of_object item "source" Hitem) as [vo ->].
    destruct (IH (i + 1) (mkWorld x (trace w)))
      as (stories & w' & Hrun & Htr & Hlen & Hnth).
    unfold bind in Hrun. rewrite Hrun.
    eexists; exists w'. split; [reflexivity |].
    split; [exact Htr |]. split; [simpl; rewrite Hlen; reflexivity |].
    intros k s Hk. destruct k as [| k]; simpl in Hk.
    + injection Hk as <-. simpl. split; [reflexivity |].
      exists t. rewrite Z.add_0_r. reflexivity.
    + destruct (Hnth k s Hk) as [Haud [t' Hid]]. split; [exact Haud |].
      exists t'. rewrite Hid.
      replace (i + Z.of_nat (S k)) with (i + 1 + Z.of_nat k) by lia. reflexivity.
Qed.

Lemma findViralStories_answered (topic audience : string) (w : World)
    (response : Response) (x : Ext) :
  service (ReqFindStories topic audience) (ext w) = (Ok response, x) ->
  findViralStories topic audience w
  = try_catch
      (match parse_story_array (or_default (text response) "") with
       | VArr [] => ret [fallback_story audience]
       | VArr parsed => mapM_from 0 (found_story audience) parsed
       | VNull | VUndefined =>
           throw (TypeError "Cannot read properties of null or undefined")
       | VStr (String _ _) => throw (TypeError "parsed.map is not a function")
       | _ => ret [fallback_story audience]
       end)
      (fun _ => throw (Error "Failed to fetch viral stories."))
      (mkWorld x ((trace w ++ [EvCall (ReqFindStories topic audience)])
                  ++ [EvRequest (ReqFindStories topic audience)])).
Proof.
  intros Hsvc.
  unfold findViralStories, bind, log, try_catch, generateContent.
  cbn [ext trace]. rewrite Hsvc. reflexivity.
Qed.

(** C9.  A search reply whose bracketed text parses to a non-empty array of
    entries (none of them [null]): the operation returns one story per
    entry, the identifiers are pairwise distinct, and every story carries
    the requested target audience. *)
Theorem findViralStories_valid_response (topic audience : string) (w : World)
    (response : Response) (x : Ext) (jsonMatch : string) (parsed : list value) :
  service (ReqFindStories topic audience) (ext w) = (Ok response, x) ->
  match_bracketed (or_default (text response) "") = Some jsonMatch ->
  JSON_parse jsonMatch = Ok (VArr parsed) ->
  parsed <> [] ->
  Forall (fun item => nullish item = false) parsed ->
  exists stories w',
    findViralStories topic audience w = (Ok stories, w')
    /\ List.length stories = List.length parsed
    /\ NoDup (map story_id stories)
    /\ Forall (fun s => targetAudience s = Some audience) stories.
Proof.
  intros Hsvc Hmatch Hparse Hne Hitems.
  rewrite (findViralStories_answered _ _ _ _ _ Hsvc).
  unfold parse_story_array. rewrite Hmatch, Hparse.
  destruct parsed as [| item items]; [contradiction |].
  set (w1 := mkWorld x _).
  destruct (found_stories_run audience (item :: items) Hitems 0 w1)
    as (stories & w' & Hrun & _ & Hlen & Hnth).
  exists stories, w'. unfold try_catch. rewrite Hrun.
  split; [reflexivity |]. split; [exact Hlen |]. split.
  - apply NoDup_nth_error. intros i j Hi Heq.
    rewrite length_map in Hi.
    rewrite !nth_error_map in Heq.
    destruct (nth_error stories i) as [si |] eqn:Ei;
      [| apply nth_error_None in Ei; lia].
    destruct (nth_error stories j) as [sj |] eqn:Ej; [| discriminate].
    destruct (Hnth i si Ei) as [_ [ti Hidi]].
    destruct (Hnth j sj Ej) as [_ [tj Hidj]].
    simpl in Heq. injection Heq as Heq. rewrite Hidi, Hidj in Heq.
    apply story_id_inj in Heq; lia.
  - apply Forall_forall. intros s Hin.
    destruct (In_nth_error _ _ Hin) as [k Hk].
    exact (proj1 (Hnth k s Hk)).
Qed.

Lemma found_stories_null_entry (audience : string) (items : list value) :
  Exists (fun item => nullish item = true) items ->
  forall (i : Z) (w : World),
  exists e w', mapM_from i (found_story audience) items w = (Throw e, w').
Proof.
  induction items as [| item items IH]; intros Hex i w.
  - inversion Hex.
  - cbn [mapM_from]. unfold bind at 1. unfold found_story at 1.
    unfold bind, now, lift_result, ret.
    destruct (Date_now (ext w)) as [t x].
    destruct (nullish item) eqn:Hitem.
    + destruct item; try discriminate; simpl; eauto.
    + destruct (get_of_object item "title" Hitem) as [vt ->].
      destruct (get_of_object item "summary" Hitem) as [vs ->].
      destruct (get_of_object item "source" Hitem) as [vo ->].
      assert (Hrest : Exists (fun item => nullish item = true) items).
      { inversion Hex; subst; [congruence | assumption]. }
      destruct (IH Hrest (i + 1) (mkWorld x (trace w))) as (e & w' & Hrun).
      unfold bind in Hrun. rewrite Hrun. eauto.
Qed.

(** The edge of C9: a parsed array with a [null] entry is not a valid
    reply; reading [item.title] throws, and the search fails with its
    generic error. *)
Lemma findViralStories_null_entry (topic audience : string) (w : World)
    (response : Response) (x : Ext) (jsonMatch : string) (parsed : list value) :
  service (ReqFindStories topic audience) (ext w) = (Ok response, x) ->
  match_bracketed (or_default (text response) "") = Some jsonMatch ->
  JSON_parse jsonMatch = Ok (VArr parsed) ->
  Exists (fun item => nullish item = true) parsed ->
  fst (findViralStories topic audience w)
  = Throw (Error "Failed to fetch viral stories.").
Proof.
  intros Hsvc Hmatch Hparse Hnull.
  rewrite (findViralStories_answered _ _ _ _ _ Hsvc).
  unfold parse_story_array. rewrite Hmatch, Hparse.
  destruct parsed as [| item items]; [inversion Hnull |].
  set (w1 := mkWorld x _).
  destruct (found_stories_null_entry audience (item :: items) Hnull 0 w1)
    as (e & w' & Hrun).
  unfold try_catch. rewrite Hrun. reflexivity.
Qed.

Lemma findViralStories_falls_back (topic audience : string) (w : World)
    (response : Response) (x : Ext) :
  service (ReqFindStories topic audience) (ext w) = (Ok response, x) ->
  no_stories_parsed (or_default (text response) "") ->
  fst (findViralStories topic audience w) = Ok [fallback_story audience].
Proof.
  intros Hsvc Hnone.
  rewrite (findViralStories_answered _ _ _ _ _ Hsvc).
  unfold no_stories_parsed in Hnone. unfold parse_story_array.
  destruct (match_bracketed (or_default (text response) "")) as [jsonMatch |].
  - destruct (JSON_parse jsonMatch) as [[ | | | | | [| item items] | ] | e];
      try contradiction; reflexivity.
  - reflexivity.
Qed.

(** C10.  A search reply from which no array of stories is parsed (no
    bracketed text, or a bracketed text that [JSON.parse] rejects, or the
    empty array): the operation returns exactly one entry, the placeholder,
    whose source is "Search System". *)
Theorem findViralStories_placeholder (topic audience : string) (w : World)
    (response : Response) (x : Ext) :
  service (ReqFindStories topic audience) (ext w) = (Ok response, x) ->
  no_stories_parsed (or_default (text response) "") ->
  exists entry,
    fst (findViralStories topic audience w) = Ok [entry]
    /\ source entry = VStr "Search System".
Proof.
  intros Hsvc Hnone. exists (fallback_story audience).
  split; [| reflexivity].
  exact (findViralStories_falls_back _ _ _ _ _ Hsvc Hnone).
Qed.

(* ================================================================== *)
(** ** Replies that do not parse, requests that fail *)

(** Runs an operation up to the answer of the service. *)
Ltac run_to_service Hsvc :=
  unfold bind, log, try_catch, generateContent, lift_result, now, ret, throw;
  cbn [ext trace]; rewrite Hsvc; cbn [ext trace].

Section Outcomes.

Variable w : World.
Variable x : Ext.

Section Unparseable.

(** The service answers [response], whose text [JSON.parse] rejects with
    [e]. *)
Variable response : Response.
Variable e : JsError.
Hypothesis answered : forall r, service r (ext w) = (Ok response, x).
Hypothesis rejected : JSON_parse (or_default (text response) "{}") = Throw e.

Lemma createStoryFromPrompt_unparseable (userPrompt : string) (count : Z)
    (audience : string) :
  fst (createStoryFromPrompt userPrompt count audience w)
  = Ok (fallback_custom_story (fst (Date_now x)) userPrompt count audience).
Proof.
  unfold createStoryFromPrompt.
  run_to_service (answered (ReqStoryFromPrompt userPrompt count audience)).
  rewrite rejected. cbn [ext trace]. destruct (Date_now x). reflexivity.
Qed.

Lemma generateScript_unparseable (story : Story) :
  fst (generateScript story w)
  = fallback_script (or_count (panelCount story) 6)
      (or_default (visualStyle story) "Vibrant Digital Cartoon") story.
Proof.
  unfold generateScript. cbv zeta.
  run_to_service (answered
    (ReqScript (or_count (panelCount story) 6) (to_string (title story))
       (to_string (summary story))
       (or_default (visualStyle story) "Vibrant Digital Cartoon")
       (or_default (targetAudience story) "General Audience"))).
  rewrite rejected. reflexivity.
Qed.

Lemma analyzeStoryPotential_unparseable (storyTitle storySummary : value)
    (audience style : string) (cover sample : option string) :
  fst (analyzeStoryPotential storyTitle storySummary audience style cover sample w)
  = Ok fallback_analysis.
Proof.
  unfold analyzeStoryPotential. cbv zeta.
  run_to_service (answered
    (ReqAnalysis (to_string storyTitle) (to_string storySummary) audience style
       match cover with
       | Some EmptyString | None => None
       | Some c => Some (strip_data_uri_prefix c)
       end (or_default sample "Not provided"))).
  rewrite rejected. reflexivity.
Qed.

Lemma refineStoryContent_unparseable (storyTitle storySummary : value)
    (current : list Panel) (critiqueText audience : string) :
  fst (refineStoryContent storyTitle storySummary current critiqueText audience w)
  = Throw e.
Proof.
  unfold refineStoryContent. cbv zeta.
  run_to_service (answered
    (ReqRefine (to_string storyTitle) (to_string storySummary)
       (map (fun p => (panel_id p, caption p)) current) critiqueText audience)).
  rewrite rejected. reflexivity.
Qed.

End Unparseable.

Section RequestFails.

(** The service fails every request with [e]. *)
Variable e : JsError.
Hypothesis failed : forall r, service r (ext w) = (Throw e, x).

Lemma findViralStories_request_fails (topic audience : string) :
  fst (findViralStories topic audience w)
  = Throw (Error "Failed to fetch viral stories.").
Proof.
  unfold findViralStories. run_to_service (failed (ReqFindStories topic audience)).
  reflexivity.
Qed.

Lemma createStoryFromPrompt_request_fails (userPrompt : string) (count : Z)
    (audience : string) :
  fst (createStoryFromPrompt userPrompt count audience w)
  = Ok (fallback_custom_story (fst (Date_now x)) userPrompt count audience).
Proof.
  unfold createStoryFromPrompt.
  run_to_service (failed (ReqStoryFromPrompt userPrompt count audience)).
  destruct (Date_now x). reflexivity.
Qed.

Lemma generateScript_request_fails (story : Story) :
  fst (generateScript story w)
  = fallback_script (or_count (panelCount story) 6)
      (or_default (visualStyle story) "Vibrant Digital Cartoon") story.
Proof.
  unfold generateScript. cbv zeta.
  run_to_service (failed
    (ReqScript (or_count (panelCount story) 6) (to_string (title story))
       (to_string (summary story))
       (or_default (visualStyle story) "Vibrant Digital Cartoon")
       (or_default (targetAudience story) "General Audience"))).
  reflexivity.
Qed.

Lemma analyzeStoryPotential_request_fails (storyTitle storySummary : value)
    (audience style : string) (cover sample : option string) :
  fst (analyzeStoryPotential storyTitle storySummary audience style cover sample w)
  = Ok fallback_analysis.
Proof.
  unfold analyzeStoryPotential. cbv zeta.
  run_to_service (failed
    (ReqAnalysis (to_string storyTitle) (to_string storySummary) audience style
       match cover with
       | Some EmptyString | None => None
       | Some c => Some (strip_data_uri_prefix c)
       end (or_default sample "Not provided"))).
  reflexivity.
Qed.

Lemma refineStoryContent_request_fails (storyTitle storySummary : value)
    (current : list Panel) (critiqueText audience : string) :
  fst (refineStoryContent storyTitle storySummary current critiqueText audience w)
  = Throw e.
Proof.
  unfold refineStoryContent. cbv zeta.
  run_to_service (failed
    (ReqRefine (to_string storyTitle) (to_string storySummary)
       (map (fun p => (panel_id p, caption p)) current) critiqueText audience)).
  reflexivity.
Qed.

Lemma image_operation_request_fails (r : Request) (missing : string) :
  isQuotaError e = false ->
  fst ((log (EvCall r) ;;
        retryOperation_default (image_request r missing)) w)
  = Throw e.
Proof.
  intros Hq. unfold bind at 1. unfold log at 1.
  unfold retryOperation_default, retryOperation.
  erewrite retry_loop_rethrows; [reflexivity | | exact Hq].
  unfold image_request. run_to_service (failed r). reflexivity.
Qed.

End RequestFails.

End Outcomes.

Lemma fallback_script_in_range (count : Z) (style : string) (story : Story) :
  0 <= count <= 4294967295 ->
  fallback_script count style story
  = Ok (map (fallback_panel style story) (indices count)).
Proof.
  intros [Hlo Hhi]. unfold fallback_script.
  apply Z.leb_le in Hlo. apply Z.leb_le in Hhi. rewrite Hlo, Hhi. reflexivity.
Qed.

(** C1 (as the code has it).  When the reply of the service cannot be
    parsed, four of the five prompt-and-parse operations return their fixed
    placeholder (for the script: as many placeholder panels as the story
    asks for, when that count is an array length), and the fifth,
    [refineStoryContent], throws the parse error to its caller. *)
Theorem unparseable_reply_outcomes (w : World) (x : Ext)
    (response : Response) (e : JsError) :
  (forall r, service r (ext w) = (Ok response, x)) ->
  JSON_parse (or_default (text response) "{}") = Throw e ->
  (forall jsonMatch,
     match_bracketed (or_default (text response) "") = Some jsonMatch ->
     is_ok (JSON_parse jsonMatch) = false) ->
  (forall topic audience,
     fst (findViralStories topic audience w) = Ok [fallback_story audience])
  /\ (forall userPrompt count audience,
        fst (createStoryFromPrompt userPrompt count audience w)
        = Ok (fallback_custom_story (fst (Date_now x)) userPrompt count audience))
  /\ (forall story,
        0 <= or_count (panelCount story) 6 <= 4294967295 ->
        fst (generateScript story w)
        = Ok (map (fallback_panel
                     (or_default (visualStyle story) "Vibrant Digital Cartoon") story)
                  (indices (or_count (panelCount story) 6))))
  /\ (forall storyTitle storySummary audience style cover sample,
        fst (analyzeStoryPotential storyTitle storySummary audience style cover sample w)
        = Ok fallback_analysis)
  /\ (forall storyTitle storySummary current critiqueText audience,
        fst (refineStoryContent storyTitle storySummary current critiqueText audience w)
        = Throw e).
Proof.
  intros Hsvc Hrej Hmatch. repeat split; intros.
  - apply (findViralStories_falls_back _ _ _ response x (Hsvc _)).
    unfold no_stories_parsed.
    destruct (match_bracketed (or_default (text response) "")) as [m |] eqn:Em;
      [| exact I].
    specialize (Hmatch m eq_refl). destruct (JSON_parse m); [discriminate | exact I].
  - exact (createStoryFromPrompt_unparseable w x response e Hsvc Hrej _ _ _).
  - rewrite (generateScript_unparseable w x response e Hsvc Hrej).
    apply fallback_script_in_range. assumption.
  - exact (analyzeStoryPotential_unparseable w x response e Hsvc Hrej _ _ _ _ _ _).
  - exact (refineStoryContent_unparseable w x response e Hsvc Hrej _ _ _ _ _).
Qed.

Lemma fallback_script_out_of_range (count : Z) (style : string) (story : Story) :
  count < 0 \/ 4294967295 < count ->
  fallback_script count style story = Throw (RangeError "Invalid array length").
Proof.
  intros Hout. unfold fallback_script.
  destruct (0 <=? count) eqn:Hlo; [| reflexivity].
  destruct (count <=? 4294967295) eqn:Hhi; [| reflexivity].
  apply Z.leb_le in Hlo. apply Z.leb_le in Hhi. lia.
Qed.

(** C6 (as the code has it).  When the request itself fails, the story
    search throws the generic "Failed to fetch viral stories." error and
    the caption rewrite throws the error of the request; the three image
    operations throw the error of the request at once when it carries none
    of the markers the retry wrapper looks for (the status
    RESOURCE_EXHAUSTED, the code 429, the text 429 in the message); the
    story from a prompt and the analysis return their placeholder instead
    of throwing; the script returns its placeholder panels when the panel
    count of the story is an array length, and otherwise throws the
    [RangeError] of building them. *)
Theorem request_failure_outcomes (w : World) (x : Ext) (e : JsError) :
  (forall r, service r (ext w) = (Throw e, x)) ->
  (forall topic audience,
     fst (findViralStories topic audience w)
     = Throw (Error "Failed to fetch viral stories."))
  /\ (forall storyTitle storySummary current critiqueText audience,
        fst (refineStoryContent storyTitle storySummary current critiqueText audience w)
        = Throw e)
  /\ (err_status e <> Some "RESOURCE_EXHAUSTED" ->
      err_code e <> Some 429 ->
      (forall m, err_message e = Some m -> includes "429" m = false) ->
      (forall prompt, fst (generatePanelImage prompt w) = Throw e)
      /\ (forall storyTitle storySummary style,
            fst (generateCoverImage storyTitle storySummary style w) = Throw e)
      /\ (forall base64Image prompt,
            fst (editPanelImage base64Image prompt w) = Throw e))
  /\ (forall userPrompt count audience,
        fst (createStoryFromPrompt userPrompt count audience w)
        = Ok (fallback_custom_story (fst (Date_now x)) userPrompt count audience))
  /\ (forall storyTitle storySummary audience style cover sample,
        fst (analyzeStoryPotential storyTitle storySummary audience style cover sample w)
        = Ok fallback_analysis)
  /\ (forall story,
        0 <= or_count (panelCount story) 6 <= 4294967295 ->
        fst (generateScript story w)
        = Ok (map (fallback_panel
                     (or_default (visualStyle story) "Vibrant Digital Cartoon") story)
                  (indices (or_count (panelCount story) 6))))
  /\ (forall story,
        or_count (panelCount story) 6 < 0 \/ 4294967295 < or_count (panelCount story) 6 ->
        fst (generateScript story w) = Throw (RangeError "Invalid array length")).
Proof.
  intros Hsvc.
  split; [intros; exact (findViralStories_request_fails w x e Hsvc _ _) |].
  split; [intros; exact (refineStoryContent_request_fails w x e Hsvc _ _ _ _ _) |].
  split.
  { intros Hstatus Hcode Hmessage.
    pose proof (isQuotaError_without_marker e Hstatus Hcode Hmessage) as Hq.
    split; [| split]; intros;
      exact (image_operation_request_fails w x e Hsvc _ _ Hq). }
  split; [intros; exact (createStoryFromPrompt_request_fails w x e Hsvc _ _ _) |].
  split; [intros; exact (analyzeStoryPotential_request_fails w x e Hsvc _ _ _ _ _ _) |].
  split.
  - intros story Hrange. rewrite (generateScript_request_fails w x e Hsvc).
    apply fallback_script_in_range. exact Hrange.
  - intros story Hout. rewrite (generateScript_request_fails w x e Hsvc).
    apply fallback_script_out_of_range. exact Hout.
Qed.

(* ================================================================== *)
(** ** Applying a refinement *)

Lemma find_by_id_absent (items : list value) (id : Z) :
  Forall (fun rp => nullish rp = false) items ->
  existsb (mentions id) items = false ->
  find_by_id items id = Ok None.
Proof.
  induction 1 as [| rp items Hrp _ IH]; simpl; intros Hno; [reflexivity |].
  apply orb_false_iff in Hno. destruct Hno as [Hrp_no Hrest].
  unfold mentions in Hrp_no.
  destruct (get_of_object rp "id" Hrp) as [v Hv]. rewrite Hv in *.
  rewrite Hrp_no. exact (IH Hrest).
Qed.

Lemma find_by_id_first (before after : list value) (rp : value) (id : Z) :
  Forall (fun r => nullish r = false) before ->
  existsb (mentions id) before = false ->
  mentions id rp = true ->
  find_by_id (before ++ rp :: after) id = Ok (Some rp).
Proof.
  intros Hok Hno Hrp. induction Hok as [| r before Hr _ IH]; simpl.
  - unfold mentions in Hrp. destruct (get rp "id"); [| discriminate].
    rewrite Hrp. reflexivity.
  - simpl in Hno. apply orb_false_iff in Hno. destruct Hno as [Hr_no Hrest].
    unfold mentions in Hr_no.
    destruct (get_of_object r "id" Hr) as [v Hv]. rewrite Hv in *.
    rewrite Hr_no. exact (IH Hrest).
Qed.

(** An entry that mentions an identifier is an object. *)
Lemma mentions_object (id : Z) (rp : value) :
  mentions id rp = true -> exists fields, rp = VObj fields.
Proof.
  unfold mentions. destruct rp; simpl; try discriminate. eauto.
Qed.

Lemma existsb_split_first {A : Type} (f : A -> bool) (l : list A) :
  existsb f l = true ->
  exists before x after,
    l = (before ++ x :: after)%list /\ existsb f before = false /\ f x = true.
Proof.
  induction l as [| y l IH]; simpl; [discriminate |].
  destruct (f y) eqn:Hy; simpl.
  - intros _. exists [], y, l. auto.
  - intros H. destruct (IH H) as (before & z & after & -> & Hb & Hz).
    exists (y :: before), z, after. simpl. rewrite Hy. auto.
Qed.

(** What the updater does to one panel. *)
Lemma refine_panel_outcome (items : list value) (p : Panel) :
  Forall (fun rp => nullish rp = false) items ->
  exists p',
    refine_panel (VArr items) p = Ok p'
    /\ panel_id p' = panel_id p
    /\ description p' = description p
    /\ imageUrl p' = imageUrl p
    /\ isGenerating p' = isGenerating p
    /\ (existsb (mentions (panel_id p)) items = false -> p' = p)
    /\ (forall before rp after,
          items = (before ++ rp :: after)%list ->
          existsb (mentions (panel_id p)) before = false ->
          mentions (panel_id p) rp = true ->
          get rp "caption" = Ok (caption p')).
Proof.
  intros Hok. unfold refine_panel.
  destruct (existsb (mentions (panel_id p)) items) eqn:Hex.
  - destruct (existsb_split_first _ _ Hex) as (before & rp & after & Hitems & Hb & Hrp).
    assert (Hbefore : Forall (fun r => nullish r = false) before).
    { rewrite Hitems in Hok. apply Forall_app in Hok. tauto. }
    assert (Hfound : find_by_id items (panel_id p) = Ok (Some rp)).
    { rewrite Hitems. exact (find_by_id_first before after rp _ Hbefore Hb Hrp). }
    rewrite Hfound.
    destruct (mentions_object _ _ Hrp) as [fields ->]. simpl.
    eexists. split; [reflexivity |]. simpl. repeat split; try discriminate.
    intros before' rp' after' Hitems' Hb' Hrp'.
    assert (Hsame : find_by_id items (panel_id p) = Ok (Some rp')).
    { rewrite Hitems'. apply find_by_id_first; try assumption.
      rewrite Hitems' in Hok. apply Forall_app in Hok. tauto. }
    rewrite Hfound in Hsame.
    injection Hsame as <-. reflexivity.
  - rewrite (find_by_id_absent items _ Hok Hex).
    exists p. repeat split.
    intros before rp after Hitems Hb Hrp.
    rewrite Hitems, existsb_app in Hex. simpl in Hex. rewrite Hrp in Hex.
    rewrite orb_true_r in Hex. discriminate.
Qed.

(** C7.  Applying a refinement whose [refinedPanels] is an array of
    entries (none of them [null]) succeeds and keeps the panel list in
    place: a panel whose identifier no entry mentions is unchanged, a panel
    whose identifier is mentioned receives the caption of the first entry
    that mentions it, and its other fields are unchanged. *)
Theorem applyRefinement_frame (items : list value) (prev : list Panel) :
  Forall (fun rp => nullish rp = false) items ->
  exists updated,
    applyRefinement (VArr items) prev = Ok updated
    /\ List.length updated = List.length prev
    /\ forall i p, nth_error prev i = Some p ->
         exists p',
           nth_error updated i = Some p'
           /\ panel_id p' = panel_id p
           /\ description p' = description p
           /\ imageUrl p' = imageUrl p
           /\ isGenerating p' = isGenerating p
           /\ (existsb (mentions (panel_id p)) items = false -> p' = p)
           /\ (forall before rp after,
                 items = (before ++ rp :: after)%list ->
                 existsb (mentions (panel_id p)) before = false ->
                 mentions (panel_id p) rp = true ->
                 get rp "caption" = Ok (caption p')).
Proof.
  intros Hok. unfold applyRefinement.
  induction prev as [| q prev IH].
  - exists []. simpl. split; [reflexivity |]. split; [reflexivity |].
    intros i p Hi. destruct i; discriminate.
  - destruct IH as (updated & Hrun & Hlen & Hnth).
    destruct (refine_panel_outcome items q Hok) as (q' & Hq & Hfields).
    exists (q' :: updated). cbn [map_result]. rewrite Hq, Hrun.
    split; [reflexivity |]. split; [simpl; rewrite Hlen; reflexivity |].
    intros i p Hi. destruct i as [| i]; simpl in Hi.
    + injection Hi as <-. exists q'. split; [reflexivity | exact Hfields].
    + exact (Hnth i p Hi).
Qed.

(* ================================================================== *)
(** ** Data URIs *)

Lemma char_sextet_sextet_char (s : Sextet) :
  char_sextet (sextet_char s) = Some s.
Proof.
  destruct s as [[[[[b5 b4] b3] b2] b1] b0].
  destruct b5, b4, b3, b2, b1, b0; reflexivity.
Qed.

(** A character of the alphabet is not whitespace, not the padding sign and
    not a semicolon. *)
Lemma sextet_char_plain (s : Sextet) :
  is_ascii_whitespace (sextet_char s) = false
  /\ Ascii.eqb (sextet_char s) "=" = false
  /\ Ascii.eqb (sextet_char s) ";" = false.
Proof.
  destruct s as [[[[[b5 b4] b3] b2] b1] b0].
  destruct b5, b4, b3, b2, b1, b0; repeat split; reflexivity.
Qed.

Lemma bytes_of_sextets (a b c : ascii) (s1 s2 s3 s4 : Sextet) :
  sextets_of_bytes a b c = (s1, s2, s3, s4) ->
  byte1 s1 s2 = a /\ byte2 s2 s3 = b /\ byte3 s3 s4 = c.
Proof.
  destruct a, b, c. simpl. intros [= <- <- <- <-]. repeat split; reflexivity.
Qed.

(** Induction on a list taken three elements at a time. *)
Lemma triples_ind {A : Type} (P : list A -> Prop) :
  P [] ->
  (forall a, P [a]) ->
  (forall a b, P [a; b]) ->
  (forall a b c rest, P rest -> P (a :: b :: c :: rest)) ->
  forall l, P l.
Proof.
  intros H0 H1 H2 H3. fix rec 1.
  intros [| a [| b [| c rest]]]; [exact H0 | apply H1 | apply H2 |].
  apply H3. apply rec.
Qed.

Lemma strip_padding_cons (c : ascii) (s : string) :
  Ascii.eqb c "=" = false ->
  strip_padding (String c s) = String c (strip_padding s).
Proof.
  intros Hc. cbn [strip_padding]. unfold is_padding_tail. simpl.
  rewrite Hc. reflexivity.
Qed.

Ltac expose_sextets a b c :=
  let E := fresh "E" in
  destruct (sextets_of_bytes a b c) as [[[?s1 ?s2] ?s3] ?s4] eqn:E;
  apply bytes_of_sextets in E; destruct E as (? & ? & ?).

Lemma decode_stripped_encoding (l : list ascii) :
  decode_chars (strip_padding (encode_chars l)) = Some (string_of_list_ascii l).
Proof.
  induction l as [| a | a b | a b c rest IH] using triples_ind;
    cbn [encode_chars string_of_list_ascii].
  - reflexivity.
  - expose_sextets a zero zero.
    repeat rewrite strip_padding_cons by apply sextet_char_plain.
    cbn [strip_padding is_padding_tail String.eqb Ascii.eqb Bool.eqb orb andb decode_chars].
    repeat rewrite char_sextet_sextet_char. congruence.
  - expose_sextets a b zero.
    repeat rewrite strip_padding_cons by apply sextet_char_plain.
    cbn [strip_padding is_padding_tail String.eqb Ascii.eqb Bool.eqb orb andb decode_chars].
    repeat rewrite char_sextet_sextet_char. congruence.
  - expose_sextets a b c.
    repeat rewrite strip_padding_cons by apply sextet_char_plain.
    cbn [decode_chars].
    repeat rewrite char_sextet_sextet_char. rewrite IH. congruence.
Qed.

Lemma encoding_has_no_whitespace (l : list ascii) :
  remove_whitespace (encode_chars l) = encode_chars l.
Proof.
  induction l as [| a | a b | a b c rest IH] using triples_ind;
    cbn [encode_chars].
  - reflexivity.
  - expose_sextets a zero zero. cbn [remove_whitespace].
    repeat rewrite (proj1 (sextet_char_plain _)). reflexivity.
  - expose_sextets a b zero. cbn [remove_whitespace].
    repeat rewrite (proj1 (sextet_char_plain _)). reflexivity.
  - expose_sextets a b c. cbn [remove_whitespace].
    repeat rewrite (proj1 (sextet_char_plain _)). rewrite IH. reflexivity.
Qed.

Lemma encoding_length (l : list ascii) :
  exists k, String.length (encode_chars l) = (k * 4)%nat.
Proof.
  induction l as [| a | a b | a b c rest [k IH]] using triples_ind;
    cbn [encode_chars].
  - exists 0%nat. reflexivity.
  - expose_sextets a zero zero. exists 1%nat. reflexivity.
  - expose_sextets a b zero. exists 1%nat. reflexivity.
  - expose_sextets a b c. exists (S k). cbn [String.length]. rewrite IH. reflexivity.
Qed.

(** [atob] undoes the encoding. *)
Lemma atob_encode_chars (l : list ascii) :
  atob (encode_chars l) = Ok (string_of_list_ascii l).
Proof.
  unfold atob. rewrite encoding_has_no_whitespace.
  destruct (encoding_length l) as [k ->].
  rewrite Nat.Div0.mod_mul. cbn [Nat.eqb].
  rewrite decode_stripped_encoding. reflexivity.
Qed.

Lemma encoding_has_no_semicolon (l : list ascii) :
  string_forall not_semicolon (encode_chars l) = true.
Proof.
  induction l as [| a | a b | a b c rest IH] using triples_ind;
    cbn [encode_chars].
  - reflexivity.
  - expose_sextets a zero zero. cbn [string_forall]. unfold not_semicolon at 1 2.
    repeat rewrite (proj2 (proj2 (sextet_char_plain _))). reflexivity.
  - expose_sextets a b zero. cbn [string_forall]. unfold not_semicolon at 1 2 3.
    repeat rewrite (proj2 (proj2 (sextet_char_plain _))). reflexivity.
  - expose_sextets a b c. cbn [string_forall]. unfold not_semicolon at 1 2 3 4.
    repeat rewrite (proj2 (proj2 (sextet_char_plain _))). rewrite IH. reflexivity.
Qed.

Lemma string_app_cons (cur : string) (c : ascii) (s : string) :
  (cur ++ String c EmptyString) ++ s = cur ++ String c s.
Proof.
  rewrite string_app_assoc. reflexivity.
Qed.

(** A text without semicolon is one piece for [split(';base64,')]. *)
Lemma split_scan_no_separator (s : string) :
  string_forall not_semicolon s = true ->
  forall cur, split_scan ";base64," 0 cur s = [cur ++ s].
Proof.
  induction s as [| c s IH]; intros Hs cur.
  - simpl. f_equal. induction cur; simpl; congruence.
  - cbn [string_forall] in Hs. apply andb_true_iff in Hs. destruct Hs as [Hc Hs].
    cbn [split_scan starts_with].
    unfold not_semicolon in Hc. apply negb_true_iff in Hc.
    rewrite Ascii.eqb_sym in Hc. rewrite Hc. cbn [andb].
    rewrite (IH Hs). rewrite string_app_cons. reflexivity.
Qed.

Lemma split_data_uri (base64 : string) :
  split ";base64," (data_uri base64)
  = "data:image/png" :: split_scan ";base64," 0 EmptyString base64.
Proof. reflexivity. Qed.

Lemma bytes_of_binary_string (image : list byte) :
  map byte_of_ascii (map ascii_of_byte image) = image.
Proof.
  induction image as [| b image IH]; simpl; [reflexivity |].
  rewrite byte_of_ascii_of_byte, IH. reflexivity.
Qed.

Lemma base64ToBlob_of_encoding (image : list byte) :
  base64ToBlob (data_uri (base64_encode image)) = Ok (mkBlob image "image/png").
Proof.
  unfold base64ToBlob. rewrite split_data_uri.
  unfold base64_encode.
  rewrite (split_scan_no_separator _ (encoding_has_no_semicolon _)).
  cbn [nth_error append]. rewrite atob_encode_chars.
  rewrite list_ascii_of_string_of_list_ascii, bytes_of_binary_string.
  reflexivity.
Qed.

(** C8.  The bytes of an image, encoded in base64 and wrapped in the data
    URI the image operations build, come back unchanged from
    [base64ToBlob], with the MIME type [image/png] of the URI. *)
Theorem base64ToBlob_data_uri_roundtrip (image : list byte) :
  exists blob,
    base64ToBlob (data_uri (base64_encode image)) = Ok blob
    /\ blob_bytes blob = image
    /\ blob_type blob = "image/png".
Proof.
  exists (mkBlob image "image/png").
  split; [apply base64ToBlob_of_encoding | split; reflexivity].
Qed.

(** What an image operation returns is the data URI of the first inline
    part of the reply; with C8, the bytes the service encoded come back
    from [base64ToBlob]. *)
Lemma generatePanelImage_returns_data_uri (prompt : string) (w : World)
    (response : Response) (x : Ext) (uri : string) :
  service (ReqPanelImage prompt) (ext w) = (Ok response, x) ->
  first_inline_image (parts response) = Some uri ->
  generatePanelImage prompt w
  = (Ok uri,
     mkWorld x (trace w ++ [EvCall (ReqPanelImage prompt);
                            EvRequest (ReqPanelImage prompt)])).
Proof.
  intros Hsvc Himg. unfold generatePanelImage, retryOperation_default, retryOperation.
  unfold bind at 1. unfold log at 1. cbn [ext trace].
  erewrite retry_loop_returns.
  - reflexivity.
  - unfold image_request. run_to_service Hsvc. rewrite Himg.
    rewrite <- List.app_assoc. reflexivity.
Qed.

Lemma generated_image_roundtrip (prompt : string) (w : World) (x : Ext)
    (image : list byte) (mime : string) (rest : list Part) :
  service (ReqPanelImage prompt) (ext w)
  = (Ok (mkResponse None
           (mkPart (Some (mkInline mime (base64_encode image))) None :: rest)), x) ->
  exists uri,
    fst (generatePanelImage prompt w) = Ok uri
    /\ base64ToBlob uri = Ok (mkBlob image "image/png").
Proof.
  intros Hsvc. exists (data_uri (base64_encode image)). split.
  - rewrite (generatePanelImage_returns_data_uri prompt w _ x _ Hsvc eq_refl).
    reflexivity.
  - apply base64ToBlob_of_encoding.
Qed.

(* ================================================================== *)
(** ** The handler that applies a refinement *)

Lemma handleFixText_without_analysis (story : Story) (a : App) :
  analysis (ui a) = None -> handleFixText story a = (Ok tt, a).
Proof.
  intros Hnone. unfold handleFixText. rewrite Hnone. reflexivity.
Qed.

(** With an analysis at hand and a refinement that applies, the handler
    installs the new title and exactly the panel list of
    [applyRefinement]. *)
Lemma handleFixText_applies (story : Story) (a : App) (current : AnalysisResult)
    (refined : RefinedContent) (w1 : World) (updated : list Panel) :
  analysis (ui a) = Some current ->
  refineStoryContent (currentTitle (ui a)) (summary story) (panels (ui a))
    (to_string (critique current) ++ " " ++ to_string (textQuality current))
    (or_default (targetAudience story) "General") (world a)
  = (Ok refined, w1) ->
  applyRefinement (refinedPanels refined) (panels (ui a)) = Ok updated ->
  exists a',
    handleFixText story a = (Ok tt, a')
    /\ panels (ui a') = updated
    /\ currentTitle (ui a') = newTitle refined
    /\ fixingText (ui a') = false
    /\ world a' = w1.
Proof.
  intros Hsome Hrefine Happly. unfold handleFixText. rewrite Hsome.
  cbv beta iota zeta delta [bind set_ui try_finally try_catch call ret].
  cbn [world ui]. rewrite Hrefine.
  cbn [world ui panels with_title with_fixingText with_analysis].
  rewrite Happly. unfold setPanels, set_ui. cbn [world ui].
  eexists. split; [reflexivity |]. repeat split.
Qed.

(** When the rewrite throws, the handler swallows the error and leaves the
    panels and the title as they were. *)
Lemma handleFixText_refine_throws (story : Story) (a : App) (current : AnalysisResult)
    (e : JsError) (w1 : World) :
  analysis (ui a) = Some current ->
  refineStoryContent (currentTitle (ui a)) (summary story) (panels (ui a))
    (to_string (critique current) ++ " " ++ to_string (textQuality current))
    (or_default (targetAudience story) "General") (world a)
  = (Throw e, w1) ->
  exists a',
    handleFixText story a = (Ok tt, a')
    /\ panels (ui a') = panels (ui a)
    /\ currentTitle (ui a') = currentTitle (ui a).
Proof.
  intros Hsome Hrefine. unfold handleFixText. rewrite Hsome.
  cbv beta iota zeta delta [bind set_ui try_finally try_catch call ret].
  cbn [world ui]. rewrite Hrefine.
  eexists. split; [reflexivity |]. split; reflexivity.
Qed.

(** When the rewrite returns and the updater throws (an entry of the
    refinement is [null], say), the handler has finished by then: its
    [catch] is not run, and the error ends the rendering. *)
Lemma handleFixText_updater_throws (story : Story) (a : App)
    (current : AnalysisResult) (refined : RefinedContent) (w1 : World) (e : JsError) :
  analysis (ui a) = Some current ->
  refineStoryContent (currentTitle (ui a)) (summary story) (panels (ui a))
    (to_string (critique current) ++ " " ++ to_string (textQuality current))
    (or_default (targetAudience story) "General") (world a)
  = (Ok refined, w1) ->
  applyRefinement (refinedPanels refined) (panels (ui a)) = Throw e ->
  exists a',
    handleFixText story a = (Throw e, a')
    /\ panels (ui a') = panels (ui a)
    /\ fixingText (ui a') = false.
Proof.
  intros Hsome Hrefine Happly. unfold handleFixText. rewrite Hsome.
  cbv beta iota zeta delta [bind set_ui try_finally try_catch call ret].
  cbn [world ui]. rewrite Hrefine.
  cbn [world ui panels with_title with_fixingText with_analysis].
  rewrite Happly.
  eexists. split; [reflexivity |]. split; reflexivity.
Qed.

(* ================================================================== *)
(** ** The retry wrapper, whatever the operation does *)

Lemma retry_loop_pattern {T : Type} (operation : M World T) (ev : Event) :
  (forall w, exists r x, operation w = (r, mkWorld x (trace w ++ [ev]))) ->
  forall (n : nat) (delay : Z) (w : World),
  exists r x k,
    retry_loop operation n delay w
    = (r, mkWorld x (trace w ++ retry_pattern ev k delay))
    /\ (k <= n)%nat
    /\ (forall e, r = Throw e -> isQuotaError e = true -> k = n).
Proof.
  intros Hstep. induction n as [| n IH]; intros delay w;
    destruct (Hstep w) as (r & x & Hrun).
  - exists r, x, 0%nat. split; [| split; [lia | reflexivity]].
    destruct r as [v | e].
    + apply retry_loop_returns. exact Hrun.
    + apply retry_loop_gives_up. exact Hrun.
  - destruct r as [v | e].
    + exists (Ok v), x, 0%nat. split; [| split; [lia | discriminate]].
      apply retry_loop_returns. exact Hrun.
    + destruct (isQuotaError e) eqn:Hq.
      * rewrite (retry_loop_retries _ _ _ _ _ _ Hrun Hq). cbn [ext trace].
        destruct (IH (delay * 2)
                     (mkWorld x ((trace w ++ [ev]) ++ [EvSleep delay])))
          as (r' & x' & k & Hloop & Hk & Hfull).
        exists r', x', (S k). split; [| split].
        -- rewrite Hloop. cbn [trace retry_pattern].
           repeat rewrite <- List.app_assoc. reflexivity.
        -- lia.
        -- intros e' He' Hq'. rewrite (Hfull e' He' Hq'). reflexivity.
      * exists (Throw e), x, 0%nat. split; [| split; [lia |]].
        -- apply retry_loop_rethrows; assumption.
        -- intros e' [= <-] Hq'. congruence.
Qed.

Lemma invoke_one_step {T : Type} (f : Ext -> Result T * Ext) (w : World) :
  exists r x, invoke f w = (r, mkWorld x (trace w ++ [EvInvoke])).
Proof.
  unfold invoke. destruct (f (ext w)) as [r x]. eauto.
Qed.

(** X1.  Whatever the operation does, for a retry budget and a delay
    that are integers a JavaScript number holds exactly, together with
    every doubled delay (all within 2^53 in absolute value), the wrapper
    invokes the operation [k + 1] times for some [k] within the budget,
    waits [delay], [2 * delay], [4 * delay], ... between consecutive
    invocations and does nothing else; when it ends by throwing a
    throttling error, the budget is used up. *)
Theorem retryOperation_bounded {T : Type} (f : Ext -> Result T * Ext)
    (retries delay : Z) (x : Ext) (tr : list Event) :
  retries <= 9007199254740992 ->
  Z.abs delay * 2 ^ Z.max 0 retries <= 9007199254740992 ->
  exists r x' k,
    retryOperation (invoke f) retries delay (mkWorld x tr)
    = (r, mkWorld x' (tr ++ retry_pattern EvInvoke k delay))
    /\ (k <= Z.to_nat retries)%nat
    /\ (forall e, r = Throw e -> isQuotaError e = true -> k = Z.to_nat retries).
Proof.
  intros _ _. unfold retryOperation.
  exact (retry_loop_pattern (invoke f) EvInvoke (invoke_one_step f)
           (Z.to_nat retries) delay (mkWorld x tr)).
Qed.

Lemma image_operation_pattern (r : Request) (missing : string) (w : World) :
  exists res x k,
    (log (EvCall r) ;; retryOperation_default (image_request r missing)) w
    = (res, mkWorld x (trace w ++ EvCall r :: retry_pattern (EvRequest r) k 2000))
    /\ (k <= 3)%nat.
Proof.
  unfold bind at 1. unfold log at 1.
  unfold retryOperation_default, retryOperation.
  destruct (retry_loop_pattern (image_request r missing) (EvRequest r)
              (image_request_trace r missing) (Z.to_nat 3) 2000
              (mkWorld (ext w) (trace w ++ [EvCall r])))
    as (res & x & k & Hloop & Hk & _).
  exists res, x, k. split; [| exact Hk].
  rewrite Hloop. cbn [trace]. rewrite <- List.app_assoc. reflexivity.
Qed.

(** X2.  Each of the three image operations records its call, sends the
    same request between one and four times with waits of 2000, 4000 and
    8000 ms between consecutive sends, and does nothing else. *)
Theorem image_operations_send_at_most_four_requests (w : World) :
  (forall prompt,
     exists res x k,
       generatePanelImage prompt w
       = (res, mkWorld x (trace w ++ EvCall (ReqPanelImage prompt)
                            :: retry_pattern (EvRequest (ReqPanelImage prompt)) k 2000))
       /\ (k <= 3)%nat)
  /\ (forall storyTitle storySummary style,
        exists res x k request,
          generateCoverImage storyTitle storySummary style w
          = (res, mkWorld x (trace w ++ EvCall request
                               :: retry_pattern (EvRequest request) k 2000))
          /\ (k <= 3)%nat)
  /\ (forall base64Image prompt,
        exists res x k request,
          editPanelImage base64Image prompt w
          = (res, mkWorld x (trace w ++ EvCall request
                               :: retry_pattern (EvRequest request) k 2000))
          /\ (k <= 3)%nat).
Proof.
  split; [| split].
  - intros prompt. apply image_operation_pattern.
  - intros storyTitle storySummary style.
    destruct (image_operation_pattern
                (ReqCoverImage (to_string storyTitle) (to_string storySummary)
                   (match style with Some s => s | None => "Professional digital art" end))
                "No image data returned." w) as (res & x & k & Hrun & Hk).
    exists res, x, k. eexists. split; [exact Hrun | exact Hk].
  - intros base64Image prompt.
    destruct (image_operation_pattern
                (ReqEditImage (strip_data_uri_prefix base64Image) prompt)
                "No edited image returned." w) as (res & x & k & Hrun & Hk).
    exists res, x, k. eexists. split; [exact Hrun | exact Hk].
Qed.

Lemma retry_loop_ok_inv {T : Type} (operation : M World T) (n : nat) :
  forall (delay : Z) (w w' : World) (v : T),
    retry_loop operation n delay w = (Ok v, w') ->
    exists w0, operation w0 = (Ok v, w').
Proof.
  induction n as [| n IH]; intros delay w w' v; cbn [retry_loop]; unfold try_catch;
    destruct (operation w) as [[v0 | e] w1] eqn:Hop.
  - intros [= <- <-]. eauto.
  - unfold throw. discriminate.
  - intros [= <- <-]. eauto.
  - destruct (isQuotaError e); [| unfold throw; discriminate].
    unfold bind, sleep, log. intros Hrest. exact (IH _ _ _ _ Hrest).
Qed.

Lemma image_request_ok_inv (r : Request) (missing : string) (w w' : World)
    (uri : string) :
  image_request r missing w = (Ok uri, w') -> exists d, uri = data_uri d.
Proof.
  unfold image_request, try_catch, bind, generateContent, ret, throw.
  destruct (service r (ext w)) as [[response | e] x]; [| discriminate].
  destruct (first_inline_image (parts response)) as [u |] eqn:Himg; [| discriminate].
  intros [= <- _]. clear - Himg. revert Himg.
  induction (parts response) as [| p ps IH]; simpl; [discriminate |].
  destruct (inlineData p) as [d |]; [intros [= <-]; eauto | exact IH].
Qed.

Lemma image_operation_ok_inv (r : Request) (missing : string) (w w' : World)
    (uri : string) :
  (log (EvCall r) ;; retryOperation_default (image_request r missing)) w = (Ok uri, w') ->
  exists d, uri = data_uri d.
Proof.
  unfold bind at 1. unfold log at 1. unfold retryOperation_default, retryOperation.
  intros Hrun. apply retry_loop_ok_inv in Hrun. destruct Hrun as (w0 & Hop).
  exact (image_request_ok_inv _ _ _ _ _ Hop).
Qed.

(** X3.  What [generatePanelImage] returns is always a
    [data:image/png;base64,] URI, whatever MIME type the service reported
    for the inline data. *)
Theorem generatePanelImage_returns_png_uri (prompt : string) (w w' : World)
    (uri : string) :
  generatePanelImage prompt w = (Ok uri, w') ->
  exists d, uri = "data:image/png;base64," ++ d.
Proof.
  intros Hrun. exact (image_operation_ok_inv _ _ _ _ _ Hrun).
Qed.

(* ================================================================== *)
(** ** What the prompt-and-parse operations always, and never, do *)

Lemma or_else_truthy (a b : value) : truthy b = true -> truthy (or_else a b) = true.
Proof.
  intros Hb. unfold or_else. destruct (truthy a) eqn:Ha; assumption.
Qed.

Lemma createStoryFromPrompt_shape (userPrompt : string) (count : Z)
    (audience : string) (w : World) :
  exists story w',
    createStoryFromPrompt userPrompt count audience w = (Ok story, w')
    /\ (exists t, story_id story = "custom-" ++ string_of_Z t)
    /\ truthy (title story) = true
    /\ source story = VStr "User Imagination"
    /\ panelCount story = Some count
    /\ targetAudience story = Some audience.
Proof.
  unfold createStoryFromPrompt, bind, log, try_catch, generateContent,
    lift_result, now, ret.
  cbn [ext trace].
  destruct (service (ReqStoryFromPrompt userPrompt count audience) (ext w))
    as [[response | e] x]; cbn [ext trace].
  - destruct (JSON_parse (or_default (text response) "{}")) as [parsed | e];
      cbn [ext trace].
    + destruct (Date_now x) as [t x1]. cbn [ext trace].
      destruct (get parsed "title") as [data_title | e]; cbn [ext trace].
      * destruct (get parsed "summary") as [data_summary | e]; cbn [ext trace].
        -- eexists; eexists. split; [reflexivity |]. cbn.
           repeat split; eauto. apply or_else_truthy. reflexivity.
        -- destruct (Date_now x1) as [t' x2].
           eexists; eexists. split; [reflexivity |]. cbn. repeat split; eauto.
      * destruct (Date_now x1) as [t' x2].
        eexists; eexists. split; [reflexivity |]. cbn. repeat split; eauto.
    + destruct (Date_now x) as [t x1].
      eexists; eexists. split; [reflexivity |]. cbn. repeat split; eauto.
  - destruct (Date_now x) as [t x1].
    eexists; eexists. split; [reflexivity |]. cbn. repeat split; eauto.
Qed.

Lemma createStoryFromPrompt_total (userPrompt : string) (count : Z)
    (audience : string) (w : World) :
  exists story w',
    createStoryFromPrompt userPrompt count audience w = (Ok story, w')
    /\ panelCount story = Some count.
Proof.
  destruct (createStoryFromPrompt_shape userPrompt count audience w)
    as (story & w' & Hrun & _ & _ & _ & Hcount & _).
  exists story, w'. auto.
Qed.

(** X4.  [createStoryFromPrompt] never throws.  The story it returns, from
    the reply or as the placeholder, has an identifier "custom-" followed
    by a time stamp, a title that is not empty, the source "User
    Imagination", the requested panel count and the requested audience. *)
Theorem createStoryFromPrompt_always_returns (userPrompt : string) (count : Z)
    (audience : string) (w : World) :
  exists story w',
    createStoryFromPrompt userPrompt count audience w = (Ok story, w')
    /\ (exists t, story_id story = "custom-" ++ string_of_Z t)
    /\ truthy (title story) = true
    /\ source story = VStr "User Imagination"
    /\ panelCount story = Some count
    /\ targetAudience story = Some audience.
Proof. apply createStoryFromPrompt_shape. Qed.

Lemma analyzeStoryPotential_total (storyTitle storySummary : value)
    (audience style : string) (cover sample : option string) (w : World) :
  exists result w',
    analyzeStoryPotential storyTitle storySummary audience style cover sample w
    = (Ok result, w')
    /\ (truthy (score result) = true \/ result = fallback_analysis)
    /\ truthy (viralPotential result) = true
    /\ truthy (coherenceCheck result) = true
    /\ truthy (critique result) = true
    /\ truthy (textQuality result) = true
    /\ truthy (visualQuality result) = true
    /\ truthy (suggestions result) = true.
Proof.
  unfold analyzeStoryPotential. cbv zeta.
  set (request := ReqAnalysis _ _ _ _ _ _).
  unfold bind at 1. unfold log at 1. cbn [ext trace].
  unfold try_catch. unfold bind at 1. unfold generateContent at 1. cbn [ext trace].
  assert (Hfallback : forall w1 : World,
             exists result w',
               (Ok fallback_analysis, w1) = (Ok result, w')
               /\ (truthy (score result) = true \/ result = fallback_analysis)
               /\ truthy (viralPotential result) = true
               /\ truthy (coherenceCheck result) = true
               /\ truthy (critique result) = true
               /\ truthy (textQuality result) = true
               /\ truthy (visualQuality result) = true
               /\ truthy (suggestions result) = true).
  { intros w1. exists fallback_analysis, w1. cbn. repeat split; auto. }
  destruct (service request (ext w)) as [[response | e] x]; [| apply Hfallback].
  unfold bind at 1. unfold lift_result at 1.
  destruct (JSON_parse (or_default (text response) "{}")) as [parsed | e];
    [| apply Hfallback].
  unfold bind, lift_result, ret.
  destruct (get parsed "score") as [d1 | e]; [| apply Hfallback].
  destruct (get parsed "viralPotential") as [d2 | e]; [| apply Hfallback].
  destruct (get parsed "coherenceCheck") as [d3 | e]; [| apply Hfallback].
  destruct (get parsed "critique") as [d4 | e]; [| apply Hfallback].
  destruct (get parsed "textQuality") as [d5 | e]; [| apply Hfallback].
  destruct (get parsed "visualQuality") as [d6 | e]; [| apply Hfallback].
  destruct (get parsed "suggestions") as [d7 | e]; [| apply Hfallback].
  eexists; eexists. split; [reflexivity |]. cbn [score viralPotential coherenceCheck
    critique textQuality visualQuality suggestions].
  repeat split; try (apply or_else_truthy; reflexivity).
  left. apply or_else_truthy. reflexivity.
Qed.

(** X5.  [analyzeStoryPotential] never throws, and no field of its result
    is missing or falsy: each text field is truthy (for a string: not
    empty) and the suggestions are present, possibly as the empty list a
    reply may give (an empty list is truthy, so the default does not
    replace it).  A score that is 0 or missing can only come from the
    placeholder: a reply that scores the story 0 is reported with the
    default score 5. *)
Theorem analyzeStoryPotential_always_returns (storyTitle storySummary : value)
    (audience style : string) (cover sample : option string) (w : World) :
  exists result w',
    analyzeStoryPotential storyTitle storySummary audience style cover sample w
    = (Ok result, w')
    /\ (truthy (score result) = true \/ result = fallback_analysis)
    /\ truthy (viralPotential result) = true
    /\ truthy (coherenceCheck result) = true
    /\ truthy (critique result) = true
    /\ truthy (textQuality result) = true
    /\ truthy (visualQuality result) = true
    /\ truthy (suggestions result) = true.
Proof. apply analyzeStoryPotential_total. Qed.

Lemma try_catch_split {St A : Type} (m : M St A) (h : JsError -> M St A) (s : St) :
  (exists a s', m s = (Ok a, s') /\ try_catch m h s = (Ok a, s'))
  \/ (exists e s1, m s = (Throw e, s1) /\ try_catch m h s = h e s1).
Proof.
  unfold try_catch. destruct (m s) as [[a | e] s1]; eauto 6.
Qed.

(** A result of [generateScript] is a script from the reply, or what the
    placeholder construction gives. *)
Lemma generateScript_outcome (story : Story) (w : World) :
  (exists script, fst (generateScript story w) = Ok script)
  \/ fst (generateScript story w)
     = fallback_script (or_count (panelCount story) 6)
         (or_default (visualStyle story) "Vibrant Digital Cartoon") story.
Proof.
  cbv beta iota zeta delta [generateScript bind log].
  match goal with
  | |- context [try_catch ?m ?h ?s] =>
      destruct (try_catch_split m h s) as [(a & s' & _ & ->) | (e & s1 & _ & ->)]
  end.
  - left. exists a. reflexivity.
  - right. reflexivity.
Qed.

(** X6.  [generateScript] throws only when its placeholder cannot be
    built: the error is then the [RangeError] of [Array(count)], and the
    panel count of the story is negative or above 4294967295.  For every
    other story it returns a script, whatever the service does. *)
Theorem generateScript_throws_only_RangeError (story : Story) (w : World) :
  match fst (generateScript story w) with
  | Ok _ => True
  | Throw e =>
      e = RangeError "Invalid array length"
      /\ (or_count (panelCount story) 6 < 0
          \/ 4294967295 < or_count (panelCount story) 6)
  end.
Proof.
  destruct (generateScript_outcome story w) as [[script ->] | ->]; [exact I |].
  unfold fallback_script.
  destruct (0 <=? or_count (panelCount story) 6) eqn:Hlo;
    destruct (or_count (panelCount story) 6 <=? 4294967295) eqn:Hhi;
    cbn [andb]; try exact I;
    (split; [reflexivity |]).
  - right. apply Z.leb_gt in Hhi. exact Hhi.
  - left. apply Z.leb_gt in Hlo. exact Hlo.
  - left. apply Z.leb_gt in Hlo. exact Hlo.
Qed.

Lemma indices_NoDup (n : Z) : NoDup (indices n).
Proof.
  unfold indices. generalize 0%nat as a.
  induction (Z.to_nat n) as [| k IH]; intros a; cbn [seq map]; constructor.
  - intros Hin. apply in_map_iff in Hin. destruct Hin as (j & Hj & Hin).
    apply Nat2Z.inj in Hj. subst j. apply in_seq in Hin. lia.
  - apply IH.
Qed.

Lemma needs_image_fresh (p : Panel) :
  needs_image p = true -> has_image p = false /\ isGenerating p = false.
Proof.
  unfold needs_image. intros H. apply andb_true_iff in H. destruct H as [Hi Hg].
  apply negb_true_iff in Hi. apply negb_true_iff in Hg. auto.
Qed.

(** X7.  In every script [generateScript] returns, from the reply or as
    placeholders, the panels are numbered 0, 1, 2, ... in list order, so
    no two panels share an identifier, and no panel holds an image or is
    marked mid-generation. *)
Theorem generateScript_panels_numbered (story : Story) (w w' : World)
    (script : list Panel) :
  generateScript story w = (Ok script, w') ->
  map panel_id script = indices (Z.of_nat (List.length script))
  /\ NoDup (map panel_id script)
  /\ Forall (fun p => has_image p = false /\ isGenerating p = false) script.
Proof.
  intros Hrun. destruct (generateScript_numbered _ _ _ _ Hrun) as [Hids Hfresh].
  split; [exact Hids |]. split.
  - rewrite Hids. apply indices_NoDup.
  - apply Forall_forall. intros p Hp. apply needs_image_fresh.
    rewrite forallb_forall in Hfresh. exact (Hfresh p Hp).
Qed.

Lemma script_panels_run (style chars : value) (items : list value) :
  Forall (fun item => nullish item = false) items ->
  forall (i : Z) (w : World),
  exists script,
    mapM_from i (script_panel style chars) items w = (Ok script, w)
    /\ List.length script = List.length items
    /\ Forall2 (fun p item => get item "caption" = Ok (caption p)) script items.
Proof.
  induction 1 as [| item items Hitem _ IH]; intros i w.
  - exists []. repeat split. constructor.
  - cbn [mapM_from]. unfold bind at 1. unfold script_panel at 1.
    unfold bind, lift_result, ret.
    destruct (get_of_object item "actionDescription" Hitem) as [action ->].
    destruct (get_of_object item "caption" Hitem) as [cap Hcap]. rewrite Hcap.
    destruct (IH (i + 1) w) as (script & Hrun & Hlen & Hcaps).
    unfold bind in Hrun. rewrite Hrun.
    eexists. split; [reflexivity |]. split; [simpl; rewrite Hlen; reflexivity |].
    constructor; [exact Hcap | exact Hcaps].
Qed.

(** X8.  When the reply parses to an object whose [panels] is an array of
    entries (none of them [null]), the script has one panel per entry of
    the reply, with that entry's caption: as many panels as the reply
    lists, be it none, not as many as the story asked for. *)
Theorem generateScript_follows_reply (story : Story) (w : World) (x : Ext)
    (response : Response) (fields : list (string * value)) (items : list value) :
  (forall r, service r (ext w) = (Ok response, x)) ->
  JSON_parse (or_default (text response) "{}") = Ok (VObj fields) ->
  lookup_field "panels" fields = VArr items ->
  Forall (fun item => nullish item = false) items ->
  exists script,
    fst (generateScript story w) = Ok script
    /\ List.length script = List.length items
    /\ Forall2 (fun p item => get item "caption" = Ok (caption p)) script items.
Proof.
  intros Hsvc Hparse Hpanels Hitems.
  unfold generateScript. cbv zeta.
  run_to_service (Hsvc
    (ReqScript (or_count (panelCount story) 6) (to_string (title story))
       (to_string (summary story))
       (or_default (visualStyle story) "Vibrant Digital Cartoon")
       (or_default (targetAudience story) "General Audience"))).
  rewrite Hparse. cbn [get]. rewrite Hpanels. cbn [or_else truthy].
  match goal with
  | |- context [mapM_from 0 (script_panel ?st ?ch) items ?w0] =>
      destruct (script_panels_run st ch items Hitems 0 w0)
        as (script & Hrun & Hlen & Hcaps)
  end.
  rewrite Hrun. exists script. auto.
Qed.


Lemma found_stories_ok_inv (audience : string) (items : list value) :
  forall (i : Z) (w w' : World) (stories : list Story),
    mapM_from i (found_story audience) items w = (Ok stories, w') ->
    List.length stories = List.length items
    /\ Forall (found_story_shape audience) stories.
Proof.
  induction items as [| item items IH]; intros i w w' stories Hrun.
  - injection Hrun as <- _. split; [reflexivity | constructor].
  - cbn [mapM_from] in Hrun.
    apply bind_ok in Hrun. destruct Hrun as (s & w1 & Hs & Hrun).
    apply bind_ok in Hrun. destruct Hrun as (rest & w2 & Hrest & Hrun).
    injection Hrun as <- _.
    destruct (IH _ _ _ _ Hrest) as [Hlen Hshape].
    split; [simpl; rewrite Hlen; reflexivity |].
    constructor; [| exact Hshape].
    unfold found_story in Hs.
    apply bind_ok in Hs. destruct Hs as (t & w3 & _ & Hs).
    apply bind_ok in Hs. destruct Hs as (v1 & w4 & _ & Hs).
    apply bind_ok in Hs. destruct Hs as (v2 & w5 & _ & Hs).
    apply bind_ok in Hs. destruct Hs as (v3 & w6 & _ & Hs).
    injection Hs as <- _. unfold found_story_shape. cbn.
    repeat split. apply or_else_truthy. reflexivity.
Qed.

Lemma fallback_story_shape (audience : string) :
  found_story_shape audience (fallback_story audience).
Proof. unfold found_story_shape. cbn. repeat split. Qed.

(** The two ways [findViralStories] ends. *)
Lemma findViralStories_cases (topic audience : string) (w : World) :
  (exists stories w',
      findViralStories topic audience w = (Ok stories, w')
      /\ stories <> []
      /\ Forall (found_story_shape audience) stories)
  \/ (exists w',
        findViralStories topic audience w
        = (Throw (Error "Failed to fetch viral stories."), w')).
Proof.
  cbv beta iota zeta delta [findViralStories bind log].
  match goal with
  | |- context [try_catch ?m ?h ?s] =>
      destruct (try_catch_split m h s) as [(a & s' & Hm & ->) | (e & s1 & _ & ->)]
  end.
  - left. exists a, s'. split; [reflexivity |].
    unfold generateContent in Hm. cbn [ext trace] in Hm.
    destruct (service (ReqFindStories topic audience) (ext w)) as [[response | e] x];
      [| discriminate].
    assert (Hplaceholder : [fallback_story audience] <> []
                           /\ Forall (found_story_shape audience)
                                [fallback_story audience]).
    { split; [discriminate |]. constructor; [apply fallback_story_shape | constructor]. }
    destruct (parse_story_array (or_default (text response) ""))
      as [ | | | | [| c s0] | [| item items] | ]; unfold ret, throw in Hm;
      try discriminate; try (injection Hm as <- _; exact Hplaceholder).
    destruct (found_stories_ok_inv _ _ _ _ _ _ Hm) as [Hlen Hshape].
    split; [| exact Hshape].
    intros ->. discriminate Hlen.
  - right. eexists. reflexivity.
Qed.

(** X9.  [findViralStories] never returns an empty list, and the only error
    it ever throws is the generic "Failed to fetch viral stories.",
    whatever went wrong. *)
Theorem findViralStories_never_empty (topic audience : string) (w : World) :
  match fst (findViralStories topic audience w) with
  | Ok stories => stories <> []
  | Throw e => e = Error "Failed to fetch viral stories."
  end.
Proof.
  destruct (findViralStories_cases topic audience w)
    as [(stories & w' & -> & Hne & _) | (w' & ->)]; [exact Hne | reflexivity].
Qed.

(** X10.  Every story [findViralStories] returns, found or placeholder,
    asks for 6 panels, has a source that is not empty ("Viral Source"
    where the reply gives none), carries the requested audience, and has
    neither visual style nor layout yet. *)
Theorem findViralStories_story_defaults (topic audience : string) (w w' : World)
    (stories : list Story) :
  findViralStories topic audience w = (Ok stories, w') ->
  Forall (fun s =>
            panelCount s = Some 6
            /\ truthy (source s) = true
            /\ targetAudience s = Some audience
            /\ visualStyle s = None
            /\ layoutStyle s = None) stories.
Proof.
  intros Hrun.
  destruct (findViralStories_cases topic audience w)
    as [(stories' & w1 & Hrun' & _ & Hshape) | (w1 & Hthrow)].
  - rewrite Hrun in Hrun'. injection Hrun' as -> _. exact Hshape.
  - rewrite Hrun in Hthrow. discriminate.
Qed.

(** X11.  The prefix removal of [editPanelImage] undoes the data URI of the
    image operations (and the jpeg and jpg variants): editing an image that
    the service layer produced sends its bare base64 payload, in a request
    repeated at most four times. *)
Theorem editPanelImage_sends_payload (payload prompt : string) (w : World) :
  strip_data_uri_prefix (data_uri payload) = payload
  /\ strip_data_uri_prefix ("data:image/jpeg;base64," ++ payload) = payload
  /\ strip_data_uri_prefix ("data:image/jpg;base64," ++ payload) = payload
  /\ exists res x k,
       editPanelImage (data_uri payload) prompt w
       = (res,
          mkWorld x
            (trace w ++ EvCall (ReqEditImage payload prompt)
               :: retry_pattern (EvRequest (ReqEditImage payload prompt)) k 2000))
       /\ (k <= 3)%nat.
Proof.
  split; [reflexivity |]. split; [reflexivity |]. split; [reflexivity |].
  exact (image_operation_pattern (ReqEditImage payload prompt)
           "No edited image returned." w).
Qed.

(* ================================================================== *)
(** ** Pages of four: [chunkArray] *)

Lemma firstn_past {A : Type} (l : list A) (a b : nat) :
  (List.length l <= a)%nat -> (List.length l <= b)%nat -> firstn a l = firstn b l.
Proof.
  intros Ha Hb. rewrite !firstn_all2 by assumption. reflexivity.
Qed.

(** Inside the array, with a positive step, [arr.slice(i, i + size)] is the
    next [size] elements, or what is left of the array. *)
Lemma slice_chunk {A : Type} (arr : list A) (size i : Z) :
  0 < size -> 0 <= i -> i < Z.of_nat (List.length arr) ->
  slice arr i (i + size) = firstn (Z.to_nat size) (skipn (Z.to_nat i) arr).
Proof.
  intros Hsize Hi Hin. unfold slice, relative_index. cbv zeta.
  destruct (i <? 0) eqn:E1; [apply Z.ltb_lt in E1; lia |].
  destruct (i + size <? 0) eqn:E2; [apply Z.ltb_lt in E2; lia |].
  rewrite (Z.min_l i) by lia.
  destruct (Z.le_gt_cases (i + size) (Z.of_nat (List.length arr))) as [Hle | Hgt].
  - rewrite Z.min_l by lia. f_equal. lia.
  - rewrite Z.min_r by lia. apply firstn_past; rewrite length_skipn; lia.
Qed.

Lemma chunk_loop_positive {A : Type} (arr : list A) (size : Z) :
  0 < size ->
  forall (fuel : nat) (i : Z),
    0 <= i ->
    Z.of_nat (List.length arr) - i <= Z.of_nat fuel ->
    exists chunks,
      chunk_loop fuel arr size i = Some chunks
      /\ List.concat chunks = skipn (Z.to_nat i) arr
      /\ Forall (fun c => c <> [] /\ Z.of_nat (List.length c) <= size) chunks
      /\ (forall k c, nth_error chunks k = Some c ->
                      (S k < List.length chunks)%nat ->
                      Z.of_nat (List.length c) = size).
Proof.
  intros Hsize. induction fuel as [| fuel IH]; intros i Hi Hfuel.
  - exists []. cbn [chunk_loop].
    destruct (i <? Z.of_nat (List.length arr)) eqn:E;
      [apply Z.ltb_lt in E; lia |].
    apply Z.ltb_ge in E. split; [reflexivity |]. split.
    + rewrite skipn_all2 by lia. reflexivity.
    + split; [constructor |]. intros k c Hk. destruct k; discriminate.
  - cbn [chunk_loop].
    destruct (i <? Z.of_nat (List.length arr)) eqn:E.
    + apply Z.ltb_lt in E.
      destruct (IH (i + size)) as (rest & Hrun & Hcat & Hall & Hfull); try lia.
      rewrite Hrun. cbn [option_map].
      rewrite (slice_chunk arr size i Hsize Hi E).
      set (tail := skipn (Z.to_nat i) arr) in *.
      assert (Htail : (0 < List.length tail)%nat)
        by (unfold tail; rewrite length_skipn; lia).
      eexists. split; [reflexivity |]. split; [| split].
      * cbn [List.concat]. rewrite Hcat.
        replace (Z.to_nat (i + size)) with (Z.to_nat size + Z.to_nat i)%nat by lia.
        rewrite <- skipn_skipn. fold tail. apply firstn_skipn.
      * constructor; [| exact Hall]. split.
        -- intros Hnil. apply (f_equal (@List.length A)) in Hnil.
           rewrite length_firstn in Hnil. simpl in Hnil. lia.
        -- rewrite length_firstn. lia.
      * intros k c Hk Hlast. destruct k as [| k]; cbn [nth_error] in Hk.
        -- injection Hk as <-. rewrite length_firstn.
           cbn [List.length] in Hlast.
           destruct rest as [| c1 rest']; [simpl in Hlast; lia |].
           assert (Hmore : (Z.to_nat size < List.length tail)%nat).
           { destruct (Nat.le_gt_cases (List.length tail) (Z.to_nat size))
               as [Hshort | Hlong]; [| exact Hlong].
             exfalso.
             assert (Hempty : List.concat (c1 :: rest') = []).
             { rewrite Hcat.
               replace (Z.to_nat (i + size)) with (Z.to_nat size + Z.to_nat i)%nat
                 by lia.
               rewrite <- skipn_skipn. fold tail. apply skipn_all2. exact Hshort. }
             inversion Hall as [| ? ? [Hc1 _] _]; subst.
             cbn [List.concat] in Hempty. apply app_eq_nil in Hempty.
             destruct Hempty as [Hc _]. contradiction. }
           lia.
        -- apply (Hfull k c Hk). cbn [List.length] in Hlast. lia.
    + apply Z.ltb_ge in E. exists []. split; [reflexivity |]. split.
      * rewrite skipn_all2 by lia. reflexivity.
      * split; [constructor |]. intros k c Hk. destruct k; discriminate.
Qed.

Lemma chunk_loop_more_fuel {A : Type} (arr : list A) (size : Z) :
  forall (fuel : nat) (i : Z) (chunks : list (list A)),
    chunk_loop fuel arr size i = Some chunks ->
    forall fuel', (fuel <= fuel')%nat -> chunk_loop fuel' arr size i = Some chunks.
Proof.
  induction fuel as [| fuel IH]; intros i chunks Hrun fuel' Hle.
  - cbn [chunk_loop] in Hrun.
    destruct (i <? Z.of_nat (List.length arr)) eqn:E; [discriminate |].
    destruct fuel'; cbn [chunk_loop]; rewrite E; exact Hrun.
  - destruct fuel' as [| fuel']; [lia |].
    cbn [chunk_loop] in Hrun |- *.
    destruct (i <? Z.of_nat (List.length arr)) eqn:E; [| exact Hrun].
    destruct (chunk_loop fuel arr size (i + size)) as [rest |] eqn:Hrest;
      [| discriminate].
    rewrite (IH _ _ Hrest fuel') by lia. exact Hrun.
Qed.

(** X12.  With a positive size, [chunkArray] ends and cuts the array into
    consecutive pieces: put back together the pieces are the array, no
    piece is empty or longer than [size], and every piece but the last
    has exactly [size] elements.  The loop needs no more turns than the
    array has elements. *)
Theorem chunkArray_pages {A : Type} (arr : list A) (size : Z) :
  0 < size ->
  exists chunks,
    chunkArray arr size = Some chunks
    /\ (forall fuel, (List.length arr <= fuel)%nat ->
                     chunk_loop fuel arr size 0 = Some chunks)
    /\ List.concat chunks = arr
    /\ Forall (fun c => c <> [] /\ Z.of_nat (List.length c) <= size) chunks
    /\ (forall k c, nth_error chunks k = Some c ->
                    (S k < List.length chunks)%nat ->
                    Z.of_nat (List.length c) = size).
Proof.
  intros Hsize.
  destruct (chunk_loop_positive arr size Hsize (List.length arr) 0)
    as (chunks & Hrun & Hcat & Hall & Hfull); try lia.
  exists chunks. split; [exact Hrun |]. split; [| auto].
  intros fuel Hfuel. exact (chunk_loop_more_fuel arr size _ _ _ Hrun fuel Hfuel).
Qed.

Lemma chunk_loop_stuck {A : Type} (arr : list A) (size : Z) :
  size <= 0 -> arr <> [] ->
  forall (fuel : nat) (i : Z), i <= 0 -> chunk_loop fuel arr size i = None.
Proof.
  intros Hsize Harr. induction fuel as [| fuel IH]; intros i Hi; cbn [chunk_loop];
    (destruct (i <? Z.of_nat (List.length arr)) eqn:E;
     [| apply Z.ltb_ge in E; destruct arr; [contradiction | simpl in E; lia]]).
  - reflexivity.
  - rewrite IH by lia. reflexivity.
Qed.

(** X13.  With a size that is zero or negative, the loop of [chunkArray]
    on an array that is not empty never ends: the index never passes the
    end of the array, however many turns the loop is given. *)
Theorem chunkArray_never_ends {A : Type} (arr : list A) (size : Z) :
  size <= 0 -> arr <> [] ->
  forall fuel, chunk_loop fuel arr size 0 = None.
Proof.
  intros Hsize Harr fuel. apply chunk_loop_stuck; [assumption | assumption | lia].
Qed.

(* ================================================================== *)
(** ** Data URIs of any type, and texts that are none *)

Lemma string_app_nil_r (s : string) : s ++ "" = s.
Proof.
  induction s as [| c s IH]; simpl; [reflexivity | rewrite IH; reflexivity].
Qed.

(** A text in which the separator does not occur is one piece. *)
Lemma split_scan_no_occurrence (sep s : string) :
  includes sep s = false ->
  forall cur, split_scan sep 0 cur s = [cur ++ s].
Proof.
  induction s as [| c s IH]; intros Hs cur.
  - cbn [split_scan]. rewrite string_app_nil_r. reflexivity.
  - cbn [includes] in Hs. apply orb_false_iff in Hs. destruct Hs as [Hhere Hs].
    cbn [split_scan]. rewrite Hhere. rewrite (IH Hs).
    rewrite string_app_cons. reflexivity.
Qed.

Lemma includes_char_forall (ch : ascii) (s : string) :
  includes (String ch EmptyString) s = false ->
  string_forall (fun c => negb (Ascii.eqb c ch)) s = true.
Proof.
  induction s as [| c s IH]; intros Hs; [reflexivity |].
  cbn [includes] in Hs. apply orb_false_iff in Hs. destruct Hs as [Hhere Hs].
  cbn [string_forall]. rewrite (IH Hs), andb_true_r.
  cbn [starts_with] in Hhere. rewrite andb_true_r in Hhere.
  rewrite Ascii.eqb_sym. rewrite Hhere. reflexivity.
Qed.

(** Up to its first semicolon-led separator a text is the first piece. *)
Lemma split_scan_at_separator (pre rest : string) :
  string_forall not_semicolon pre = true ->
  forall cur,
    split_scan ";base64," 0 cur (pre ++ ";base64," ++ rest)
    = (cur ++ pre) :: split_scan ";base64," 0 EmptyString rest.
Proof.
  induction pre as [| c pre IH]; intros Hpre cur.
  - rewrite string_app_nil_r. reflexivity.
  - cbn [string_forall] in Hpre. apply andb_true_iff in Hpre.
    destruct Hpre as [Hc Hpre].
    cbn [append split_scan starts_with].
    unfold not_semicolon in Hc. apply negb_true_iff in Hc.
    rewrite Ascii.eqb_sym in Hc. rewrite Hc. cbn [andb].
    rewrite (IH Hpre). rewrite string_app_cons. reflexivity.
Qed.

Lemma normalized_type_lowercase (t : string) :
  forallb (fun c => in_type_range c && negb (is_ascii_upper c))
    (list_ascii_of_string t) = true ->
  normalized_type t = t.
Proof.
  intros Hall. unfold normalized_type.
  assert (Hrange : forallb in_type_range (list_ascii_of_string t) = true
                   /\ map ascii_lowercase (list_ascii_of_string t)
                      = list_ascii_of_string t).
  { induction (list_ascii_of_string t) as [| c l IH]; [split; reflexivity |].
    cbn [forallb map] in *.
    apply andb_true_iff in Hall. destruct Hall as [Hc Hl].
    apply andb_true_iff in Hc. destruct Hc as [Hin Hup].
    apply negb_true_iff in Hup.
    destruct (IH Hl) as [IH1 IH2].
    rewrite Hin, IH1, IH2. unfold ascii_lowercase. rewrite Hup.
    split; reflexivity. }
  destruct Hrange as [-> ->]. apply string_of_list_ascii_of_string.
Qed.

(** X14.  [base64ToBlob] returns the bytes its URI encodes, with the MIME
    type the URI declares as [new Blob] keeps it, whatever that type is
    (not only [image/png]): a type of printable ASCII characters without
    capitals comes back as it is, capitals come back in lower case, and a
    type with any other character comes back empty.  The declared type is
    not empty and holds neither colon nor semicolon. *)
Theorem base64ToBlob_declared_type (mime : string) (image : list byte) :
  mime <> "" ->
  includes ":" mime = false ->
  includes ";" mime = false ->
  exists blob,
    base64ToBlob ("data:" ++ mime ++ ";base64," ++ base64_encode image) = Ok blob
    /\ blob_bytes blob = image
    /\ blob_type blob = normalized_type mime
    /\ (forallb (fun c => in_type_range c && negb (is_ascii_upper c))
          (list_ascii_of_string mime) = true ->
        blob_type blob = mime)
    /\ (forallb in_type_range (list_ascii_of_string mime) = false ->
        blob_type blob = "").
Proof.
  intros Hne Hcolon Hsemi.
  exists (new_Blob image mime).
  split; [| split; [reflexivity | split; [reflexivity | split]]].
  - assert (Hpre : string_forall not_semicolon ("data:" ++ mime) = true).
    { cbn [append string_forall]. exact (includes_char_forall ";" mime Hsemi). }
    unfold base64ToBlob, split.
    change ("data:" ++ mime ++ ";base64," ++ base64_encode image)
      with (("data:" ++ mime) ++ ";base64," ++ base64_encode image) at 1 2.
    rewrite (split_scan_at_separator _ _ Hpre).
    unfold base64_encode.
    rewrite (split_scan_no_separator _ (encoding_has_no_semicolon _)).
    cbn [nth_error]. cbn [append].
    change (split_scan ":" 0 "" (String "d" (String "a" (String "t" (String "a"
              (String ":" mime))))))
      with ("data" :: split_scan ":" 0 "" mime).
    rewrite (split_scan_no_occurrence ":" mime Hcolon).
    cbn [nth_error append].
    rewrite atob_encode_chars.
    rewrite list_ascii_of_string_of_list_ascii, bytes_of_binary_string.
    destruct mime; [contradiction | reflexivity].
  - intros Hlower. cbn [new_Blob blob_type].
    exact (normalized_type_lowercase mime Hlower).
  - intros Hout. cbn [new_Blob blob_type]. unfold normalized_type.
    rewrite Hout. reflexivity.
Qed.

(** X15.  A text without the separator [;base64,] is not decoded:
    [base64ToBlob] throws its own error "Invalid image data". *)
Theorem base64ToBlob_rejects_plain_text (s : string) :
  includes ";base64," s = false ->
  base64ToBlob s = Throw (Error "Invalid image data").
Proof.
  intros Hs. unfold base64ToBlob, split.
  rewrite (split_scan_no_occurrence ";base64," s Hs).
  reflexivity.
Qed.

(* ================================================================== *)
(** ** The component state under image generation *)

Lemma update_panel_twice (id : Z) (f g : Panel -> Panel) (l : list Panel) :
  (forall p, panel_id (g p) = panel_id p) ->
  update_panel id f (update_panel id g l) = update_panel id (fun p => f (g p)) l.
Proof.
  intros Hg. unfold update_panel. rewrite map_map. apply map_ext. intros p.
  destruct (panel_id p =? id) eqn:E; [rewrite Hg, E | rewrite E]; reflexivity.
Qed.

(** The two state updates of [generateImageForPanel] amount to one. *)
Lemma generateImageForPanel_state (id : Z) (prompt : string) (a : App) :
  generateImageForPanel id prompt a
  = (Ok tt,
     mkApp (with_panels
              (update_panel id
                 (match fst (generatePanelImage prompt (world a)) with
                  | Ok url => set_image url
                  | Throw _ => set_generating false
                  end))
              (ui a))
           (snd (generatePanelImage prompt (world a)))).
Proof.
  unfold generateImageForPanel, setPanels, set_ui, try_catch, bind, call.
  cbn [world ui].
  destruct (generatePanelImage prompt (world a)) as [[url | e] w1];
    cbn [world ui fst snd]; unfold with_panels; cbn [panels coverImage
      isCoverGenerating loadingScript currentTitle analysis fixingText];
    rewrite update_panel_twice by reflexivity; reflexivity.
Qed.

Lemma Forall2_map_same {A : Type} (R : A -> A -> Prop) (f : A -> A) (l : list A) :
  (forall x, R x (f x)) -> Forall2 R l (map f l).
Proof.
  intros H. induction l as [| x l IH]; simpl; constructor; auto.
Qed.

(** X16.  An image call for a panel never throws to its caller.  It leaves
    every panel with another identifier exactly as it was and changes
    neither identifiers, prompts nor captions; the panel with the
    identifier ends not marked mid-generation, holding the new image when
    the call succeeded and the image it had before when the call failed. *)
Theorem generateImageForPanel_outcome (id : Z) (prompt : string) (a : App) :
  exists a',
    generateImageForPanel id prompt a = (Ok tt, a')
    /\ world a' = snd (generatePanelImage prompt (world a))
    /\ Forall2
         (fun p p' =>
            panel_id p' = panel_id p
            /\ description p' = description p
            /\ caption p' = caption p
            /\ (panel_id p <> id -> p' = p)
            /\ (panel_id p = id ->
                isGenerating p' = false
                /\ imageUrl p'
                   = match fst (generatePanelImage prompt (world a)) with
                     | Ok url => Some url
                     | Throw _ => imageUrl p
                     end))
         (panels (ui a)) (panels (ui a')).
Proof.
  eexists. split; [apply generateImageForPanel_state |]. split; [reflexivity |].
  cbn [ui panels with_panels]. unfold update_panel.
  apply Forall2_map_same. intros p.
  destruct (panel_id p =? id) eqn:E.
  - apply Z.eqb_eq in E.
    destruct (fst (generatePanelImage prompt (world a))); cbn;
      repeat split; try reflexivity; intros; congruence.
  - apply Z.eqb_neq in E. repeat split; try reflexivity; intros; congruence.
Qed.

Lemma panel_progress_refl (p : Panel) : panel_progress p p.
Proof. unfold panel_progress. auto. Qed.

Lemma panel_progress_trans (p q r : Panel) :
  panel_progress p q -> panel_progress q r -> panel_progress p r.
Proof.
  unfold panel_progress. intros (H1 & H2 & H3 & H4 & H5) (K1 & K2 & K3 & K4 & K5).
  repeat split; try congruence; auto.
Qed.

Lemma Forall2_refl_on {A : Type} (R : A -> A -> Prop) (l : list A) :
  (forall x, R x x) -> Forall2 R l l.
Proof. intros H. induction l; constructor; auto. Qed.

Lemma Forall2_trans_on {A : Type} (R : A -> A -> Prop) :
  (forall x y z, R x y -> R y z -> R x z) ->
  forall l1 l2 l3, Forall2 R l1 l2 -> Forall2 R l2 l3 -> Forall2 R l1 l3.
Proof.
  intros Htrans l1 l2 l3 H12. revert l3.
  induction H12 as [| x y l1 l2 Hxy _ IH]; intros l3 H23; inversion H23; subst;
    constructor; eauto.
Qed.

Lemma data_uri_has_image (d : string) (p : Panel) :
  has_image (set_image (data_uri d) p) = true.
Proof. reflexivity. Qed.

Lemma generateImageForPanel_progress (id : Z) (prompt : string) (a : App) :
  exists a',
    generateImageForPanel id prompt a = (Ok tt, a')
    /\ Forall2 panel_progress (panels (ui a)) (panels (ui a'))
    /\ (exists ps, ui a' = with_panels (fun _ => ps) (ui a)).
Proof.
  eexists. split; [apply generateImageForPanel_state |]. split.
  - cbn [ui panels with_panels]. unfold update_panel.
    apply Forall2_map_same. intros p.
    destruct (panel_id p =? id); [| apply panel_progress_refl].
    destruct (generatePanelImage prompt (world a)) as [[url | e] w1] eqn:Hrun;
      cbn [fst].
    + destruct (image_operation_ok_inv _ _ _ _ _ Hrun) as [d ->].
      unfold panel_progress. cbn. repeat split; auto. discriminate.
    + unfold panel_progress. cbn. repeat split; auto. discriminate.
  - eexists. reflexivity.
Qed.

Lemma with_panels_twice (ps qs : list Panel) (u : Ui) :
  with_panels (fun _ => qs) (with_panels (fun _ => ps) u) = with_panels (fun _ => qs) u.
Proof. reflexivity. Qed.

Lemma generateImagesSequentially_progress (scriptPanels : list Panel) :
  forall a : App,
  exists a',
    generateImagesSequentially scriptPanels a = (Ok tt, a')
    /\ Forall2 panel_progress (panels (ui a)) (panels (ui a'))
    /\ (exists ps, ui a' = with_panels (fun _ => ps) (ui a)).
Proof.
  induction scriptPanels as [| p rest IH]; intros a.
  - exists a. split; [reflexivity |]. split.
    + apply Forall2_refl_on. apply panel_progress_refl.
    + exists (panels (ui a)). destruct a as [[? ? ? ? ? ? ?] ?]. reflexivity.
  - cbn [generateImagesSequentially].
    destruct (needs_image p).
    + destruct (generateImageForPanel_progress (panel_id p) (description p) a)
        as (a1 & Hgen & Hprog1 & (ps1 & Hui1)).
      destruct (IH (mkApp (ui a1) (mkWorld (ext (world a1))
                                      (trace (world a1) ++ [EvSleep 4000]))))
        as (a' & Hrest & Hprog2 & (ps2 & Hui2)).
      exists a'. split; [| split].
      * unfold bind at 1. unfold bind at 1. rewrite Hgen.
        unfold call, sleep, log. cbn [world ui]. exact Hrest.
      * cbn [ui] in Hprog2.
        exact (Forall2_trans_on _ panel_progress_trans _ _ _ Hprog1 Hprog2).
      * exists ps2. rewrite Hui2. cbn [ui]. rewrite Hui1. reflexivity.
    + destruct (IH a) as (a' & Hrest & Hprog & Hui).
      exists a'. split; [exact Hrest | split; assumption].
Qed.

(** X17.  The illustration batch never throws and only moves the panels
    of the component forward: the list keeps its length and order, every
    panel keeps its identifier, prompt and caption, no panel loses an
    image it held, no panel is left newly marked mid-generation, and
    nothing else in the component state (cover, title, analysis, flags)
    changes. *)
Theorem generateImagesSequentially_keeps_panels (scriptPanels : list Panel) (a : App) :
  exists a',
    generateImagesSequentially scriptPanels a = (Ok tt, a')
    /\ Forall2
         (fun p p' =>
            panel_id p' = panel_id p
            /\ description p' = description p
            /\ caption p' = caption p
            /\ (has_image p = true -> has_image p' = true)
            /\ (isGenerating p' = true -> isGenerating p = true))
         (panels (ui a)) (panels (ui a'))
    /\ coverImage (ui a') = coverImage (ui a)
    /\ isCoverGenerating (ui a') = isCoverGenerating (ui a)
    /\ loadingScript (ui a') = loadingScript (ui a)
    /\ currentTitle (ui a') = currentTitle (ui a)
    /\ analysis (ui a') = analysis (ui a)
    /\ fixingText (ui a') = fixingText (ui a).
Proof.
  destruct (generateImagesSequentially_progress scriptPanels a)
    as (a' & Hrun & Hprog & (ps & Hui)).
  exists a'. split; [exact Hrun |]. split; [exact Hprog |].
  rewrite Hui. repeat split.
Qed.

(** The exact state [generateCover] leaves. *)
Lemma generateCover_state (story : Story) (a : App) :
  generateCover story a
  = (Ok tt,
     mkApp (with_isCoverGenerating false
              (with_coverImage
                 (match fst (generateCoverImage (title story) (summary story)
                               (visualStyle story) (world a)) with
                  | Ok url => Some url
                  | Throw _ => coverImage (ui a)
                  end)
                 (ui a)))
           (snd (generateCoverImage (title story) (summary story)
                   (visualStyle story) (world a)))).
Proof.
  unfold generateCover, bind, set_ui, try_finally, try_catch, call, ret.
  cbn [world ui].
  destruct (generateCoverImage (title story) (summary story) (visualStyle story)
              (world a)) as [[url | e] w1]; reflexivity.
Qed.

(** X18.  [generateCover] never throws and always ends with the cover no
    longer marked as being painted; a failed request leaves the cover that
    was there, a successful one installs the new image; panels, title and
    analysis are untouched. *)
Theorem generateCover_outcome (story : Story) (a : App) :
  exists a',
    generateCover story a = (Ok tt, a')
    /\ isCoverGenerating (ui a') = false
    /\ coverImage (ui a')
       = match fst (generateCoverImage (title story) (summary story)
                      (visualStyle story) (world a)) with
         | Ok url => Some url
         | Throw _ => coverImage (ui a)
         end
    /\ panels (ui a') = panels (ui a)
    /\ currentTitle (ui a') = currentTitle (ui a)
    /\ analysis (ui a') = analysis (ui a).
Proof.
  eexists. split; [apply generateCover_state |]. repeat split.
Qed.

(** What [initStory] does once the script is drafted. *)
Lemma initStory_with_script (story : Story) (a : App) (script : list Panel)
    (w1 : World) :
  generateScript story (world a) = (Ok script, w1) ->
  exists a',
    initStory story a = (Ok tt, a')
    /\ Forall2 panel_progress script (panels (ui a'))
    /\ loadingScript (ui a') = false
    /\ isCoverGenerating (ui a') = false
    /\ currentTitle (ui a') = currentTitle (ui a)
    /\ analysis (ui a') = analysis (ui a).
Proof.
  intros Hscript.
  unfold initStory. unfold bind at 1. unfold set_ui at 1. cbn [world ui].
  unfold try_catch. unfold bind at 1. unfold call at 1. cbn [world ui].
  rewrite Hscript.
  unfold bind at 1. unfold setPanels at 1. unfold set_ui at 1. cbn [world ui].
  unfold bind at 1. unfold set_ui at 1. cbn [world ui].
  unfold bind at 1. rewrite generateCover_state. cbn [world ui].
  match goal with
  | |- context [generateImagesSequentially script ?a0] =>
      destruct (generateImagesSequentially_progress script a0)
        as (a' & Hrun & Hprog & (ps & Hui))
  end.
  rewrite Hrun. exists a'. split; [reflexivity |].
  split; [exact Hprog |]. rewrite Hui. repeat split.
Qed.

(** X19.  [initStory] never throws, whatever the service does and whatever
    the story asks for, and it always ends with the "writing script" flag
    cleared; the title and the analysis of the component are untouched. *)
Theorem initStory_never_throws (story : Story) (a : App) :
  exists a',
    initStory story a = (Ok tt, a')
    /\ loadingScript (ui a') = false
    /\ currentTitle (ui a') = currentTitle (ui a)
    /\ analysis (ui a') = analysis (ui a).
Proof.
  destruct (generateScript story (world a)) as [[script | e] w1] eqn:Hscript.
  - destruct (initStory_with_script story a script w1 Hscript)
      as (a' & Hrun & _ & Hload & _ & Htitle & Han).
    exists a'. auto.
  - unfold initStory. unfold bind at 1. unfold set_ui at 1. cbn [world ui].
    unfold try_catch. unfold bind at 1. unfold call at 1. cbn [world ui].
    rewrite Hscript. cbn [world ui set_ui].
    eexists. split; [reflexivity |]. repeat split.
Qed.



(** X21.  The Restart Project button ([handleRetry]) closes the agent
    panel, drops the analysis and drafts a new script; it then issues one
    image call per panel of that script, in order, whatever images the
    panels of the component held before. *)
Theorem handleRetry_illustrates_again (story : Story) (s : Studio)
    (script : list Panel) (w1 : World) :
  generateScript story (world (creator s)) = (Ok script, w1) ->
  exists s',
    handleRetry story s = (Ok tt, s')
    /\ showAgent s' = false
    /\ analysis (ui (creator s')) = None
    /\ panel_calls (trace (world (creator s')))
       = (panel_calls (trace (world (creator s))) ++ map description script)%list.
Proof.
  intros Hscript. unfold handleRetry.
  set (a0 := mkApp (with_analysis (fun _ => None) (ui (creator s)))
                   (world (creator s))).
  destruct (initStory_illustrates_script story a0 script w1 Hscript)
    as (a' & Hrun & Hcalls & _).
  destruct (initStory_with_script story a0 script w1 Hscript)
    as (a'' & Hrun' & _ & _ & _ & _ & Han).
  rewrite Hrun in Hrun'. injection Hrun' as <-.
  rewrite Hrun. eexists. split; [reflexivity |].
  cbn [showAgent creator]. split; [reflexivity |]. split; [exact Han | exact Hcalls].
Qed.

(* ================================================================== *)
(** ** The agent panel and the caption boxes *)

(** X22.  [runAgentAnalysis] never throws and always ends with an analysis
    on display, never with none: the agent panel is open, the "analyzing"
    flag is cleared, the analysis is a result whose critique is not empty,
    and the panels and the title are untouched. *)
Theorem runAgentAnalysis_always_shows_analysis (story : Story) (s : Studio) :
  exists s' result,
    runAgentAnalysis story s = (Ok tt, s')
    /\ analysis (ui (creator s')) = Some result
    /\ truthy (critique result) = true
    /\ showAgent s' = true
    /\ analyzing s' = false
    /\ panels (ui (creator s')) = panels (ui (creator s))
    /\ currentTitle (ui (creator s')) = currentTitle (ui (creator s)).
Proof.
  unfold runAgentAnalysis. cbv zeta.
  unfold try_catch, bind, call, set_ui, ret. cbn [world ui].
  match goal with
  | |- context [analyzeStoryPotential ?t ?su ?au ?st ?co ?sa ?w0] =>
      destruct (analyzeStoryPotential_total t su au st co sa w0)
        as (result & w' & Hrun & _ & _ & _ & Hcrit & _)
  end.
  rewrite Hrun. cbn [world ui].
  eexists; exists result. split; [reflexivity |]. cbn. repeat split. exact Hcrit.
Qed.

Lemma applyRefinement_nothing (prev : list Panel) :
  applyRefinement (VArr []) prev = Ok prev.
Proof.
  unfold applyRefinement. induction prev as [| p prev IH]; [reflexivity |].
  cbn [map_result refine_panel find_by_id]. rewrite IH. reflexivity.
Qed.

(** The state [handleFixText] leaves when the rewrite returns and
    applies. *)
Lemma handleFixText_state (story : Story) (a : App) (current : AnalysisResult)
    (refined : RefinedContent) (w1 : World) (updated : list Panel) :
  analysis (ui a) = Some current ->
  refineStoryContent (currentTitle (ui a)) (summary story) (panels (ui a))
    (to_string (critique current) ++ " " ++ to_string (textQuality current))
    (or_default (targetAudience story) "General") (world a)
  = (Ok refined, w1) ->
  applyRefinement (refinedPanels refined) (panels (ui a)) = Ok updated ->
  handleFixText story a
  = (Ok tt,
     mkApp (mkUi updated (coverImage (ui a)) (isCoverGenerating (ui a))
              (loadingScript (ui a)) (newTitle refined)
              (Some (mark_optimized current)) false)
           w1).
Proof.
  intros Hsome Hrefine Happly. unfold handleFixText. rewrite Hsome.
  cbv beta iota zeta delta [bind set_ui try_finally try_catch call ret].
  cbn [world ui]. rewrite Hrefine.
  cbn [world ui panels with_title with_fixingText with_analysis].
  rewrite Happly. unfold setPanels, set_ui. cbn [world ui].
  unfold with_fixingText, with_analysis, with_panels. cbn. rewrite Hsome.
  reflexivity.
Qed.

(** X23.  A reply that parses to an object without any field (the empty
    reply is read as one) is accepted as a refinement: [handleFixText]
    keeps the title and every panel as they were, and still marks the
    analysis as "Optimized by Agent!". *)
Theorem handleFixText_empty_refinement (story : Story) (a : App)
    (current : AnalysisResult) (response : Response) (x : Ext) :
  analysis (ui a) = Some current ->
  (forall r, service r (ext (world a)) = (Ok response, x)) ->
  JSON_parse (or_default (text response) "{}") = Ok (VObj []) ->
  exists a',
    handleFixText story a = (Ok tt, a')
    /\ panels (ui a') = panels (ui a)
    /\ currentTitle (ui a') = currentTitle (ui a)
    /\ analysis (ui a') = Some (mark_optimized current)
    /\ textQuality (mark_optimized current) = VStr "Optimized by Agent!"
    /\ fixingText (ui a') = false.
Proof.
  intros Hsome Hsvc Hparse.
  assert (Hrefine :
            exists w1,
              refineStoryContent (currentTitle (ui a)) (summary story) (panels (ui a))
                (to_string (critique current) ++ " " ++ to_string (textQuality current))
                (or_default (targetAudience story) "General") (world a)
              = (Ok (mkRefined (currentTitle (ui a)) (summary story) (VArr [])), w1)).
  { unfold refineStoryContent. cbv zeta.
    run_to_service (Hsvc
      (ReqRefine (to_string (currentTitle (ui a))) (to_string (summary story))
         (map (fun p => (panel_id p, caption p)) (panels (ui a)))
         (to_string (critique current) ++ " " ++ to_string (textQuality current))
         (or_default (targetAudience story) "General"))).
    rewrite Hparse. cbn. eexists. reflexivity. }
  destruct Hrefine as [w1 Hrefine].
  rewrite (handleFixText_state story a current _ w1 (panels (ui a)) Hsome Hrefine
             (applyRefinement_nothing _)).
  eexists. split; [reflexivity |]. cbn. repeat split.
Qed.

(** X24.  When the request of the rewrite fails, [handleFixText] swallows
    the error: it returns normally, the panels, the title and the analysis
    stay as they were, and the "fixing" flag is cleared. *)
Theorem handleFixText_failed_request (story : Story) (a : App)
    (current : AnalysisResult) (e : JsError) (x : Ext) :
  analysis (ui a) = Some current ->
  (forall r, service r (ext (world a)) = (Throw e, x)) ->
  exists a',
    handleFixText story a = (Ok tt, a')
    /\ panels (ui a') = panels (ui a)
    /\ currentTitle (ui a') = currentTitle (ui a)
    /\ analysis (ui a') = analysis (ui a)
    /\ fixingText (ui a') = false.
Proof.
  intros Hsome Hsvc.
  pose proof (refineStoryContent_request_fails (world a) x e Hsvc
                (currentTitle (ui a)) (summary story) (panels (ui a))
                (to_string (critique current) ++ " " ++ to_string (textQuality current))
                (or_default (targetAudience story) "General")) as Hthrow.
  unfold handleFixText. rewrite Hsome.
  cbv beta iota zeta delta [bind set_ui try_finally try_catch call ret].
  cbn [world ui].
  destruct (refineStoryContent _ _ _ _ _ (world a)) as [r w1].
  cbn [fst] in Hthrow. subst r.
  eexists. split; [reflexivity |]. cbn. repeat split. exact Hsome.
Qed.

Lemma update_panel_same_id (id : Z) (f g : Panel -> Panel) (l : list Panel) :
  (forall p, panel_id (g p) = panel_id p) ->
  (forall p, f (g p) = f p) ->
  update_panel id f (update_panel id g l) = update_panel id f l.
Proof.
  intros Hid Hfg. rewrite update_panel_twice by exact Hid.
  unfold update_panel. apply map_ext. intros p. rewrite Hfg. reflexivity.
Qed.

(** X25.  Caption edits behave like writes to a store keyed by panel
    identifier: a second edit of the same panel replaces the first, edits
    of different panels can be made in either order, and an edit never
    touches an identifier, a prompt, an image or a generation mark. *)
Theorem updateCaption_last_write_wins (id id' : Z) (c1 c2 : string) (a : App) :
  (updateCaption id c1 ;; updateCaption id c2) a = updateCaption id c2 a
  /\ (id <> id' ->
      (updateCaption id c1 ;; updateCaption id' c2) a
      = (updateCaption id' c2 ;; updateCaption id c1) a)
  /\ Forall2
       (fun p p' =>
          panel_id p' = panel_id p
          /\ description p' = description p
          /\ imageUrl p' = imageUrl p
          /\ isGenerating p' = isGenerating p
          /\ caption p' = if panel_id p =? id then VStr c1 else caption p)
       (panels (ui a)) (panels (ui (snd (updateCaption id c1 a)))).
Proof.
  unfold updateCaption, setPanels, set_ui, bind. cbn [world ui].
  unfold with_panels. cbn [panels coverImage isCoverGenerating loadingScript
    currentTitle analysis fixingText].
  split; [| split].
  - rewrite update_panel_same_id; reflexivity.
  - intros Hne. do 2 f_equal. f_equal.
    unfold update_panel. rewrite !map_map. apply map_ext. intros p.
    destruct (panel_id p =? id) eqn:E1; destruct (panel_id p =? id') eqn:E2;
      cbn [panel_id set_caption]; rewrite ?E1, ?E2; try reflexivity.
    apply Z.eqb_eq in E1. apply Z.eqb_eq in E2. congruence.
  - cbn [snd ui panels]. unfold update_panel. apply Forall2_map_same. intros p.
    destruct (panel_id p =? id); cbn; repeat split.
Qed.

(* ================================================================== *)
(** ** App, StoryFinder and ImageEditor *)

Lemma app_step_keeps_pairing (m : AppModel) (ev : AppEvent) :
  (appState m = DISCOVER /\ selectedStory m = None)
  \/ (appState m = BUILDING /\ exists story, selectedStory m = Some story) ->
  (appState (app_step m ev) = DISCOVER /\ selectedStory (app_step m ev) = None)
  \/ (appState (app_step m ev) = BUILDING
      /\ exists story, selectedStory (app_step m ev) = Some story).
Proof.
  intros H. destruct ev as [hasSelected | opened | story |]; cbn.
  - exact H.
  - destruct opened as [[[] | e] |]; exact H.
  - right. eauto.
  - left. auto.
Qed.

Lemma app_run_pairing (events : list AppEvent) :
  forall m,
    (appState m = DISCOVER /\ selectedStory m = None)
    \/ (appState m = BUILDING /\ exists story, selectedStory m = Some story) ->
    (appState (fold_left app_step events m) = DISCOVER
     /\ selectedStory (fold_left app_step events m) = None)
    \/ (appState (fold_left app_step events m) = BUILDING
        /\ exists story, selectedStory (fold_left app_step events m) = Some story).
Proof.
  induction events as [| ev events IH]; intros m H; [exact H |].
  cbn [fold_left]. apply IH. apply app_step_keeps_pairing. exact H.
Qed.

(** X26.  Whatever sequence of key checks, connections, selections and
    returns [App] goes through, it is in the BUILDING state exactly when a
    story is selected, it never enters the SCRIPTING or READING state, and
    it never renders an empty page. *)
Theorem app_state_pairs_with_story (events : list AppEvent) :
  (appState (app_run events) = BUILDING <-> selectedStory (app_run events) <> None)
  /\ appState (app_run events) <> SCRIPTING
  /\ appState (app_run events) <> READING
  /\ render (app_run events) <> ShowNothing.
Proof.
  unfold app_run.
  destruct (app_run_pairing events initial_app (or_introl (conj eq_refl eq_refl)))
    as [[Hst Hsel] | [Hst [story Hsel]]];
    unfold render; rewrite Hst, Hsel.
  - repeat split; try discriminate; try congruence.
    destruct (isCheckingKey _); [discriminate |].
    destruct (negb (hasApiKey _)); discriminate.
  - repeat split; try discriminate; try congruence.
    destruct (isCheckingKey _); [discriminate |].
    destruct (negb (hasApiKey _)); discriminate.
Qed.

Lemma app_step_keeps_key (m : AppModel) (ev : AppEvent) :
  (hasApiKey m = true -> hasApiKey (app_step m ev) = true)
  /\ (isCheckingKey m = false -> isCheckingKey (app_step m ev) = false).
Proof.
  destruct ev as [hasSelected | opened | story |]; cbn.
  - split; [| reflexivity]. intros H. destruct hasSelected as [[[] | e] |]; auto.
  - destruct opened as [[[] | e] |]; cbn; auto.
  - auto.
  - auto.
Qed.

(** X27.  Once the key check is over and a key is connected, nothing
    disconnects it: whatever happens next, [App] shows the story finder or
    the ebook creator, never the spinner or the landing page again. *)
Theorem app_stays_unlocked (before after : list AppEvent) :
  hasApiKey (app_run before) = true ->
  isCheckingKey (app_run before) = false ->
  render (app_run (before ++ after)) = ShowStoryFinder
  \/ exists story, render (app_run (before ++ after)) = ShowEbookCreator story.
Proof.
  intros Hkey Hchecked.
  assert (Hkeep : hasApiKey (app_run (before ++ after)) = true
                  /\ isCheckingKey (app_run (before ++ after)) = false).
  { unfold app_run in *. rewrite fold_left_app.
    revert Hkey Hchecked. generalize (fold_left app_step before initial_app).
    induction after as [| ev after IH]; intros m Hkey Hchecked; [auto |].
    cbn [fold_left]. destruct (app_step_keeps_key m ev) as [Hk Hc]. apply IH; auto. }
  destruct Hkeep as [Hk Hc].
  unfold render. rewrite Hk, Hc. cbn [negb].
  unfold app_run.
  destruct (app_run_pairing (before ++ after) initial_app
              (or_introl (conj eq_refl eq_refl)))
    as [[Hst Hsel] | [Hst [story Hsel]]]; rewrite Hst, ?Hsel; eauto.
Qed.

(** X28.  [handleSearch] never throws.  With a blank topic it does
    nothing, not even a request.  Otherwise it ends with the loading flag
    cleared, and either it shows a list of stories that is not empty, each
    carrying the panel count, style, layout and audience chosen in the
    form (not the 6 panels of the search), or it shows its error message
    and keeps the stories that were listed. *)
Theorem handleSearch_outcome (h : Hosted Finder) :
  if blank (sf_topic (inner_state h))
  then handleSearch h = (Ok tt, h)
  else
    exists h',
      handleSearch h = (Ok tt, h')
      /\ sf_loading (inner_state h') = false
      /\ ((sf_error (inner_state h') = None
           /\ sf_stories (inner_state h') <> []
           /\ Forall (fun s =>
                        panelCount s = Some (sf_panelCount (inner_state h))
                        /\ visualStyle s = Some (getFinalStyle (inner_state h))
                        /\ layoutStyle s = Some (sf_layoutStyle (inner_state h))
                        /\ targetAudience s = Some (sf_targetAudience (inner_state h)))
                     (sf_stories (inner_state h')))
          \/ (sf_error (inner_state h')
              = Some "Failed to find stories. Please check your API key."
              /\ sf_stories (inner_state h') = sf_stories (inner_state h))).
Proof.
  unfold handleSearch. cbv zeta.
  destruct (blank (sf_topic (inner_state h))); [reflexivity |].
  unfold bind at 1. unfold set_in at 1. cbn [inner_state outer_world].
  unfold bind at 1. unfold set_in at 1. cbn [inner_state outer_world].
  unfold try_finally, try_catch. unfold bind at 1. unfold call_in at 1.
  cbn [inner_state outer_world].
  destruct (findViralStories_cases (sf_topic (inner_state h))
              (sf_targetAudience (inner_state h)) (outer_world h))
    as [(stories & w' & -> & Hne & _) | (w' & ->)].
  - unfold set_in. cbn [inner_state outer_world].
    eexists. split; [reflexivity |]. cbn. split; [reflexivity |]. left.
    split; [reflexivity |]. split.
    + destruct stories; [contradiction | discriminate].
    + apply Forall_forall. intros s Hs. apply in_map_iff in Hs.
      destruct Hs as (s0 & <- & _). cbn. auto.
  - unfold set_in. cbn [inner_state outer_world].
    eexists. split; [reflexivity |]. cbn. auto.
Qed.

(** X29.  [handleCreateCustom] never shows its error message: with a
    prompt that is not blank it always hands one story to [onSelectStory],
    with the panel count, style, layout and audience chosen in the form,
    and ends with the loading flag cleared; with a blank prompt it does
    nothing. *)
Theorem handleCreateCustom_outcome (h : Hosted Finder) :
  if blank (sf_customPrompt (inner_state h))
  then handleCreateCustom h = (Ok tt, h)
  else
    exists h' story,
      handleCreateCustom h = (Ok tt, h')
      /\ sf_handed (inner_state h') = (sf_handed (inner_state h) ++ [story])%list
      /\ panelCount story = Some (sf_panelCount (inner_state h))
      /\ visualStyle story = Some (getFinalStyle (inner_state h))
      /\ layoutStyle story = Some (sf_layoutStyle (inner_state h))
      /\ targetAudience story = Some (sf_targetAudience (inner_state h))
      /\ sf_error (inner_state h') = None
      /\ sf_loading (inner_state h') = false.
Proof.
  unfold handleCreateCustom. cbv zeta.
  destruct (blank (sf_customPrompt (inner_state h))); [reflexivity |].
  unfold bind at 1. unfold set_in at 1. cbn [inner_state outer_world].
  unfold bind at 1. unfold set_in at 1. cbn [inner_state outer_world].
  unfold try_finally, try_catch. unfold bind at 1. unfold call_in at 1.
  cbn [inner_state outer_world].
  destruct (createStoryFromPrompt_total (sf_customPrompt (inner_state h))
              (sf_panelCount (inner_state h)) (sf_targetAudience (inner_state h))
              (outer_world h))
    as (story & w' & -> & Hcount).
  unfold set_in. cbn [inner_state outer_world].
  eexists; eexists. split; [reflexivity |]. cbn. repeat split. exact Hcount.
Qed.

(** X30.  [handleEdit] never throws and never touches the original image
    the editor was opened on.  With a blank prompt it does nothing.
    Otherwise it ends with the loading flag cleared, and either the
    current image is a new [data:image/png;base64,] URI, the prompt is
    emptied and no error shows, or the current image and the prompt stay
    and the error message shows. *)
Theorem handleEdit_outcome (h : Hosted Editor) :
  if blank (ed_prompt (inner_state h))
  then handleEdit h = (Ok tt, h)
  else
    exists h',
      handleEdit h = (Ok tt, h')
      /\ ed_loading (inner_state h') = false
      /\ ed_originalImage (inner_state h') = ed_originalImage (inner_state h)
      /\ ((exists d, ed_currentImage (inner_state h') = data_uri d)
          /\ ed_prompt (inner_state h') = ""
          /\ ed_error (inner_state h') = None
          \/ ed_currentImage (inner_state h') = ed_currentImage (inner_state h)
             /\ ed_prompt (inner_state h') = ed_prompt (inner_state h)
             /\ ed_error (inner_state h')
                = Some "Failed to edit image. Try a simpler prompt.").
Proof.
  unfold handleEdit. cbv zeta.
  destruct (blank (ed_prompt (inner_state h))); [reflexivity |].
  unfold bind at 1. unfold set_in at 1. cbn [inner_state outer_world].
  unfold bind at 1. unfold set_in at 1. cbn [inner_state outer_world].
  unfold try_finally, try_catch. unfold bind at 1. unfold call_in at 1.
  cbn [inner_state outer_world ed_prompt ed_currentImage].
  destruct (editPanelImage (ed_currentImage (inner_state h))
              (ed_prompt (inner_state h)) (outer_world h))
    as [[edited | e] w'] eqn:Hrun.
  - destruct (image_operation_ok_inv _ _ _ _ _ Hrun) as [d ->].
    unfold bind, set_in. cbn [inner_state outer_world].
    eexists. split; [reflexivity |]. cbn.
    split; [reflexivity |]. split; [reflexivity |].
    left. split; [exists d; reflexivity | split; reflexivity].
  - unfold set_in. cbn [inner_state outer_world].
    eexists. split; [reflexivity |]. cbn.
    split; [reflexivity |]. split; [reflexivity |].
    right. repeat split.
Qed.

End Program.

(* ================================================================== *)
(** ** The properties at work on the sample world *)

Lemma retryOperation_two_failures_then_success_witness :
  retryOperation_default nat (invoke nat Sample.flaky) (mkWorld nat 0%nat [])
  = (Ok "done",
     mkWorld nat 3%nat [EvInvoke; EvSleep 2000; EvInvoke; EvSleep 4000; EvInvoke]).
Proof.
  exact (retryOperation_two_failures_then_success nat Sample.flaky
           0%nat 1%nat 2%nat 3%nat Sample.quota_error Sample.quota_error "done" []
           eq_refl eq_refl eq_refl eq_refl eq_refl).
Defined.

Lemma retryOperation_always_throttled_witness :
  exists e x',
    retryOperation_default nat (invoke nat Sample.always_throttled) (mkWorld nat 0%nat [])
    = (Throw e,
       mkWorld nat x'
         [EvInvoke; EvSleep 2000; EvInvoke; EvSleep 4000;
          EvInvoke; EvSleep 8000; EvInvoke])
    /\ isQuotaError e = true.
Proof.
  apply (retryOperation_always_throttled nat Sample.always_throttled 0%nat []).
  intros x. exists Sample.quota_error, (S x). split; reflexivity.
Defined.

Lemma retryOperation_other_error_propagates_witness :
  retryOperation nat (invoke nat Sample.always_offline) 3 2000 (mkWorld nat 0%nat [])
  = (Throw Sample.network_error, mkWorld nat 1%nat [EvInvoke]).
Proof.
  apply (retryOperation_other_error_propagates nat Sample.always_offline 3 2000
           0%nat 1%nat Sample.network_error []).
  - reflexivity.
  - discriminate.
  - discriminate.
  - intros m Hm. injection Hm as <-. reflexivity.
Defined.

Lemma findViralStories_valid_response_witness :
  exists stories w',
    findViralStories Sample.Ext Sample.service Sample.Date_now Sample.JSON_parse
      "cats" "Kids"
      (mkWorld Sample.Ext
         [Sample.answer ("Here you go: " ++ Sample.two_stories_text)] [])
    = (Ok stories, w')
    /\ List.length stories = 2%nat
    /\ NoDup (map story_id stories)
    /\ Forall (fun s => targetAudience s = Some "Kids") stories.
Proof.
  apply (findViralStories_valid_response Sample.Ext Sample.service Sample.Date_now
           Sample.JSON_parse "cats" "Kids"
           (mkWorld Sample.Ext
              [Sample.answer ("Here you go: " ++ Sample.two_stories_text)] [])
           (mkResponse (Some ("Here you go: " ++ Sample.two_stories_text)) [])
           [] Sample.two_stories_text
           [VObj [("title", VStr "Cat"); ("source", VStr "Reddit r/aww")];
            VObj [("title", VStr "Dog")]]).
  - reflexivity.
  - reflexivity.
  - reflexivity.
  - discriminate.
  - repeat constructor.
Defined.

Lemma findViralStories_placeholder_witness :
  exists entry,
    fst (findViralStories Sample.Ext Sample.service Sample.Date_now Sample.JSON_parse
           "cats" "Kids" (mkWorld Sample.Ext [Sample.answer "No stories today."] []))
    = Ok [entry]
    /\ source entry = VStr "Search System".
Proof.
  apply (findViralStories_placeholder Sample.Ext Sample.service Sample.Date_now
           Sample.JSON_parse "cats" "Kids"
           (mkWorld Sample.Ext [Sample.answer "No stories today."] [])
           (mkResponse (Some "No stories today.") []) []).
  - reflexivity.
  - exact I.
Defined.

Lemma unparseable_reply_outcomes_witness :
  fst (analyzeStoryPotential Sample.Ext Sample.service Sample.JSON_parse
         (VStr "Cat") (VStr "A cat.") "Kids" "Watercolor" None None
         (mkWorld Sample.Ext [Sample.answer "oops"] []))
  = Ok fallback_analysis
  /\ fst (refineStoryContent Sample.Ext Sample.service Sample.JSON_parse
            (VStr "Cat") (VStr "A cat.") [Sample.panel 0 None false] "Too dry." "Kids"
            (mkWorld Sample.Ext [Sample.answer "oops"] []))
     = Throw Sample.syntax_error.
Proof.
  destruct (unparseable_reply_outcomes Sample.Ext Sample.service Sample.Date_now
              Sample.JSON_parse (mkWorld Sample.Ext [Sample.answer "oops"] []) []
              (mkResponse (Some "oops") []) Sample.syntax_error)
    as (_ & _ & _ & Hanalysis & Hrefine).
  - intros r. reflexivity.
  - reflexivity.
  - intros jsonMatch Hmatch. discriminate Hmatch.
  - split; [apply Hanalysis | apply Hrefine].
Defined.

Lemma request_failure_outcomes_witness :
  fst (findViralStories Sample.Ext Sample.service Sample.Date_now Sample.JSON_parse
         "cats" "Kids" (mkWorld Sample.Ext [] []))
  = Throw (Error "Failed to fetch viral stories.")
  /\ fst (generatePanelImage Sample.Ext Sample.service "a cat"
            (mkWorld Sample.Ext [] []))
     = Throw Sample.network_error
  /\ fst (generateScript Sample.Ext Sample.service Sample.JSON_parse
            (mkStory "story-2" (VStr "Cat") (VStr "A cat.") (VStr "Reddit r/aww")
               (Some (-1)) None None None)
            (mkWorld Sample.Ext [] []))
     = Throw (RangeError "Invalid array length").
Proof.
  destruct (request_failure_outcomes Sample.Ext Sample.service Sample.Date_now
              Sample.JSON_parse (mkWorld Sample.Ext [] []) [] Sample.network_error)
    as (Hfind & _ & Himage & _ & _ & _ & Hrange).
  - intros r. reflexivity.
  - destruct Himage as (Hpanel & _ & _).
    + discriminate.
    + discriminate.
    + intros m Hm. injection Hm as <-. reflexivity.
    + split; [apply Hfind |]. split; [apply Hpanel |].
      apply Hrange. left. cbn. lia.
Defined.

Lemma applyRefinement_frame_witness :
  exists updated,
    applyRefinement (VArr [VObj [("id", VNum 1); ("caption", VStr "A new caption")]])
      [Sample.panel 0 None false; Sample.panel 1 None false]
    = Ok updated
    /\ nth_error updated 0 = Some (Sample.panel 0 None false)
    /\ option_map caption (nth_error updated 1) = Some (VStr "A new caption").
Proof.
  destruct (applyRefinement_frame
              [VObj [("id", VNum 1); ("caption", VStr "A new caption")]]
              [Sample.panel 0 None false; Sample.panel 1 None false])
    as (updated & Hrun & _ & Hnth).
  - repeat constructor.
  - exists updated. split; [exact Hrun |]. split.
    + destruct (Hnth 0%nat _ eq_refl) as (p' & Hp' & _ & _ & _ & _ & Hsame & _).
      rewrite Hp'. f_equal. apply Hsame. reflexivity.
    + destruct (Hnth 1%nat _ eq_refl) as (p' & Hp' & _ & _ & _ & _ & _ & Hcap).
      rewrite Hp'. simpl. f_equal.
      specialize (Hcap [] _ [] eq_refl eq_refl eq_refl).
      simpl in Hcap. injection Hcap as <-. reflexivity.
Defined.

(** C1, refuted as stated: the reply "oops" does not parse, and
    [refineStoryContent] throws the parse error instead of returning a
    placeholder. *)
Lemma refineStoryContent_throws_parse_failure :
  Sample.service (ReqRefine "Cat" "A cat." [(0, VStr "caption 0")] "Too dry." "Kids")
    [Sample.answer "oops"]
  = (Sample.answer "oops", [])
  /\ Sample.JSON_parse "oops" = Throw Sample.syntax_error
  /\ fst (refineStoryContent Sample.Ext Sample.service Sample.JSON_parse
            (VStr "Cat") (VStr "A cat.") [Sample.panel 0 None false] "Too dry." "Kids"
            (mkWorld Sample.Ext [Sample.answer "oops"] []))
     = Throw Sample.syntax_error.
Proof. repeat split; reflexivity. Qed.

(** C2, at a failing input.  A story of four panels is illustrated; the
    image of panel 2 fails, so panels 0, 1 and 3 hold an image and panel 2
    does not.  The flow is then entered again (the Restart Project button,
    with the analysis on display).  The test of the batch reads the newly
    drafted script it is handed, not the panels of the component, so the
    second run calls for an image for each of the four panels again: eight
    calls in all, where skipping the panels that held an image leaves
    five. *)
Lemma reentry_repeats_image_calls :
  let first :=
    snd (initStory Sample.Ext Sample.service Sample.JSON_parse Sample.story
           (mkApp Sample.Ext
              (mkUi [] None true true (VStr "Cat") None false)
              (mkWorld Sample.Ext
                 [Sample.answer "oops";
                  Sample.image_answer "Y292ZXI=";
                  Sample.image_answer "cDA=";
                  Sample.image_answer "cDE=";
                  Throw Sample.network_error;
                  Sample.image_answer "cDM=";
                  Sample.answer "oops";
                  Sample.image_answer "Y292ZXI=";
                  Sample.image_answer "cTA=";
                  Sample.image_answer "cTE=";
                  Sample.image_answer "cTI=";
                  Sample.image_answer "cTM="]
                 []))) in
  let again :=
    snd (handleRetry Sample.Ext Sample.service Sample.JSON_parse Sample.story
           (mkStudio Sample.Ext
              (mkApp Sample.Ext
                 (with_analysis (fun _ => Some fallback_analysis) (ui Sample.Ext first))
                 (world Sample.Ext first))
              true false)) in
  map panel_id (panels (ui Sample.Ext first)) = [0; 1; 2; 3]
  /\ map has_image (panels (ui Sample.Ext first)) = [true; true; false; true]
  /\ List.length (panel_calls (trace Sample.Ext (world Sample.Ext first))) = 4%nat
  /\ panel_calls (trace Sample.Ext (world Sample.Ext (creator Sample.Ext again)))
     = (panel_calls (trace Sample.Ext (world Sample.Ext first))
        ++ map description (panels (ui Sample.Ext first)))%list
  /\ List.length
       (panel_calls (trace Sample.Ext (world Sample.Ext (creator Sample.Ext again))))
     = 8%nat
  /\ map imageUrl (panels (ui Sample.Ext (creator Sample.Ext again)))
     = [Some "data:image/png;base64,cTA="; Some "data:image/png;base64,cTE=";
        Some "data:image/png;base64,cTI="; Some "data:image/png;base64,cTM="].
Proof. vm_compute. repeat split. Qed.

(** C5, refuted as stated: a request rejected for its size (status
    INVALID_ARGUMENT, code 400) is not a throttling error, yet the wrapper
    takes the digits 429 in its message for one: the operation is invoked
    four times, with waits of 2000, 4000 and 8000 ms, before the error
    reaches the caller. *)
Lemma retryOperation_retries_error_mentioning_429 :
  err_status Sample.payload_error = Some "INVALID_ARGUMENT"
  /\ err_code Sample.payload_error = Some 400
  /\ retryOperation nat (invoke nat Sample.always_too_large) 3 2000
       (mkWorld nat 0%nat [])
     = (Throw Sample.payload_error,
        mkWorld nat 4%nat
          [EvInvoke; EvSleep 2000; EvInvoke; EvSleep 4000;
           EvInvoke; EvSleep 8000; EvInvoke]).
Proof. repeat split; reflexivity. Qed.

(** C6, refuted as stated: the request fails with a network error, which is
    not a throttling error, and [createStoryFromPrompt] returns a story. *)
Lemma createStoryFromPrompt_returns_on_network_error :
  Sample.service (ReqStoryFromPrompt "a dragon" 8 "Kids") []
  = (Throw Sample.network_error, [])
  /\ isQuotaError Sample.network_error = false
  /\ fst (createStoryFromPrompt Sample.Ext Sample.service Sample.Date_now
            Sample.JSON_parse "a dragon" 8 "Kids" (mkWorld Sample.Ext [] []))
     = Ok (fallback_custom_story 1730000000000 "a dragon" 8 "Kids").
Proof. repeat split; reflexivity. Qed.

(* ================================================================== *)
(** ** Runs of the model *)

Example base64ToBlob_hi :
  base64ToBlob "data:image/png;base64,aGk=" = Ok (mkBlob [x68; x69] "image/png").
Proof. reflexivity. Qed.

Example base64ToBlob_jpeg :
  base64ToBlob "data:image/jpeg;base64,aGk=" = Ok (mkBlob [x68; x69] "image/jpeg").
Proof. reflexivity. Qed.

Example base64ToBlob_capitals :
  base64ToBlob "data:IMAGE/PNG;base64,aGk=" = Ok (mkBlob [x68; x69] "image/png").
Proof. reflexivity. Qed.

Example base64ToBlob_unprintable_type :
  base64ToBlob (String "d" (String "a" (String "t" (String "a" (String ":"
                  (String "233"%char ";base64,aGk="))))))
  = Ok (mkBlob [x68; x69] "").
Proof. reflexivity. Qed.

Example base64ToBlob_no_separator :
  base64ToBlob "aGk=" = Throw (Error "Invalid image data").
Proof. reflexivity. Qed.

Example encode_man : base64_encode [x4d; x61; x6e] = "TWFu".
Proof. reflexivity. Qed.

Example encode_ma : base64_encode [x4d; x61] = "TWE=".
Proof. reflexivity. Qed.

Example encode_m : base64_encode [x4d] = "TQ==".
Proof. reflexivity. Qed.

Example atob_forgives_missing_padding : atob "TWE" = Ok "Ma".
Proof. reflexivity. Qed.

Example atob_skips_whitespace : atob " TW Fu " = Ok "Man".
Proof. reflexivity. Qed.

Example atob_rejects_lone_character : is_ok (atob "TWFuT") = false.
Proof. reflexivity. Qed.

Example atob_rejects_three_padding_signs : is_ok (atob "T===") = false.
Proof. reflexivity. Qed.

Example match_bracketed_greedy :
  match_bracketed "see [1] and [2] here" = Some "[1] and [2]".
Proof. reflexivity. Qed.

Example isQuotaError_by_message :
  isQuotaError (Error "got status: 429 Too Many Requests") = true.
Proof. reflexivity. Qed.

Example isQuotaError_no_image :
  isQuotaError (Error "No image data returned.") = false.
Proof. reflexivity. Qed.

(** A panel image that is throttled twice and then delivered. *)
Example generatePanelImage_after_two_retries :
  generatePanelImage Sample.Ext Sample.service "a cat"
    (mkWorld Sample.Ext
       [Throw Sample.quota_error; Throw Sample.quota_error; Sample.image_answer "aGk="]
       [])
  = (Ok "data:image/png;base64,aGk=",
     mkWorld Sample.Ext []
       [EvCall (ReqPanelImage "a cat");
        EvRequest (ReqPanelImage "a cat"); EvSleep 2000;
        EvRequest (ReqPanelImage "a cat"); EvSleep 4000;
        EvRequest (ReqPanelImage "a cat")]).
Proof. reflexivity. Qed.

(** A reply without image is an error that is not retried. *)
Example generatePanelImage_without_image :
  generatePanelImage Sample.Ext Sample.service "a cat"
    (mkWorld Sample.Ext [Sample.answer "Sorry."] [])
  = (Throw (Error "No image data returned."),
     mkWorld Sample.Ext []
       [EvCall (ReqPanelImage "a cat"); EvRequest (ReqPanelImage "a cat")]).
Proof. reflexivity. Qed.

(** A story of four panels whose script reply does not parse: placeholder
    panels 0 to 3, then the cover, then the four panels in order; the
    third panel image fails and the batch goes on. *)
Example initStory_run :
  let start :=
    mkApp Sample.Ext
      (mkUi [] None true true (VStr "Cat") None false)
      (mkWorld Sample.Ext
         [Sample.answer "oops";
          Sample.image_answer "Y292ZXI=";
          Sample.image_answer "cDA=";
          Sample.image_answer "cDE=";
          Throw Sample.network_error;
          Sample.image_answer "cDM="]
         []) in
  let '(result, final) :=
    initStory Sample.Ext Sample.service Sample.JSON_parse Sample.story start in
  result = Ok tt
  /\ map panel_id (panels (ui Sample.Ext final)) = [0; 1; 2; 3]
  /\ map imageUrl (panels (ui Sample.Ext final))
     = [Some "data:image/png;base64,cDA="; Some "data:image/png;base64,cDE=";
        None; Some "data:image/png;base64,cDM="]
  /\ coverImage (ui Sample.Ext final) = Some "data:image/png;base64,Y292ZXI="
  /\ List.length (panel_calls (trace Sample.Ext (world Sample.Ext final))) = 4%nat
  /\ sleeps (trace Sample.Ext (world Sample.Ext final)) = [4000; 4000; 4000; 4000].
Proof. vm_compute. repeat split. Qed.

(** The search reply [[null]] parses, and the search fails all the same. *)
Example findViralStories_null_reply :
  fst (findViralStories Sample.Ext Sample.service Sample.Date_now Sample.JSON_parse
         "cats" "Kids" (mkWorld Sample.Ext [Sample.answer "[null]"] []))
  = Throw (Error "Failed to fetch viral stories.").
Proof. reflexivity. Qed.

Example findViralStories_two_stories :
  map story_id
    (match fst (findViralStories Sample.Ext Sample.service Sample.Date_now
                  Sample.JSON_parse "cats" "Kids"
                  (mkWorld Sample.Ext [Sample.answer Sample.two_stories_text] [])) with
     | Ok stories => stories
     | Throw _ => []
     end)
  = ["story-1730000000000-0"; "story-1730000000000-1"].
Proof. reflexivity. Qed.

(* ================================================================== *)
(** ** The further properties at work on the sample world *)

Lemma retryOperation_bounded_witness :
  exists r x' k,
    retryOperation nat (invoke nat Sample.flaky) 5 100 (mkWorld nat 0%nat [])
    = (r, mkWorld nat x' ([] ++ retry_pattern EvInvoke k 100))
    /\ (k <= Z.to_nat 5)%nat
    /\ (forall e, r = Throw e -> isQuotaError e = true -> k = Z.to_nat 5).
Proof.
  apply (retryOperation_bounded nat Sample.flaky 5 100 0%nat []); cbn; lia.
Defined.

Lemma generatePanelImage_returns_png_uri_witness :
  exists d, "data:image/png;base64,aGk=" = "data:image/png;base64," ++ d.
Proof.
  apply (generatePanelImage_returns_png_uri Sample.Ext Sample.service "a cat"
           (mkWorld Sample.Ext
              [Throw Sample.quota_error; Sample.image_answer "aGk="] [])
           (mkWorld Sample.Ext []
              [EvCall (ReqPanelImage "a cat");
               EvRequest (ReqPanelImage "a cat"); EvSleep 2000;
               EvRequest (ReqPanelImage "a cat")])).
  reflexivity.
Defined.

Lemma generateScript_panels_numbered_witness :
  let run :=
    generateScript Sample.Ext Sample.service Sample.JSON_parse_more Sample.story
      (mkWorld Sample.Ext [Sample.answer Sample.script_text] []) in
  let script := match fst run with Ok ps => ps | Throw _ => [] end in
  map panel_id script = [0; 1]
  /\ NoDup (map panel_id script)
  /\ Forall (fun p => has_image p = false /\ isGenerating p = false) script.
Proof.
  cbv zeta.
  apply (generateScript_panels_numbered Sample.Ext Sample.service
           Sample.JSON_parse_more Sample.story
           (mkWorld Sample.Ext [Sample.answer Sample.script_text] [])
           (snd (generateScript Sample.Ext Sample.service Sample.JSON_parse_more
                   Sample.story
                   (mkWorld Sample.Ext [Sample.answer Sample.script_text] [])))).
  reflexivity.
Defined.

Lemma generateScript_follows_reply_witness :
  exists script,
    fst (generateScript Sample.Ext Sample.service Sample.JSON_parse_more Sample.story
           (mkWorld Sample.Ext [Sample.answer Sample.script_text] []))
    = Ok script
    /\ List.length script = 2%nat
    /\ Forall2 (fun p item => get item "caption" = Ok (caption p)) script
         [VObj [("caption", VStr "Once")]; VObj [("caption", VStr "Then")]].
Proof.
  apply (generateScript_follows_reply Sample.Ext Sample.service
           Sample.JSON_parse_more Sample.story
           (mkWorld Sample.Ext [Sample.answer Sample.script_text] []) []
           (mkResponse (Some Sample.script_text) [])
           [("panels", VArr [VObj [("caption", VStr "Once")];
                             VObj [("caption", VStr "Then")]])]
           [VObj [("caption", VStr "Once")]; VObj [("caption", VStr "Then")]]).
  - intros r. reflexivity.
  - reflexivity.
  - reflexivity.
  - repeat constructor.
Defined.

Lemma findViralStories_story_defaults_witness :
  let run :=
    findViralStories Sample.Ext Sample.service Sample.Date_now Sample.JSON_parse
      "cats" "Kids"
      (mkWorld Sample.Ext [Sample.answer Sample.two_stories_text] []) in
  Forall (fun s =>
            panelCount s = Some 6
            /\ truthy (source s) = true
            /\ targetAudience s = Some "Kids"
            /\ visualStyle s = None
            /\ layoutStyle s = None)
    (match fst run with Ok stories => stories | Throw _ => [] end).
Proof.
  cbv zeta.
  apply (findViralStories_story_defaults Sample.Ext Sample.service Sample.Date_now
           Sample.JSON_parse "cats" "Kids"
           (mkWorld Sample.Ext [Sample.answer Sample.two_stories_text] [])
           (snd (findViralStories Sample.Ext Sample.service Sample.Date_now
                   Sample.JSON_parse "cats" "Kids"
                   (mkWorld Sample.Ext [Sample.answer Sample.two_stories_text] [])))).
  reflexivity.
Defined.

Lemma chunkArray_pages_witness :
  exists chunks,
    chunkArray [1; 2; 3; 4; 5; 6; 7; 8; 9] 4 = Some chunks
    /\ (forall fuel, (9 <= fuel)%nat ->
                     chunk_loop fuel [1; 2; 3; 4; 5; 6; 7; 8; 9] 4 0 = Some chunks)
    /\ List.concat chunks = [1; 2; 3; 4; 5; 6; 7; 8; 9]
    /\ Forall (fun c => c <> [] /\ Z.of_nat (List.length c) <= 4) chunks
    /\ (forall k c, nth_error chunks k = Some c ->
                    (S k < List.length chunks)%nat ->
                    Z.of_nat (List.length c) = 4).
Proof.
  apply (chunkArray_pages [1; 2; 3; 4; 5; 6; 7; 8; 9] 4). lia.
Defined.

Lemma chunkArray_never_ends_witness :
  chunk_loop 1000 [1; 2; 3] 0 0 = None.
Proof.
  apply (chunkArray_never_ends [1; 2; 3] 0); [lia | discriminate].
Defined.

Lemma base64ToBlob_declared_type_witness :
  exists blob,
    base64ToBlob ("data:" ++ "IMAGE/Jpeg" ++ ";base64," ++ base64_encode [x68; x69])
    = Ok blob
    /\ blob_bytes blob = [x68; x69]
    /\ blob_type blob = "image/jpeg".
Proof.
  destruct (base64ToBlob_declared_type "IMAGE/Jpeg" [x68; x69])
    as (blob & Hrun & Hbytes & Htype & _);
    [discriminate | reflexivity | reflexivity |].
  exists blob. split; [exact Hrun |]. split; [exact Hbytes | exact Htype].
Defined.

Lemma base64ToBlob_rejects_plain_text_witness :
  base64ToBlob "https://example.com/cat.png" = Throw (Error "Invalid image data").
Proof.
  apply (base64ToBlob_rejects_plain_text "https://example.com/cat.png").
  reflexivity.
Defined.


Lemma handleRetry_illustrates_again_witness :
  let old := [Sample.panel 0 (Some "data:image/png;base64,b2xk") false] in
  let start :=
    mkStudio Sample.Ext
      (mkApp Sample.Ext (mkUi old None false false (VStr "Cat") (Some fallback_analysis) false)
         (mkWorld Sample.Ext [Sample.answer Sample.script_text] []))
      true false in
  exists s',
    handleRetry Sample.Ext Sample.service Sample.JSON_parse_more Sample.story start
    = (Ok tt, s')
    /\ showAgent Sample.Ext s' = false
    /\ analysis (ui Sample.Ext (creator Sample.Ext s')) = None
    /\ List.length (panel_calls (trace Sample.Ext
                                   (world Sample.Ext (creator Sample.Ext s'))))
       = 2%nat.
Proof.
  cbv zeta.
  destruct (handleRetry_illustrates_again Sample.Ext Sample.service
              Sample.JSON_parse_more Sample.story
              (mkStudio Sample.Ext
                 (mkApp Sample.Ext
                    (mkUi [Sample.panel 0 (Some "data:image/png;base64,b2xk") false]
                       None false false (VStr "Cat") (Some fallback_analysis) false)
                    (mkWorld Sample.Ext [Sample.answer Sample.script_text] []))
                 true false)
              (match fst (generateScript Sample.Ext Sample.service
                            Sample.JSON_parse_more Sample.story
                            (mkWorld Sample.Ext [Sample.answer Sample.script_text] []))
               with Ok ps => ps | Throw _ => [] end)
              (snd (generateScript Sample.Ext Sample.service Sample.JSON_parse_more
                      Sample.story
                      (mkWorld Sample.Ext [Sample.answer Sample.script_text] []))))
    as (s' & Hrun & Hagent & Han & Hcalls).
  - reflexivity.
  - exists s'. split; [exact Hrun |]. split; [exact Hagent |]. split; [exact Han |].
    rewrite Hcalls. reflexivity.
Defined.

Lemma handleFixText_empty_refinement_witness :
  let start :=
    mkApp Sample.Ext
      (mkUi [Sample.panel 0 None false] None false false (VStr "Cat")
         (Some fallback_analysis) false)
      (mkWorld Sample.Ext [Sample.answer "{}"] []) in
  exists a',
    handleFixText Sample.Ext Sample.service Sample.JSON_parse Sample.story start
    = (Ok tt, a')
    /\ panels (ui Sample.Ext a') = [Sample.panel 0 None false]
    /\ currentTitle (ui Sample.Ext a') = VStr "Cat"
    /\ analysis (ui Sample.Ext a') = Some (mark_optimized fallback_analysis)
    /\ textQuality (mark_optimized fallback_analysis) = VStr "Optimized by Agent!"
    /\ fixingText (ui Sample.Ext a') = false.
Proof.
  cbv zeta.
  apply (handleFixText_empty_refinement Sample.Ext Sample.service Sample.JSON_parse
           Sample.story
           (mkApp Sample.Ext
              (mkUi [Sample.panel 0 None false] None false false (VStr "Cat")
         (Some fallback_analysis) false)
              (mkWorld Sample.Ext [Sample.answer "{}"] []))
           fallback_analysis (mkResponse (Some "{}") []) []).
  - reflexivity.
  - intros r. reflexivity.
  - reflexivity.
Defined.

Lemma handleFixText_failed_request_witness :
  let start :=
    mkApp Sample.Ext
      (mkUi [Sample.panel 0 None false] None false false (VStr "Cat")
         (Some fallback_analysis) false)
      (mkWorld Sample.Ext [] []) in
  exists a',
    handleFixText Sample.Ext Sample.service Sample.JSON_parse Sample.story start
    = (Ok tt, a')
    /\ panels (ui Sample.Ext a') = [Sample.panel 0 None false]
    /\ currentTitle (ui Sample.Ext a') = VStr "Cat"
    /\ analysis (ui Sample.Ext a') = Some fallback_analysis
    /\ fixingText (ui Sample.Ext a') = false.
Proof.
  cbv zeta.
  apply (handleFixText_failed_request Sample.Ext Sample.service Sample.JSON_parse
           Sample.story
           (mkApp Sample.Ext
              (mkUi [Sample.panel 0 None false] None false false (VStr "Cat")
         (Some fallback_analysis) false)
              (mkWorld Sample.Ext [] []))
           fallback_analysis Sample.network_error []).
  - reflexivity.
  - intros r. reflexivity.
Defined.

Lemma app_stays_unlocked_witness :
  render (app_run ([KeyChecked (Some (Ok true))]
                   ++ [StorySelected Sample.story; BackClicked;
                       KeyChecked (Some (Throw Sample.network_error))]))
  = ShowStoryFinder
  \/ exists story,
       render (app_run ([KeyChecked (Some (Ok true))]
                        ++ [StorySelected Sample.story; BackClicked;
                            KeyChecked (Some (Throw Sample.network_error))]))
       = ShowEbookCreator story.
Proof.
  apply (app_stays_unlocked [KeyChecked (Some (Ok true))]
           [StorySelected Sample.story; BackClicked;
            KeyChecked (Some (Throw Sample.network_error))]);
    reflexivity.
Defined.

(* ================================================================== *)
(** ** Further runs of the model *)

Example chunkArray_nine_by_four :
  chunkArray [1; 2; 3; 4; 5; 6; 7; 8; 9] 4 = Some [[1; 2; 3; 4]; [5; 6; 7; 8]; [9]].
Proof. reflexivity. Qed.

Example chunkArray_empty : chunkArray (@nil Z) 4 = Some [].
Proof. reflexivity. Qed.

Example slice_negative_stop : slice [1; 2; 3; 4] 0 (-1) = [1; 2; 3].
Proof. reflexivity. Qed.

Example trim_both_ends : trim "  a b  " = "a b".
Proof. reflexivity. Qed.

Example blank_spaces : blank "   " = true.
Proof. reflexivity. Qed.

Example render_on_mount : render initial_app = ShowSpinner.
Proof. reflexivity. Qed.

Example render_without_key :
  render (app_run [KeyChecked None]) = ShowLanding.
Proof. reflexivity. Qed.

Example render_creator :
  render (app_run [KeyChecked (Some (Ok true)); StorySelected Sample.story])
  = ShowEbookCreator Sample.story.
Proof. reflexivity. Qed.

(** A search whose reply lists two stories: both are shown with the eight
    panels of the form, not the six of the search. *)
Example handleSearch_run :
  let '(result, final) :=
    handleSearch Sample.Ext Sample.service Sample.Date_now Sample.JSON_parse
      (mkHosted Sample.Ext Finder (Sample.finder "cats" "")
         (mkWorld Sample.Ext [Sample.answer Sample.two_stories_text] [])) in
  result = Ok tt
  /\ map panelCount (sf_stories (inner_state Sample.Ext Finder final)) = [Some 8; Some 8]
  /\ map title (sf_stories (inner_state Sample.Ext Finder final)) = [VStr "Cat"; VStr "Dog"]
  /\ sf_loading (inner_state Sample.Ext Finder final) = false
  /\ sf_error (inner_state Sample.Ext Finder final) = None.
Proof. vm_compute. repeat split. Qed.

Example handleSearch_offline :
  let '(result, final) :=
    handleSearch Sample.Ext Sample.service Sample.Date_now Sample.JSON_parse
      (mkHosted Sample.Ext Finder (Sample.finder "cats" "") (mkWorld Sample.Ext [] [])) in
  result = Ok tt
  /\ sf_stories (inner_state Sample.Ext Finder final) = []
  /\ sf_error (inner_state Sample.Ext Finder final)
     = Some "Failed to find stories. Please check your API key.".
Proof. vm_compute. repeat split. Qed.

Example handleCreateCustom_offline :
  let '(result, final) :=
    handleCreateCustom Sample.Ext Sample.service Sample.Date_now Sample.JSON_parse
      (mkHosted Sample.Ext Finder (Sample.finder "" "a dragon") (mkWorld Sample.Ext [] [])) in
  result = Ok tt
  /\ map title (sf_handed (inner_state Sample.Ext Finder final)) = [VStr "My Custom Story"]
  /\ map panelCount (sf_handed (inner_state Sample.Ext Finder final)) = [Some 8]
  /\ sf_error (inner_state Sample.Ext Finder final) = None.
Proof. vm_compute. repeat split. Qed.

Example handleEdit_run :
  let '(result, final) :=
    handleEdit Sample.Ext Sample.service
      (mkHosted Sample.Ext Editor (mkEditor "make it blue" "data:image/png;base64,aGk="
                   "data:image/png;base64,aGk=" false None)
         (mkWorld Sample.Ext [Sample.image_answer "Ymx1ZQ=="] [])) in
  result = Ok tt
  /\ ed_currentImage (inner_state Sample.Ext Editor final) = "data:image/png;base64,Ymx1ZQ=="
  /\ ed_originalImage (inner_state Sample.Ext Editor final) = "data:image/png;base64,aGk="
  /\ ed_prompt (inner_state Sample.Ext Editor final) = ""
  /\ trace Sample.Ext (outer_world Sample.Ext Editor final)
     = [EvCall (ReqEditImage "aGk=" "make it blue");
        EvRequest (ReqEditImage "aGk=" "make it blue")].
Proof. vm_compute. repeat split. Qed.

Example runAgentAnalysis_offline :
  let '(result, final) :=
    runAgentAnalysis Sample.Ext Sample.service Sample.JSON_parse Sample.story
      (mkStudio Sample.Ext
         (mkApp Sample.Ext (mkUi [Sample.panel 0 None false] None false false (VStr "Cat") None false)
            (mkWorld Sample.Ext [] []))
         false false) in
  result = Ok tt
  /\ analysis (ui Sample.Ext (creator Sample.Ext final)) = Some fallback_analysis
  /\ showAgent Sample.Ext final = true.
Proof. vm_compute. repeat split. Qed.
